(** * Telegram scheduled-messages bot: the message eligibility engine

    A shallow embedding of the decision logic of the Apps Script program
    (rate limiter, content validator, duplicate detector, recurrence
    rules and the per-row orchestration of [sendScheduledMessages]),
    followed by the properties established about it.

    Conventions of the embedding.
    - A JavaScript string is the list of its UTF-16 code units
      ([jsstring]); [length] is therefore the script's [.length].
    - A JavaScript value that can sit in a spreadsheet cell or be handed
      to a function is a [Value]; a [Date] object carries its time value
      in milliseconds, [None] standing for the NaN of an invalid date.
    - Numbers are integers ([Z]); a number that may be NaN is an
      [option Z].  The script's numbers are doubles, which hold every
      integer of magnitude up to 2^53 exactly: the integer model of a
      counter agrees with the script for counts within that range.
    - A [Date] cell holds a time value the host made, within 8.64e15 ms
      of the epoch, or NaN; a number turned into a date is clipped to
      that range ([timeClip]).
    - What the host runtime decides (case folding, parsing a date out of
      text, the local time zone) is a field of the record [Host]. *)

From Stdlib Require Import String Ascii ZArith NArith List Bool Lia
  DecimalString DecimalPos.
From stdpp Require Import gmap.
Import ListNotations.

Local Open Scope Z_scope.

(* ================================================================== *)
(** ** Strings as code-unit lists *)
(* ================================================================== *)

Module Str.

Definition jsstring := list N.

(** An ASCII literal as a script string. *)
Fixpoint js (s : string) : jsstring :=
  match s with
  | EmptyString => []
  | String a r => N_of_ascii a :: js r
  end.

Fixpoint streq (a b : jsstring) : bool :=
  match a, b with
  | [], [] => true
  | c :: a', d :: b' => N.eqb c d && streq a' b'
  | _, _ => false
  end.

(** [s.startsWith(p)] *)
Fixpoint startsWith (s p : jsstring) : bool :=
  match p, s with
  | [], _ => true
  | c :: p', d :: s' => N.eqb c d && startsWith s' p'
  | _ :: _, [] => false
  end.

(** [s.endsWith(p)] *)
Definition endsWith (s p : jsstring) : bool :=
  startsWith (rev s) (rev p).

(** [s.includes(p)] *)
Fixpoint includes (s p : jsstring) : bool :=
  startsWith s p ||
  match s with
  | [] => false
  | _ :: s' => includes s' p
  end.

(** [parts.join(sep)] *)
Fixpoint join (sep : jsstring) (parts : list jsstring) : jsstring :=
  match parts with
  | [] => []
  | [p] => p
  | p :: rest => p ++ sep ++ join sep rest
  end.

(** The regular-expression class [\s], which is also what [trim] strips:
    WhiteSpace and LineTerminator code units. *)
Definition isWhite (c : N) : bool :=
  ((9 <=? c) && (c <=? 13) || (c =? 32) || (c =? 160) || (c =? 5760)
   || (8192 <=? c) && (c <=? 8202) || (c =? 8232) || (c =? 8233)
   || (c =? 8239) || (c =? 8287) || (c =? 12288) || (c =? 65279))%N.

Definition isUpperAZ (c : N) : bool := ((65 <=? c) && (c <=? 90))%N.
Definition isLowerAZ (c : N) : bool := ((97 <=? c) && (c <=? 122))%N.
Definition isLetter (c : N) : bool := isUpperAZ c || isLowerAZ c.
Definition isDigit (c : N) : bool := ((48 <=? c) && (c <=? 57))%N.

(** Length of the longest prefix of [s] whose code units satisfy [p]. *)
Fixpoint runLength (p : N -> bool) (s : jsstring) : nat :=
  match s with
  | c :: s' => if p c then S (runLength p s') else O
  | [] => O
  end.

Fixpoint dropWhile (p : N -> bool) (s : jsstring) : jsstring :=
  match s with
  | c :: s' => if p c then dropWhile p s' else s
  | [] => []
  end.

Fixpoint takeWhile (p : N -> bool) (s : jsstring) : jsstring :=
  match s with
  | c :: s' => if p c then c :: takeWhile p s' else []
  | [] => []
  end.

(** [s.trim()] *)
Definition trim (s : jsstring) : jsstring :=
  rev (dropWhile isWhite (rev (dropWhile isWhite s))).

(** [s.split(sep)[0]] for a one-unit separator. *)
Definition splitHead (sep : N) (s : jsstring) : jsstring :=
  takeWhile (fun c => negb (N.eqb c sep)) s.

(** Number of code units of [s] satisfying [p]:
    [(s.match(/[class]/g) || []).length]. *)
Definition countIf (p : N -> bool) (s : jsstring) : nat :=
  length (filter p s).

(** Decimal rendering of integers, as [Number.prototype.toString] gives
    for integral values. *)
Definition natToString (n : nat) : jsstring :=
  js (NilZero.string_of_uint (Nat.to_uint n)).

Definition intToString (z : Z) : jsstring :=
  js (NilZero.string_of_int (Z.to_int z)).

(** [String(n).padStart(w, '0')] for a natural number. *)
Definition padStart0 (w : nat) (s : jsstring) : jsstring :=
  repeat 48%N (w - length s) ++ s.

(** *** Global regular-expression drivers

    A matcher [m] answers, for the text starting at the current
    position, the length of the match anchored there (if any).  The
    drivers walk the text from left to right as a global ([/g]) regular
    expression does: after a match of length [n] the next attempt is
    made [n] units further (one unit further after an empty match). *)

Definition Matcher := jsstring -> option nat.

(** [text.match(re)] for a global [re]: all matches, in order. *)
Fixpoint matchAll (m : Matcher) (skip : nat) (s : jsstring) : list jsstring :=
  match s with
  | [] => []
  | _ :: s' =>
      match skip with
      | S k => matchAll m k s'
      | O =>
          match m s with
          | Some n => firstn n s :: matchAll m (Nat.pred n) s'
          | None => matchAll m O s'
          end
      end
  end.

(** [text.replace(re, rep)] for a global [re] never matching empty. *)
Fixpoint replaceAll (m : Matcher) (rep : jsstring) (skip : nat) (s : jsstring)
  : jsstring :=
  match s with
  | [] => []
  | c :: s' =>
      match skip with
      | S k => replaceAll m rep k s'
      | O =>
          match m s with
          | Some (S n) => rep ++ replaceAll m rep n s'
          | _ => c :: replaceAll m rep O s'
          end
      end
  end.

(** [re.test(text)] on a fresh regular expression. *)
Fixpoint testRe (m : Matcher) (s : jsstring) : bool :=
  match s with
  | [] => false
  | _ :: s' =>
      match m s with
      | Some _ => true
      | None => testRe m s'
      end
  end.

(** A run of at least [k] units of class [p], taken greedily. *)
Definition runAtLeast (k : nat) (p : N -> bool) : Matcher :=
  fun s => let n := runLength p s in
           if (k <=? n)%nat then Some n else None.

(** Case-insensitive comparison with a lower-case ASCII letter, as the
    [i] flag compares code units. *)
Definition ciUnit (lower c : N) : bool :=
  (N.eqb c lower || N.eqb (c + 32) lower)%N.

Fixpoint startsWithCI (s p : jsstring) : bool :=
  match p, s with
  | [], _ => true
  | c :: p', d :: s' =>
      (if isLowerAZ c then ciUnit c d else N.eqb c d) && startsWithCI s' p'
  | _ :: _, [] => false
  end.

End Str.

Export Str.
Arguments js s%_string.

(* ================================================================== *)
(** ** Calendar arithmetic of [Date] *)
(* ================================================================== *)

Module Cal.

Definition msPerMinute : Z := 60000.
Definition msPerHour : Z := 3600000.
Definition msPerDay : Z := 86400000.

(** Day number and the time fields of a time value. *)
Definition Day (t : Z) : Z := t / msPerDay.
Definition HourFromTime (t : Z) : Z := (t / msPerHour) mod 24.
Definition MinFromTime (t : Z) : Z := (t / msPerMinute) mod 60.
Definition SecFromTime (t : Z) : Z := (t / 1000) mod 60.
Definition msFromTime (t : Z) : Z := t mod 1000.
Definition WeekDay (t : Z) : Z := (Day t + 4) mod 7.

(** Year, month (0 = January) and day of the month of a day number in
    the proleptic Gregorian calendar. *)
Definition civil (days : Z) : Z * Z * Z :=
  let z := days + 719468 in
  let era := z / 146097 in
  let doe := z - era * 146097 in
  let yoe := (doe - doe / 1460 + doe / 36524 - doe / 146096) / 365 in
  let doy := doe - (365 * yoe + yoe / 4 - yoe / 100) in
  let mp := (5 * doy + 2) / 153 in
  let d := doy - (153 * mp + 2) / 5 + 1 in
  let m := if mp <? 10 then mp + 2 else mp - 10 in
  let y := yoe + era * 400 + (if m <=? 1 then 1 else 0) in
  (y, m, d).

Definition YearFromTime (t : Z) : Z := fst (fst (civil (Day t))).
Definition MonthFromTime (t : Z) : Z := snd (fst (civil (Day t))).
Definition DateFromTime (t : Z) : Z := snd (civil (Day t)).

(** [MakeDay(year, month, date)]: the day number of the given calendar
    day; months outside 0..11 carry into the year. *)
Definition MakeDay (year month date : Z) : Z :=
  let ym := year + month / 12 in
  let mn := month mod 12 in
  let y := if mn <=? 1 then ym - 1 else ym in
  let era := y / 400 in
  let yoe := y - era * 400 in
  let mp := if mn <=? 1 then mn + 10 else mn - 2 in
  let doy := (153 * mp + 2) / 5 in
  let doe := yoe * 365 + yoe / 4 - yoe / 100 + doy in
  era * 146097 + doe - 719468 + date - 1.

Definition MakeTime (hour min sec ms : Z) : Z :=
  hour * msPerHour + min * msPerMinute + sec * 1000 + ms.

Definition MakeDate (day time : Z) : Z := day * msPerDay + time.

End Cal.

Export Cal.

(* ================================================================== *)
(** ** The host runtime *)
(* ================================================================== *)

(** What the script obtains from the JavaScript engine and cannot be read
    off its own text. *)
Record Host := {
  (** [String.prototype.toLowerCase] *)
  toLowerCase : jsstring -> jsstring;
  (** [Date.parse]: the time value of a date written as text, NaN
      ([None]) when the text is not recognised *)
  dateParse : jsstring -> option Z;
  (** [LocalTime(t)]: a UTC time value shifted to the script time zone *)
  localTime : Z -> Z;
  (** [UTC(t)]: the inverse shift *)
  utcOfLocal : Z -> Z;
  (** the optional time-zone name closing [Date.prototype.toString] *)
  tzName : Z -> jsstring
}.

(** Case folding of one code unit of Basic Latin or Latin-1. *)
Definition lowerUnit (c : N) : N :=
  (if isUpperAZ c then c + 32
   else if (192 <=? c) && (c <=? 222) && negb (c =? 215) then c + 32
   else c)%N.

Fixpoint decimalValue (acc : Z) (digits : jsstring) : option Z :=
  match digits with
  | [] => Some acc
  | c :: rest =>
      if isDigit c then decimalValue (acc * 10 + (Z.of_N c - 48)) rest
      else None
  end.

(** A date in the [toISOString] form [YYYY-MM-DDTHH:mm:ss.sssZ]. *)
Definition parseISO (s : jsstring) : option Z :=
  match s with
  | [y1; y2; y3; y4; c1; m1; m2; c2; d1; d2; c3; h1; h2; c4; n1; n2; c5;
     s1; s2; c6; f1; f2; f3; c7] =>
      if streq [c1; c2; c3; c4; c5; c6; c7] (js "--T::.Z") then
        match decimalValue 0 [y1; y2; y3; y4], decimalValue 0 [m1; m2],
              decimalValue 0 [d1; d2], decimalValue 0 [h1; h2],
              decimalValue 0 [n1; n2], decimalValue 0 [s1; s2],
              decimalValue 0 [f1; f2; f3] with
        | Some y, Some m, Some d, Some hh, Some mi, Some ss, Some ms =>
            let day := MakeDay y (m - 1) d in
            let '(y', m', d') := civil day in
            if (y' =? y) && (m' =? m - 1) && (d' =? d)
               && (hh <? 24) && (mi <? 60) && (ss <? 60)
            then Some (MakeDate day (MakeTime hh mi ss ms))
            else None
        | _, _, _, _, _, _, _ => None
        end
      else None
  | _ => None
  end.

(** A host with a fixed offset of [offMin] minutes east of Greenwich,
    used to run the embedding on concrete rows.  Case folding covers
    Basic Latin and Latin-1; the only text read as a date is the
    [toISOString] form. *)
Definition fixedHost (offMin : Z) : Host :=
  {| toLowerCase := map lowerUnit;
     dateParse := parseISO;
     localTime := fun t => t + offMin * msPerMinute;
     utcOfLocal := fun t => t - offMin * msPerMinute;
     tzName := fun _ => [] |}.

(* ================================================================== *)
(** ** JavaScript values *)
(* ================================================================== *)

(** What a cell or an argument can hold.  The time value of a [Date]
    is one the host made: within 8.64e15 ms of the epoch, or NaN. *)
Inductive Value :=
| VUndefined
| VNull
| VBool (b : bool)
| VNum (n : Z)
| VStr (s : jsstring)
| VDate (t : option Z).

(** ToBoolean *)
Definition truthy (v : Value) : bool :=
  match v with
  | VUndefined | VNull => false
  | VBool b => b
  | VNum n => negb (n =? 0)
  | VStr s => match s with [] => false | _ => true end
  | VDate _ => true
  end.

Definition isString (v : Value) : bool :=
  match v with VStr _ => true | _ => false end.

(** Completion of a computation that may throw. *)
Inductive Result (A : Type) :=
| Ok (a : A)
| Throw (e : jsstring).
Arguments Ok {A} a.
Arguments Throw {A} e.

Definition bind {A B} (r : Result A) (k : A -> Result B) : Result B :=
  match r with
  | Ok a => k a
  | Throw e => Throw e
  end.

Notation "'let!' x ':=' r 'in' k" := (bind r (fun x => k))
  (at level 10, x pattern, r at level 100, k at level 200).

(** [a === b] on numbers that may be NaN. *)
Definition numEq (a b : option Z) : bool :=
  match a, b with
  | Some x, Some y => x =? y
  | _, _ => false
  end.

(** [a >= b] on numbers that may be NaN. *)
Definition numGe (a b : option Z) : bool :=
  match a, b with
  | Some x, Some y => y <=? x
  | _, _ => false
  end.

(** [TimeClip]: a time value beyond 8.64e15 ms either side of the epoch
    is no date. *)
Definition timeClip (t : Z) : option Z :=
  if Z.abs t <=? 8640000000000000 then Some t else None.

Section DateObjects.

Variable h : Host.

(** [new Date(v)] *)
Definition newDate (v : Value) : option Z :=
  match v with
  | VDate t => t
  | VStr s => dateParse h s
  | VNum n => timeClip n
  | VBool b => Some (if b then 1 else 0)
  | VNull => Some 0
  | VUndefined => None
  end.

Definition getTime (d : option Z) : option Z := d.

Definition localField (f : Z -> Z) (d : option Z) : option Z :=
  match d with
  | Some t => Some (f (localTime h t))
  | None => None
  end.

Definition getFullYear := localField YearFromTime.
Definition getMonth := localField MonthFromTime.
Definition getDate := localField DateFromTime.
Definition getHours := localField HourFromTime.
Definition getMinutes := localField MinFromTime.
Definition getDay := localField WeekDay.

(** [d.setSeconds(0, 0)] *)
Definition setSeconds00 (d : option Z) : option Z :=
  match d with
  | Some t =>
      let lt := localTime h t in
      Some (utcOfLocal h
              (MakeDate (Day lt)
                 (MakeTime (HourFromTime lt) (MinFromTime lt) 0 0)))
  | None => None
  end.

(** [new Date(year, month, date, hours, minutes)] *)
Definition newDateFields (y mo d hh mi : option Z) : option Z :=
  match y, mo, d, hh, mi with
  | Some y, Some mo, Some d, Some hh, Some mi =>
      let yr := if (0 <=? y) && (y <=? 99) then 1900 + y else y in
      Some (utcOfLocal h (MakeDate (MakeDay yr mo d) (MakeTime hh mi 0 0)))
  | _, _, _, _, _ => None
  end.

Definition pad2 (z : Z) : jsstring := padStart0 2 (intToString z).

Definition yearISO (y : Z) : jsstring :=
  if (0 <=? y) && (y <=? 9999) then padStart0 4 (intToString y)
  else (if y <? 0 then js "-" else js "+") ++ padStart0 6 (intToString (Z.abs y)).

(** [d.toISOString()] of a valid date. *)
Definition toISOString (t : Z) : jsstring :=
  yearISO (YearFromTime t) ++ js "-" ++ pad2 (MonthFromTime t + 1) ++ js "-"
  ++ pad2 (DateFromTime t) ++ js "T" ++ pad2 (HourFromTime t) ++ js ":"
  ++ pad2 (MinFromTime t) ++ js ":" ++ pad2 (SecFromTime t) ++ js "."
  ++ padStart0 3 (intToString (msFromTime t)) ++ js "Z".

Definition dayNames : list jsstring :=
  [js "Sun"; js "Mon"; js "Tue"; js "Wed"; js "Thu"; js "Fri"; js "Sat"].

Definition monthNames : list jsstring :=
  [js "Jan"; js "Feb"; js "Mar"; js "Apr"; js "May"; js "Jun";
   js "Jul"; js "Aug"; js "Sep"; js "Oct"; js "Nov"; js "Dec"].

(** [d.toString()] *)
Definition dateToString (d : option Z) : jsstring :=
  match d with
  | None => js "Invalid Date"
  | Some t =>
      let lt := localTime h t in
      let off := (lt - t) / msPerMinute in
      let y := YearFromTime lt in
      nth (Z.to_nat (WeekDay lt)) dayNames [] ++ js " "
      ++ nth (Z.to_nat (MonthFromTime lt)) monthNames [] ++ js " "
      ++ pad2 (DateFromTime lt) ++ js " "
      ++ (if y <? 0 then js "-" else []) ++ padStart0 4 (intToString (Z.abs y))
      ++ js " " ++ pad2 (HourFromTime lt) ++ js ":" ++ pad2 (MinFromTime lt)
      ++ js ":" ++ pad2 (SecFromTime lt) ++ js " GMT"
      ++ (if off <? 0 then js "-" else js "+")
      ++ pad2 (Z.abs off / 60) ++ pad2 (Z.abs off mod 60) ++ tzName h t
  end.

(** [v.toString()]; [null] and [undefined] have no such method. *)
Definition valueToString (v : Value) : Result jsstring :=
  match v with
  | VStr s => Ok s
  | VNum n => Ok (intToString n)
  | VBool b => Ok (if b then js "true" else js "false")
  | VDate t => Ok (dateToString t)
  | VNull | VUndefined => Throw (js "TypeError: Cannot read properties of null")
  end.

(** A string method called on a value: only strings have it. *)
Definition asString (what : jsstring) (v : Value) : Result jsstring :=
  match v with
  | VStr s => Ok s
  | _ => Throw (js "TypeError: " ++ what ++ js " is not a function")
  end.

End DateObjects.

(* ================================================================== *)
(** ** Configuration *)
(* ================================================================== *)

Definition COL_DATETIME : nat := 0.
Definition COL_MESSAGE : nat := 1.
Definition COL_REPEAT : nat := 2.
Definition COL_ENABLED : nat := 3.
Definition COL_LAST_SENT : nat := 4.

Definition ALLOWED_DOMAINS : list jsstring := [].

Definition BLOCKED_DOMAINS : list jsstring :=
  [js "bit.ly"; js "tinyurl.com"; js "t.co"; js "goo.gl"; js "short.link";
   js "rebrand.ly"; js "cutt.ly"; js "t.me"].

Definition STRICT_MODE : bool := false.

Definition MAX_MESSAGES_PER_HOUR : Z := 3.
Definition MAX_MESSAGES_PER_DAY : Z := 5.

Definition MAX_MESSAGE_LENGTH : nat := 4096.
Definition MAX_URLS_PER_MESSAGE : nat := 10.
Definition MAX_SUSPICIOUS_URLS : nat := 1.

(** Code units of the umlauts in the German phrases. *)
Definition a_uml : jsstring := [228%N].
Definition o_uml : jsstring := [246%N].

Definition SUSPICIOUS_KEYWORDS : list jsstring :=
  [js "click here"; js "limited time"; js "act now"; js "urgent";
   js "free money"; js "guaranteed"; js "no risk"; js "limited offer";
   js "exclusive deal"; js "act fast"; js "don't miss out";
   js "one time only";
   js "wichtiges update"; js "nutzen sie die gelegenheit";
   js "solange sie noch besteht"; js "finanzielles wachstum";
   js "verpassen sie sie nicht";
   js "bevor der link abl" ++ a_uml ++ js "uft";
   js "entscheidender wendepunkt"; js "finanzielle freiheit";
   js "passives einkommen"; js "jetzt handeln";
   js "begrenzte pl" ++ a_uml ++ js "tze";
   js "exklusives angebot"; js "schnell reich"; js "geld verdienen"].

Definition REQUIRE_KEYWORD_VALIDATION : bool := true.

Definition REQUIRED_KEYWORDS : list jsstring :=
  [js "test"; js "montag"; js "montagtontag"; js "tontag"; js "glasiertag";
   js "luma.com"; js "melde dich"; js "zeitslot"; js "aufbau"; js "abbau";
   js "stornieren"; js "fertigen werke";
   js "helfende h" ++ a_uml ++ js "nde";
   js "t" ++ o_uml ++ js "pfern"; js "glasieren"].

(* ================================================================== *)
(** ** Rate limiter over the script cache *)
(* ================================================================== *)

(** The script cache: every key holds a text and the instant (ms) at
    which the entry expires. *)
Abbreviation Cache := (gmap jsstring (jsstring * Z)).

(** Computations over the cache. *)
Definition CacheM (A : Type) : Type := Cache -> A * Cache.

Definition ret {A} (a : A) : CacheM A := fun c => (a, c).

Definition cbind {A B} (m : CacheM A) (k : A -> CacheM B) : CacheM B :=
  fun c => let '(a, c') := m c in k a c'.

Notation "'call' x '<-' m ';' k" := (cbind m (fun x => k))
  (at level 20, x name, m at level 100, k at level 200).

(** [cache.get(key)] at instant [clock]: [null] for a missing or expired
    entry. *)
Definition cacheGet (clock : Z) (key : jsstring) : CacheM (option jsstring) :=
  fun c =>
    (match c !! key with
     | Some (v, expiry) => if clock <? expiry then Some v else None
     | None => None
     end, c).

(** [cache.put(key, value, seconds)] at instant [clock]. *)
Definition cachePut (clock : Z) (key value : jsstring) (seconds : Z)
  : CacheM unit :=
  fun c => (tt, <[key := (value, clock + seconds * 1000)]> c).

Definition hexValue (c : N) : option Z :=
  if isDigit c then Some (Z.of_N c - 48)
  else if ((97 <=? c) && (c <=? 102))%N then Some (Z.of_N c - 87)
  else if ((65 <=? c) && (c <=? 70))%N then Some (Z.of_N c - 55)
  else None.

Definition digitValue (radix : Z) (c : N) : option Z :=
  match hexValue c with
  | Some d => if d <? radix then Some d else None
  | None => None
  end.

(** Value of the longest prefix of digits; [None] when there is none. *)
Fixpoint parseDigits (radix : Z) (acc : option Z) (s : jsstring) : option Z :=
  match s with
  | c :: s' =>
      match digitValue radix c with
      | Some d =>
          parseDigits radix
            (Some (match acc with Some a => a * radix + d | None => d end)) s'
      | None => acc
      end
  | [] => acc
  end.

(** [parseInt(s)] without a radix argument.  The value is the integer the
    digits denote; the script holds it as a double, which is that integer
    when it lies strictly between -2^53 and 2^53 ([exactCount]). *)
Definition parseInt (s : jsstring) : option Z :=
  let s1 := dropWhile isWhite s in
  let '(neg, s2) :=
    match s1 with
    | 45%N :: r => (true, r)
    | 43%N :: r => (false, r)
    | _ => (false, s1)
    end in
  let '(radix, s3) :=
    match s2 with
    | 48%N :: 120%N :: r => (16, r)
    | 48%N :: 88%N :: r => (16, r)
    | _ => (10, s2)
    end in
  match parseDigits radix None s3 with
  | Some v => Some (if neg then - v else v)
  | None => None
  end.

(** A number that may be NaN inside a template literal; the decimal digits
    of the integer, as the script prints a count below 10^21. *)
Definition numToString (n : option Z) : jsstring :=
  match n with
  | Some z => intToString z
  | None => js "NaN"
  end.

(** [n + 1] on a number; exact on a count within [exactCount]. *)
Definition numSucc (n : option Z) : option Z :=
  match n with
  | Some z => Some (z + 1)
  | None => None
  end.

Record RateResult := {
  isAllowed : bool;
  rateReason : jsstring;
  hourCount : option Z;
  dayCount : option Z
}.

Section RateLimit.

Variable h : Host.

(** The key of the hour bucket and of the day bucket of instant [now]. *)
Definition dayKeySuffix (now : Z) : jsstring :=
  numToString (getFullYear h (Some now)) ++ js "_"
  ++ numToString (getMonth h (Some now)) ++ js "_"
  ++ numToString (getDate h (Some now)).

Definition hourKey (now : Z) : jsstring :=
  js "rate_hour_" ++ dayKeySuffix now ++ js "_"
  ++ numToString (getHours h (Some now)).

Definition dayKey (now : Z) : jsstring :=
  js "rate_day_" ++ dayKeySuffix now.

(** [parseInt(cache.get(key) || '0')] *)
Definition readCount (now : Z) (key : jsstring) : CacheM (option Z) :=
  call v <- cacheGet now key;
  ret (parseInt (match v with
                 | Some ((_ :: _) as s) => s
                 | _ => js "0"
                 end)).

Definition checkRateLimit (now : Z) : CacheM RateResult :=
  call hc <- readCount now (hourKey now);
  call dc <- readCount now (dayKey now);
  if numGe hc (Some MAX_MESSAGES_PER_HOUR) then
    ret {| isAllowed := false;
           rateReason := js "Rate limit exceeded: " ++ numToString hc
                         ++ js " messages sent this hour (limit: "
                         ++ intToString MAX_MESSAGES_PER_HOUR ++ js ")";
           hourCount := hc; dayCount := dc |}
  else if numGe dc (Some MAX_MESSAGES_PER_DAY) then
    ret {| isAllowed := false;
           rateReason := js "Rate limit exceeded: " ++ numToString dc
                         ++ js " messages sent today (limit: "
                         ++ intToString MAX_MESSAGES_PER_DAY ++ js ")";
           hourCount := hc; dayCount := dc |}
  else
    ret {| isAllowed := true;
           rateReason := js "Rate limit OK (" ++ numToString hc ++ js "/"
                         ++ intToString MAX_MESSAGES_PER_HOUR
                         ++ js " per hour, " ++ numToString dc ++ js "/"
                         ++ intToString MAX_MESSAGES_PER_DAY
                         ++ js " per day)";
           hourCount := hc; dayCount := dc |}.

Definition incrementRateLimit (now : Z) : CacheM unit :=
  call hc <- readCount now (hourKey now);
  call dc <- readCount now (dayKey now);
  call _ <- cachePut now (hourKey now) (numToString (numSucc hc)) (60 * 60);
  cachePut now (dayKey now) (numToString (numSucc dc)) (6 * 60 * 60).

End RateLimit.

(* ================================================================== *)
(** ** Content validation *)
(* ================================================================== *)

Record Verdict := {
  isValid : bool;
  reason : jsstring;
  foundUrls : list jsstring;
  blockedDomains : list jsstring;
  validationDetails : list jsstring;
  (** the two properties only some verdicts carry *)
  missingKeywords : bool;
  allowedDomains : option (list jsstring)
}.

Definition verdict (ok : bool) (why : jsstring) (urls blocked details : list jsstring)
  : Verdict :=
  {| isValid := ok; reason := why; foundUrls := urls;
     blockedDomains := blocked; validationDetails := details;
     missingKeywords := false; allowedDomains := None |}.

Definition quote : jsstring := [34%N].
Definition nonWhite (c : N) : bool := negb (isWhite c).

(** [/https?:\/\/[^\s]+/i] anchored at the head of the text. *)
Definition matchHttp : Matcher := fun s =>
  let scheme :=
    if startsWithCI s (js "https://") then Some 8%nat
    else if startsWithCI s (js "http://") then Some 7%nat
    else None in
  match scheme with
  | Some k =>
      match runLength nonWhite (skipn k s) with
      | O => None
      | n => Some (k + n)%nat
      end
  | None => None
  end.

(** [/www\.[^\s]+/i] *)
Definition matchWww : Matcher := fun s =>
  if startsWithCI s (js "www.") then
    match runLength nonWhite (skipn 4 s) with
    | O => None
    | n => Some (4 + n)%nat
    end
  else None.

Definition isHostUnit (c : N) : bool := isLetter c || isDigit c || (c =? 45)%N.

(** [/[a-zA-Z0-9-]+\.[a-zA-Z]{2,}[^\s]*/i]: the greedy run of host
    units must be followed by a dot and two letters. *)
Definition matchBare : Matcher := fun s =>
  match runLength isHostUnit s with
  | O => None
  | k =>
      match skipn k s with
      | 46%N :: rest =>
          if (2 <=? runLength isLetter rest)%nat
          then Some (k + 1 + runLength nonWhite rest)%nat
          else None
      | _ => None
      end
  end.

(** The three alternatives of [urlPattern], tried in order. *)
Definition urlPattern : Matcher := fun s =>
  match matchHttp s with
  | Some n => Some n
  | None =>
      match matchWww s with
      | Some n => Some n
      | None => matchBare s
      end
  end.

(** [/[.,;:!?]+$/] removed. *)
Definition isTrailingPunct (c : N) : bool :=
  ((c =? 46) || (c =? 44) || (c =? 59) || (c =? 58) || (c =? 33) || (c =? 63))%N.

Definition stripTrailingPunct (url : jsstring) : jsstring :=
  rev (dropWhile isTrailingPunct (rev url)).

(** [/[!?.]/] *)
Definition isPunct (c : N) : bool := ((c =? 33) || (c =? 63) || (c =? 46))%N.

(** [/(.)\1{4,}/]: a unit other than a line terminator, then the same
    unit at least four more times. *)
Definition isLineTerminator (c : N) : bool :=
  ((c =? 10) || (c =? 13) || (c =? 8232) || (c =? 8233))%N.

Definition repeatPattern : Matcher := fun s =>
  match s with
  | c :: rest =>
      if negb (isLineTerminator c) && (4 <=? runLength (N.eqb c) rest)%nat
      then Some (S (runLength (N.eqb c) rest))
      else None
  | [] => None
  end.

Section Validator.

Variable h : Host.

Definition hasRequiredKeywords (text : Value) : bool * list jsstring :=
  match text with
  | VStr ((_ :: _) as s) =>
      let lowerText := toLowerCase h s in
      let foundKeywords :=
        filter (fun keyword => includes lowerText (toLowerCase h keyword))
          REQUIRED_KEYWORDS in
      ((0 <? length foundKeywords)%nat, foundKeywords)
  | _ => (false, [])
  end.

Definition extractUrls (text : Value) : list jsstring :=
  match text with
  | VStr ((_ :: _) as s) =>
      map (fun url =>
             let url := stripTrailingPunct url in
             let url :=
               if negb (startsWith url (js "http://"))
                  && negb (startsWith url (js "https://"))
               then js "https://" ++ url else url in
             toLowerCase h url)
          (matchAll urlPattern O s)
  | _ => []
  end.

(** [capsRatio >= 0.5] is decided on the integers: the quotient of two
    lengths is compared with a power of two. *)
Definition hasExcessiveCaps (text : Value) : bool :=
  match text with
  | VStr ((_ :: _) as s) =>
      let cleanText :=
        replaceAll (runAtLeast 1 isWhite) [] O (replaceAll matchHttp [] O s) in
      match cleanText with
      | [] => false
      | _ => (length cleanText <=? 2 * countIf isUpperAZ cleanText)%nat
      end
  | _ => false
  end.

(** [punctRatio > 0.1]: ten times the count exceeds the length. *)
Definition hasExcessivePunctuation (text : Value) : bool :=
  match text with
  | VStr ((_ :: _) as s) =>
      if testRe (runAtLeast 3 isPunct) s then true
      else (length s <? 10 * countIf isPunct s)%nat
  | _ => false
  end.

Definition hasSuspiciousPatterns (text : Value) : bool * list jsstring :=
  match text with
  | VStr ((_ :: _) as s) =>
      let lowerText := toLowerCase h s in
      let patterns :=
        map (fun keyword => js "Suspicious keyword: " ++ quote ++ keyword ++ quote)
          (filter (fun keyword => includes lowerText keyword) SUSPICIOUS_KEYWORDS)
        ++ (if testRe (runAtLeast 10 isDigit) s
            then [js "Excessive numbers detected"] else [])
        ++ (if testRe repeatPattern s
            then [js "Suspicious character repetition"] else []) in
      ((0 <? length patterns)%nat, patterns)
  | _ => (false, [])
  end.

(** The [catch] of the script cannot be reached on a string, so the
    answer is never [null]. *)
Definition extractDomain (url : jsstring) : option jsstring :=
  let domain :=
    if startsWith url (js "https://") then skipn 8 url
    else if startsWith url (js "http://") then skipn 7 url
    else url in
  let domain := if startsWith domain (js "www.") then skipn 4 domain else domain in
  let domain := splitHead 35 (splitHead 63 (splitHead 47 domain)) in
  let domain := splitHead 58 domain in
  Some (toLowerCase h domain).

Definition domainMatches (domain listed : jsstring) : bool :=
  streq domain listed || endsWith domain (js "." ++ listed).

(** The nested loops over the domains and the blacklist. *)
Definition blockedAmong (domains : list jsstring) : list jsstring :=
  flat_map (fun domain =>
              flat_map (fun blockedDomain =>
                          if domainMatches domain blockedDomain
                          then [domain] else [])
                BLOCKED_DOMAINS)
    domains.

(** The whitelist loop: the domains accepted so far, and the first
    domain matching no allowed entry, if there is one. *)
Fixpoint whitelistScan (domains allowed : list jsstring)
  : list jsstring * option jsstring :=
  match domains with
  | [] => (allowed, None)
  | domain :: rest =>
      if existsb (domainMatches domain) ALLOWED_DOMAINS
      then whitelistScan rest (allowed ++ [domain])
      else (allowed, Some domain)
  end.

Definition emptyVerdict : Verdict :=
  verdict false (js "Empty or invalid message") [] [] [].

Definition validateText (message : jsstring) : Verdict :=
  let validationDetails : list jsstring := [] in
  if (MAX_MESSAGE_LENGTH <? length message)%nat then
    verdict false
      (js "Message too long: " ++ natToString (length message)
       ++ js " characters (limit: " ++ natToString MAX_MESSAGE_LENGTH ++ js ")")
      [] []
      [js "Length check failed: " ++ natToString (length message) ++ js " > "
       ++ natToString MAX_MESSAGE_LENGTH]
  else
  let keywordCheck := hasRequiredKeywords (VStr message) in
  if REQUIRE_KEYWORD_VALIDATION && negb (fst keywordCheck) then
    {| isValid := false;
       reason :=
         js "Message does not contain any required keywords. Expected keywords include: "
         ++ join (js ", ") (firstn 5 REQUIRED_KEYWORDS)
         ++ (if (5 <? length REQUIRED_KEYWORDS)%nat then js "..." else []);
       foundUrls := [];
       blockedDomains := [];
       validationDetails := validationDetails ++ [js "Missing required keywords"];
       missingKeywords := true;
       allowedDomains := None |}
  else
  let validationDetails :=
    if REQUIRE_KEYWORD_VALIDATION
    then validationDetails
         ++ [js "Found required keywords: " ++ join (js ", ") (snd keywordCheck)]
    else validationDetails in
  let urls := extractUrls (VStr message) in
  if (MAX_URLS_PER_MESSAGE <? length urls)%nat then
    verdict false
      (js "Too many URLs detected: " ++ natToString (length urls)
       ++ js " (limit: " ++ natToString MAX_URLS_PER_MESSAGE ++ js ")")
      urls []
      (validationDetails
       ++ [js "Too many URLs: " ++ natToString (length urls) ++ js " (limit: "
           ++ natToString MAX_URLS_PER_MESSAGE ++ js ")"])
  else
  let validationDetails :=
    if (MAX_SUSPICIOUS_URLS <? length urls)%nat
    then validationDetails
         ++ [js "Suspicious number of URLs: " ++ natToString (length urls)]
    else validationDetails in
  if (length urls =? 0)%nat then
    if hasExcessiveCaps (VStr message) then
      verdict false (js "Excessive capitalization detected (potential spam)")
        [] [] (validationDetails ++ [js "Excessive capitalization detected"])
    else if hasExcessivePunctuation (VStr message) then
      verdict false (js "Excessive punctuation detected (potential spam)")
        [] [] (validationDetails ++ [js "Excessive punctuation detected"])
    else
      let patternCheck := hasSuspiciousPatterns (VStr message) in
      if fst patternCheck then
        verdict false
          (js "Suspicious patterns detected: " ++ join (js "; ") (snd patternCheck))
          [] [] (validationDetails ++ snd patternCheck)
      else
        verdict true (js "No URLs found, content validated") [] [] []
  else
  let domains := omap extractDomain urls in
  let blocked := blockedAmong domains in
  if (0 <? length blocked)%nat then
    verdict false (js "Blocked domain(s) detected: " ++ join (js ", ") blocked)
      urls blocked
      (validationDetails ++ [js "Blocked domains: " ++ join (js ", ") blocked])
  else
  let scan :=
    if STRICT_MODE && (0 <? length ALLOWED_DOMAINS)%nat
    then whitelistScan domains []
    else ([], None) in
  match snd scan with
  | Some domain =>
      {| isValid := false;
         reason := js "Domain not in whitelist: " ++ domain;
         foundUrls := urls;
         blockedDomains := [];
         validationDetails :=
           validationDetails ++ [js "Domain not in whitelist: " ++ domain];
         missingKeywords := false;
         allowedDomains := Some (fst scan) |}
  | None =>
  let validationDetails :=
    if hasExcessiveCaps (VStr message)
    then validationDetails ++ [js "Excessive capitalization detected"]
    else validationDetails in
  let validationDetails :=
    if hasExcessivePunctuation (VStr message)
    then validationDetails ++ [js "Excessive punctuation detected"]
    else validationDetails in
  let patternCheck := hasSuspiciousPatterns (VStr message) in
  let validationDetails :=
    if fst patternCheck then validationDetails ++ snd patternCheck
    else validationDetails in
  if fst patternCheck && (2 <=? length (snd patternCheck))%nat then
    verdict false
      (js "Multiple suspicious patterns detected: "
       ++ join (js "; ") (snd patternCheck))
      urls [] validationDetails
  else
    {| isValid := true;
       reason := js "URLs validated: " ++ join (js ", ") domains;
       foundUrls := urls;
       blockedDomains := [];
       validationDetails := validationDetails;
       missingKeywords := false;
       allowedDomains := Some domains |}
  end.

(** [validateMessage(message)]: the guard [!message || typeof message
    !== 'string'], then the checks on the text. *)
Definition validateMessage (message : Value) : Verdict :=
  match message with
  | VStr ((_ :: _) as s) => validateText s
  | _ => emptyVerdict
  end.

End Validator.

(* ================================================================== *)
(** ** Duplicate content detection *)
(* ================================================================== *)

(** A row of the sheet as [getValues] returns it, and a cell of it
    ([undefined] past the end of the row). *)
Abbreviation Row := (list Value).

Definition cell (row : Row) (col : nat) : Value :=
  default VUndefined (row !! col).

Record DupResult := {
  isDuplicate : bool;
  dupReason : jsstring
}.

Definition notDuplicate : DupResult :=
  {| isDuplicate := false; dupReason := [] |}.

Section Duplicates.

Variable h : Host.

(** [s.trim().toLowerCase().replace(/\s+/g, ' ')] *)
Definition normalizeText (s : jsstring) : jsstring :=
  replaceAll (runAtLeast 1 isWhite) (js " ") O (toLowerCase h (trim s)).

(** The loop of [detectDuplicateContent] from index [i] on, [rows] being
    the rows [sheetData[i]], [sheetData[i+1]], ... *)
Fixpoint dupScan (normalizedMessage : jsstring) (twentyFourHoursAgo : Z)
    (currentRowIndex : Z) (i : nat) (rows : list Row) : Result DupResult :=
  match rows with
  | [] => Ok notDuplicate
  | row :: rest =>
      let continue :=
        dupScan normalizedMessage twentyFourHoursAgo currentRowIndex (S i) rest in
      if Z.of_nat i =? currentRowIndex + 1 then continue
      else
        let otherMessage := cell row COL_MESSAGE in
        let lastSent := cell row COL_LAST_SENT in
        if negb (truthy otherMessage) then continue
        else
          let! other := asString (js "otherMessage.trim") otherMessage in
          let normalizedOther := normalizeText other in
          if streq normalizedMessage normalizedOther && truthy lastSent then
            match newDate h lastSent, valueToString h lastSent with
            | Some t, Ok text =>
                if (twentyFourHoursAgo <=? t)
                   && negb (startsWith text (js "ERROR:"))
                   && negb (startsWith text (js "BLOCKED:"))
                then Ok {| isDuplicate := true;
                           dupReason :=
                             js "Duplicate message detected: Same content was sent at "
                             ++ toISOString t |}
                else continue
            | _, _ => continue
            end
          else continue
  end.

(** [detectDuplicateContent(message, sheetData, currentRowIndex)], the
    clock read by [new Date()] being [clock]. *)
Definition detectDuplicateContent (clock : Z) (message : Value)
    (sheetData : list Row) (currentRowIndex : Z) : Result DupResult :=
  if negb (truthy message) || (currentRowIndex <? 0) then Ok notDuplicate
  else
    let twentyFourHoursAgo := clock - 24 * 60 * 60 * 1000 in
    let! text := asString (js "message.trim") message in
    dupScan (normalizeText text) twentyFourHoursAgo currentRowIndex 1
      (skipn 1 sheetData).

End Duplicates.

(* ================================================================== *)
(** ** The scheduler *)
(* ================================================================== *)

(** What a row makes the script do to the outside world. *)
Inductive Effect :=
| SetValue (sheetRow column : nat) (v : Value)
| NotifyAdmin (rowNumber : nat) (message : Value) (blockReason : jsstring)
    (validationResult : option Verdict) (additionalInfo : jsstring)
| LogMessageSend (rowNumber : nat) (message : Value) (repeatPattern : Value)
    (timestamp : Z) (validationResult : Verdict) (wasBlocked : bool)
    (blockReason : jsstring)
| FetchSendMessage (text : Value)
| SendHelperPoll.

(** The answer of the Telegram API to [sendMessage]. *)
Inductive Response :=
| RespOk
| RespNotOk (description : jsstring)
| RespThrows (message : jsstring).

(** The instants read by the [new Date()] calls made for one row. *)
Record RowClock := {
  atDuplicateCheck : Z;
  atRateCheck : Z;
  atIncrement : Z
}.

Inductive Completion :=
| Normal
| Abrupt (e : jsstring).

Record Step := {
  effects : list Effect;
  cacheAfter : Cache;
  completion : Completion
}.

Definition checkMark : jsstring := [9989%N].

Section Scheduler.

Variable h : Host.

(** [sanitizeErrorMessage]: masks the bot token, a script property. *)
Variable sanitizeErrorMessage : jsstring -> jsstring.

(** The [Last Sent] cell as the scheduler reads it: [None] is [null],
    [Some d] a [Date] object of time value [d]. *)
Definition parseLastSent (lastSentValue : Value) : option (option Z) :=
  if truthy lastSentValue then
    match lastSentValue with
    | VStr s =>
        if startsWith s (js "ERROR:") then None
        else Some (newDate h lastSentValue)
    | _ => Some (newDate h lastSentValue)
    end
  else None.

Definition isEnabled (enabled : Value) : bool :=
  match enabled with
  | VBool true => true
  | VStr s =>
      streq s checkMark
      || streq (trim (toLowerCase h s)) (js "yes")
      || streq (trim (toLowerCase h s)) (js "true")
      || includes s checkMark
  | _ => false
  end.

(** [new Date(d.getFullYear(), d.getMonth(), d.getDate(), d.getHours(),
    d.getMinutes())] *)
Definition minuteOf (d : option Z) : option Z :=
  newDateFields h (getFullYear h d) (getMonth h d) (getDate h d)
    (getHours h d) (getMinutes h d).

(** The guard against a second send within one minute. *)
Definition sentThisMinute (now : Z) (lastSent : option (option Z)) : bool :=
  match lastSent with
  | Some d => numEq (getTime (minuteOf (Some now))) (getTime (minuteOf d))
  | None => false
  end.

Definition exactDateMatch (now : Z) (start : option Z) : bool :=
  numEq (getFullYear h start) (getFullYear h (Some now))
  && numEq (getMonth h start) (getMonth h (Some now))
  && numEq (getDate h start) (getDate h (Some now)).

Definition timeMatch (now : Z) (start : option Z) : bool :=
  numEq (getHours h (Some now)) (getHours h start)
  && numEq (getMinutes h (Some now)) (getMinutes h start).

(** [Math.floor((now - start) / (1000 * 60 * 60 * 24))] *)
Definition diffDays (now : Z) (start : option Z) : option Z :=
  match start with
  | Some s => Some ((now - s) / msPerDay)
  | None => None
  end.

(** [diffDays >= 0 && diffDays % n === 0] *)
Definition everyNth (n : Z) (d : option Z) : bool :=
  match d with
  | Some k => (0 <=? k) && (Z.rem k n =? 0)
  | None => false
  end.

Definition isOneTime (repeat : jsstring) : bool :=
  streq repeat [] || streq repeat (js "don't")
  || streq repeat (js "don't repeat").

(** The recurrence rules. *)
Definition shouldSend (now : Z) (start : option Z) (repeat : jsstring)
    (lastSent : option (option Z)) : bool :=
  let timeMatch := timeMatch now start in
  let day := getDay h (Some now) in
  let mDay := getDate h (Some now) in
  let month := getMonth h (Some now) in
  let diffDays := diffDays now start in
  (isOneTime repeat && exactDateMatch now start && timeMatch)
  || (streq repeat (js "every minute")
      && match lastSent with
         | None => true
         | Some d => match d with
                     | Some t => 60000 <=? now - t
                     | None => false
                     end
         end)
  || (streq repeat (js "daily") && timeMatch)
  || (streq repeat (js "weekly") && timeMatch && numEq day (getDay h start))
  || (streq repeat (js "monthly") && timeMatch && numEq mDay (getDate h start))
  || (streq repeat (js "yearly") && timeMatch && numEq mDay (getDate h start)
      && numEq month (getMonth h start))
  || (streq repeat (js "every 2 days") && timeMatch && everyNth 2 diffDays)
  || (streq repeat (js "every 3 days") && timeMatch && everyNth 3 diffDays)
  || (streq repeat (js "every 7 days") && timeMatch && everyNth 7 diffDays)
  || (streq repeat (js "every 14 days") && timeMatch && everyNth 14 diffDays)
  || (streq repeat (js "monday") && timeMatch && numEq day (Some 1))
  || (streq repeat (js "tuesday") && timeMatch && numEq day (Some 2))
  || (streq repeat (js "wednesday") && timeMatch && numEq day (Some 3))
  || (streq repeat (js "thursday") && timeMatch && numEq day (Some 4))
  || (streq repeat (js "friday") && timeMatch && numEq day (Some 5))
  || (streq repeat (js "saturday") && timeMatch && numEq day (Some 6))
  || (streq repeat (js "sunday") && timeMatch && numEq day (Some 0)).

Definition skip (cache : Cache) : Step :=
  {| effects := []; cacheAfter := cache; completion := Normal |}.

Definition abort (cache : Cache) (e : jsstring) : Step :=
  {| effects := []; cacheAfter := cache; completion := Abrupt e |}.

Definition lastSentColumn : nat := COL_LAST_SENT + 1.

(** The send itself and what follows from the answer of the API. *)
Definition sendRow (now : Z) (clk : RowClock) (resp : Response) (i : nat)
    (msg : Value) (validationResult : Verdict) (cache : Cache) : Step :=
  let failed (message : jsstring) :=
    let sanitizedError := sanitizeErrorMessage message in
    {| effects :=
         [FetchSendMessage msg;
          SetValue (i + 1) lastSentColumn (VStr (js "ERROR: " ++ sanitizedError));
          NotifyAdmin (i + 1) msg (js "ERROR: " ++ sanitizedError) None
            (js "Row " ++ natToString (i + 1) ++ js " failed to send")];
       cacheAfter := cache;
       completion := Normal |} in
  match resp with
  | RespOk =>
      {| effects :=
           [FetchSendMessage msg;
            SetValue (i + 1) lastSentColumn (VDate (Some now))]
           ++ (if (0 <? length (foundUrls validationResult))%nat
               then [SendHelperPoll] else []);
         cacheAfter := snd (incrementRateLimit h (atIncrement clk) cache);
         completion := Normal |}
  | RespNotOk description =>
      failed (match description with
              | [] => js "Unknown Telegram API error"
              | _ => description
              end)
  | RespThrows message => failed message
  end.

(** The body of the loop of [sendScheduledMessages] for [row = data[i]],
    [now] being the evaluation instant with its seconds cleared. *)
Definition processRow (now : Z) (clk : RowClock) (resp : Response)
    (data : list Row) (i : nat) (row : Row) (cache : Cache) : Step :=
  if negb (truthy (cell row COL_DATETIME)) then skip cache else
  let start := setSeconds00 h (newDate h (cell row COL_DATETIME)) in
  let msg := cell row COL_MESSAGE in
  let repeatRaw :=
    if truthy (cell row COL_REPEAT) then cell row COL_REPEAT else VStr [] in
  let enabled := cell row COL_ENABLED in
  let lastSent := parseLastSent (cell row COL_LAST_SENT) in
  if negb (truthy msg) || negb (isEnabled enabled) then skip cache else
  if sentThisMinute now lastSent then skip cache else
  match asString (js "repeatRaw.toLowerCase") repeatRaw with
  | Throw e => abort cache e
  | Ok repeatText =>
  let repeat := trim (toLowerCase h repeatText) in
  if negb (shouldSend now start repeat lastSent) then skip cache else
  match detectDuplicateContent h (atDuplicateCheck clk) msg data (Z.of_nat i) with
  | Throw e => abort cache e
  | Ok duplicateCheck =>
  if isDuplicate duplicateCheck then
    let blockReason := js "BLOCKED: " ++ dupReason duplicateCheck in
    {| effects :=
         [SetValue (i + 1) lastSentColumn (VStr blockReason);
          NotifyAdmin (i + 1) msg blockReason None (dupReason duplicateCheck)];
       cacheAfter := cache;
       completion := Normal |}
  else
  let validationResult := validateMessage h msg in
  let logged :=
    LogMessageSend (i + 1) msg repeatRaw now validationResult
      (negb (isValid validationResult))
      (if isValid validationResult then [] else reason validationResult) in
  if negb (isValid validationResult) then
    let blockReason := js "BLOCKED: " ++ reason validationResult in
    {| effects :=
         [logged;
          SetValue (i + 1) lastSentColumn (VStr blockReason);
          NotifyAdmin (i + 1) msg blockReason (Some validationResult) []];
       cacheAfter := cache;
       completion := Normal |}
  else
  let '(rateLimitCheck, cache) := checkRateLimit h (atRateCheck clk) cache in
  if negb (isAllowed rateLimitCheck) then
    let blockMsg := js "RATE_LIMITED: " ++ rateReason rateLimitCheck in
    {| effects :=
         [logged;
          SetValue (i + 1) lastSentColumn (VStr blockMsg);
          NotifyAdmin (i + 1) msg blockMsg None
            (js "Hour: " ++ numToString (hourCount rateLimitCheck) ++ js "/"
             ++ intToString MAX_MESSAGES_PER_HOUR ++ js ", Day: "
             ++ numToString (dayCount rateLimitCheck) ++ js "/"
             ++ intToString MAX_MESSAGES_PER_DAY)];
       cacheAfter := cache;
       completion := Normal |}
  else
  let sent := sendRow now clk resp i msg validationResult cache in
  {| effects := logged :: effects sent;
     cacheAfter := cacheAfter sent;
     completion := completion sent |}
  end
  end.

(** The loop over [data[i]], [data[i+1]], ...; an exception leaves it. *)
Fixpoint processRows (now : Z) (clock : nat -> RowClock)
    (transport : nat -> Response) (data : list Row) (i : nat)
    (rows : list Row) (cache : Cache) : Step :=
  match rows with
  | [] => skip cache
  | row :: rest =>
      let s := processRow now (clock i) (transport i) data i row cache in
      match completion s with
      | Abrupt _ => s
      | Normal =>
          let s' := processRows now clock transport data (S i) rest (cacheAfter s) in
          {| effects := effects s ++ effects s';
             cacheAfter := cacheAfter s';
             completion := completion s' |}
      end
  end.

(** [sendScheduledMessages()], started at instant [started]: the header
    row is skipped; an exception ends the loop, the script logs it and
    returns, and [completion] keeps it. *)
Definition sendScheduledMessages (started : Z) (clock : nat -> RowClock)
    (transport : nat -> Response) (data : list Row) (cache : Cache) : Step :=
  match setSeconds00 h (Some started) with
  | Some now => processRows now clock transport data 1 (skipn 1 data) cache
  | None => skip cache
  end.

End Scheduler.

(* ================================================================== *)
(** ** Further functions of the script *)
(* ================================================================== *)

(** The script properties: a store of texts under text keys. *)
Abbreviation Props := (gmap jsstring jsstring).

(** [cache.remove(key)] *)
Definition cacheRemove (key : jsstring) : CacheM unit :=
  fun c => (tt, delete key c).

(** The keys of the counters an earlier version kept in the script
    properties. *)
Definition isLegacyRateKey (key : jsstring) : bool :=
  startsWith key (js "msg_count_hour_") || startsWith key (js "msg_count_day_").

(** The loop [for (const key in allProps)] with its [deleteProperty]. *)
Definition deleteLegacy (props : Props) (keys : list jsstring) : Props :=
  foldl (fun p key => if isLegacyRateKey key then delete key p else p)
    props keys.

(** The number of confirmed sends among the effects of a run: a send is
    recorded by writing the evaluation instant, a date, to the sheet,
    and nothing else writes a date. *)
Definition isSendRecord (e : Effect) : bool :=
  match e with
  | SetValue _ _ (VDate _) => true
  | _ => false
  end.

Definition sendRecords (es : list Effect) : nat :=
  length (filter isSendRecord es).

(** The answer of the debug analysis for one row. *)
Record DebugAnalysis := {
  duplicateBlocked : bool;
  debugShouldSend : bool;
  debugValidation : Verdict;
  willActuallySend : bool;
  sendStatus : jsstring
}.

Definition crossMark : jsstring := [10060%N].
Definition noEntrySign : jsstring := [55357%N; 57003%N].
Definition newline : jsstring := [10%N].

Section Further.

Variable h : Host.

(** [resetRateLimit()] at instant [now]: the two counters of the
    current buckets are removed from the cache and the legacy keys from
    the script properties. *)
Definition resetRateLimit (now : Z) (props : Props)
  : CacheM (jsstring * Props) :=
  call _ <- cacheRemove (hourKey h now);
  call _ <- cacheRemove (dayKey h now);
  ret (js "Rate limit counters reset successfully (cache + legacy properties)",
       deleteLegacy props (map fst (map_to_list props))).

(** A value inside a template literal. *)
Definition template (v : Value) : Result jsstring :=
  match v with
  | VUndefined => Ok (js "undefined")
  | VNull => Ok (js "null")
  | _ => valueToString h v
  end.

(** [message.length] inside a template literal: a number for a text,
    [undefined] for a value without that property, an exception for
    [null] and [undefined]. *)
Definition lengthText (message : Value) : Result jsstring :=
  match message with
  | VStr s => Ok (natToString (length s))
  | VNull | VUndefined =>
      Throw (js "TypeError: Cannot read properties of null")
  | _ => Ok (js "undefined")
  end.

(** The text [notifyAdmin] composes. *)
Definition adminNotification (timestamp : Z) (rowNumber : nat)
    (message : Value) (blockReason : jsstring)
    (validationResult : option Verdict) (additionalInfo : jsstring)
  : Result jsstring :=
  let notification :=
    noEntrySign ++ js " BLOCKED MESSAGE ALERT" ++ newline ++ newline
    ++ js "Timestamp: " ++ toISOString timestamp ++ newline
    ++ js "Row Number: " ++ natToString rowNumber ++ newline
    ++ js "Block Reason: " ++ blockReason ++ newline ++ newline in
  let notification :=
    match validationResult with
    | Some v =>
        notification
        ++ (if (0 <? length (foundUrls v))%nat
            then js "Found URLs: " ++ natToString (length (foundUrls v))
                 ++ newline ++ js "URLs: " ++ join (js ", ") (foundUrls v)
                 ++ newline ++ newline
            else [])
        ++ (if (0 <? length (blockedDomains v))%nat
            then js "Blocked Domains: " ++ join (js ", ") (blockedDomains v)
                 ++ newline ++ newline
            else [])
        ++ (if (0 <? length (validationDetails v))%nat
            then js "Validation Details:" ++ newline
                 ++ flat_map (fun detail => js "- " ++ detail ++ newline)
                      (validationDetails v)
                 ++ newline
            else [])
    | None => notification
    end in
  let notification :=
    match additionalInfo with
    | [] => notification
    | _ => notification ++ js "Additional Info: " ++ additionalInfo
           ++ newline ++ newline
    end in
  let! text := template message in
  let notification :=
    notification ++ js "Full Message Content:" ++ newline ++ quote ++ text
    ++ quote ++ newline ++ newline in
  let! len := lengthText message in
  Ok (notification ++ js "Message Length: " ++ len ++ js " characters").

(** [notifyAdmin(...)] with the script properties [DEBUG_CHAT_ID] and
    [TOKEN], the clock at [timestamp] and the transport answering
    [resp]: the text posted to the debug chat, if any, and the
    completion.  An exception raised while the text is composed or
    posted is caught; the handler passes its message through
    [sanitizeErrorMessage], which compiles the token as a regular
    expression and may raise in its turn, out of [notifyAdmin]. *)
Definition notifyAdmin (sanitizeErrorMessage : jsstring -> Result jsstring)
    (debugChatId token : Value) (timestamp : Z)
    (resp : Response) (rowNumber : nat) (message : Value)
    (blockReason : jsstring) (validationResult : option Verdict)
    (additionalInfo : jsstring) : option jsstring * Result bool :=
  if negb (truthy debugChatId) || negb (truthy token) then (None, Ok false)
  else
    let caught (e : jsstring) : Result bool :=
      let! _ := sanitizeErrorMessage e in Ok false in
    match adminNotification timestamp rowNumber message blockReason
            validationResult additionalInfo with
    | Throw e => (None, caught e)
    | Ok notification =>
        (Some notification,
         match resp with
         | RespOk => Ok true
         | RespNotOk _ => Ok false
         | RespThrows e => caught e
         end)
    end.

(** The analysis [debugTest] makes of one of the rows it picked, at the
    evaluation instant [now] (seconds cleared): the anchor keeps its
    seconds, the minute guard is only reported, and the verdict is the
    recurrence rule and the validator. *)
Definition debugRow (now : Z) (row : Row) : Result DebugAnalysis :=
  let start := newDate h (cell row COL_DATETIME) in
  let msg := cell row COL_MESSAGE in
  let repeatRaw :=
    if truthy (cell row COL_REPEAT) then cell row COL_REPEAT else VStr [] in
  let lastSent := parseLastSent h (cell row COL_LAST_SENT) in
  let duplicateCheck := sentThisMinute h now lastSent in
  let! repeatText := asString (js "repeatRaw.toLowerCase") repeatRaw in
  let repeat := trim (toLowerCase h repeatText) in
  let shouldSend := shouldSend h now start repeat lastSent in
  let validationResult := validateMessage h msg in
  let willActuallySend := shouldSend && isValid validationResult in
  Ok {| duplicateBlocked := duplicateCheck;
        debugShouldSend := shouldSend;
        debugValidation := validationResult;
        willActuallySend := willActuallySend;
        sendStatus :=
          if willActuallySend then checkMark ++ js " WILL SEND"
          else if negb shouldSend
               then crossMark ++ js " WILL NOT SEND (Schedule)"
               else noEntrySign ++ js " WILL BE BLOCKED (Validation)" |}.

End Further.

(* ================================================================== *)
(** ** The stages of a row, and rows to run *)
(* ================================================================== *)

(** The conditions under which [processRow] goes from one stage to the
    next, named so that the results below can speak of them. *)
Section Stages.

Variable h : Host.

(** The row has a date and a message and is enabled. *)
Definition rowActive (row : Row) : bool :=
  truthy (cell row COL_DATETIME) && truthy (cell row COL_MESSAGE)
  && isEnabled h (cell row COL_ENABLED).

Definition rowRepeatRaw (row : Row) : Value :=
  if truthy (cell row COL_REPEAT) then cell row COL_REPEAT else VStr [].

(** The schedule stage: the minute guard, then the recurrence rules. *)
Definition rowDue (now : Z) (row : Row) : Result bool :=
  let lastSent := parseLastSent h (cell row COL_LAST_SENT) in
  if sentThisMinute h now lastSent then Ok false
  else
    let! repeatText := asString (js "repeatRaw.toLowerCase") (rowRepeatRaw row) in
    Ok (shouldSend h now
          (setSeconds00 h (newDate h (cell row COL_DATETIME)))
          (trim (toLowerCase h repeatText)) lastSent).

(** The call of [logMessageSend] made once the validator has answered. *)
Definition rowLogged (now : Z) (i : nat) (row : Row) : Effect :=
  let v := validateMessage h (cell row COL_MESSAGE) in
  LogMessageSend (i + 1) (cell row COL_MESSAGE) (rowRepeatRaw row) now v
    (negb (isValid v)) (if isValid v then [] else reason v).

End Stages.

(** The host on which concrete rows are run: a fixed UTC clock. *)
Definition utcHost : Host := fixedHost 0.

(** 2024-01-01T10:00:00.000Z *)
Definition tenOClock : Z := 1704103200000.

Definition headerRow : Row :=
  [VStr (js "DateTime"); VStr (js "Message"); VStr (js "Repeat");
   VStr (js "Enabled"); VStr (js "Last Sent")].

(** An enabled row repeating every minute, with the given [Last Sent]
    cell. *)
Definition minuteRow (lastSent : Value) : Row :=
  [VDate (Some (tenOClock - 86400000)); VStr (js "test zeitslot");
   VStr (js "every minute"); VBool true; lastSent].

(** An enabled row with the given recurrence text, scheduled at ten. *)
Definition rowAtTen (repeat : Value) (lastSent : Value) : Row :=
  [VDate (Some tenOClock); VStr (js "test zeitslot"); repeat; VBool true;
   lastSent].

Definition someClock : RowClock :=
  {| atDuplicateCheck := tenOClock + 2000;
     atRateCheck := tenOClock + 2100;
     atIncrement := tenOClock + 2500 |}.

(** The sheet holding the header and [row] alone, evaluated at ten
    o'clock with an empty cache and a transport that accepts. *)
Definition runAlone (row : Row) : Step :=
  processRow utcHost (fun e => e) tenOClock someClock RespOk
    [headerRow; row] 1 row ∅.

Definition blockedText : jsstring :=
  js "BLOCKED: Excessive capitalization detected (potential spam)".

(** The cache after three sends recorded in the hour starting at ten. *)
Definition threeSends : Cache :=
  snd (incrementRateLimit utcHost (tenOClock + 1200000)
         (snd (incrementRateLimit utcHost (tenOClock + 600000)
                 (snd (incrementRateLimit utcHost (tenOClock + 60000) ∅))))).

(** The calendar of one 400-year era, day by day: [civil] yields a year
    of the era and a month, and [MakeDay] leads back to the day. *)
Definition eraDayOk (doe : Z) : bool :=
  let yoe := (doe - doe / 1460 + doe / 36524 - doe / 146096) / 365 in
  let doy := doe - (365 * yoe + yoe / 4 - yoe / 100) in
  let mp := (5 * doy + 2) / 153 in
  let d := doy - (153 * mp + 2) / 5 + 1 in
  let m := if mp <? 10 then mp + 2 else mp - 10 in
  (0 <=? yoe) && (yoe <? 400) && (0 <=? m) && (m <=? 11)
  && (yoe * 365 + yoe / 4 - yoe / 100
      + (153 * (if m <=? 1 then m + 10 else m - 2) + 2) / 5 + d - 1 =? doe).

Fixpoint allFrom (fuel : nat) (z : Z) : bool :=
  match fuel with
  | O => true
  | S k => eraDayOk z && allFrom k (z + 1)
  end.

(** Comparisons of two given texts are decided by evaluation. *)
Ltac decide_streq :=
  repeat match goal with
         | |- context [streq ?a ?b] =>
             let v := eval vm_compute in (streq a b) in
             change (streq a b) with v
         end.

(** The cases of [processRow] that end before the send. *)
Ltac early_exit :=
  repeat apply conj; try discriminate; try (intros; reflexivity);
  try (intros ? []).

(* ================================================================== *)
(** ** Vocabulary of the results on the further functions *)
(* ================================================================== *)

(** A count the script's numbers hold exactly together with its
    successor: NaN, or an integer of magnitude below 2^53. *)
Definition exactCount (n : option Z) : Prop :=
  match n with
  | Some z => - 9007199254740992 < z < 9007199254740992
  | None => True
  end.

(** The recurrence texts the rules compare with, once lower-cased and
    trimmed. *)
Definition recurrenceTexts : list jsstring :=
  [[]; js "don't"; js "don't repeat"; js "every minute"; js "daily";
   js "weekly"; js "monthly"; js "yearly"; js "every 2 days";
   js "every 3 days"; js "every 7 days"; js "every 14 days"; js "monday";
   js "tuesday"; js "wednesday"; js "thursday"; js "friday"; js "saturday";
   js "sunday"].

(** The interval rules with the number of days each one names. *)
Definition intervalRules : list (jsstring * Z) :=
  [(js "every 2 days", 2); (js "every 3 days", 3); (js "every 7 days", 7);
   (js "every 14 days", 14)].

(** What makes a row count against a message in the duplicate detector:
    the same normalised text, and a Last Sent cell that holds the valid
    date [t], not older than [cutoff], and does not read as an "ERROR:"
    or "BLOCKED:" text. *)
Definition sameContentSentSince (h : Host) (normalizedMessage : jsstring)
    (cutoff : Z) (row : Row) (t : Z) : Prop :=
  exists other text : jsstring,
    cell row COL_MESSAGE = VStr other /\ other <> []
    /\ normalizedMessage = normalizeText h other
    /\ truthy (cell row COL_LAST_SENT) = true
    /\ newDate h (cell row COL_LAST_SENT) = Some t
    /\ valueToString h (cell row COL_LAST_SENT) = Ok text
    /\ cutoff <= t
    /\ startsWith text (js "ERROR:") = false
    /\ startsWith text (js "BLOCKED:") = false.

(** What the scheduler may write into the sheet. *)
Definition lastSentWrite (now : Z) (i : nat) (e : Effect) : Prop :=
  match e with
  | SetValue r c v =>
      r = (i + 1)%nat /\ c = 5%nat
      /\ (v = VDate (Some now)
          \/ exists tag rest,
               v = VStr (tag ++ rest)
               /\ In tag [js "ERROR: "; js "BLOCKED: "; js "RATE_LIMITED: "])
  | _ => True
  end.

Ltac writes :=
  cbn [effects];
  repeat (apply List.Forall_cons;
          [first [ exact I
                 | split; [reflexivity | split; [reflexivity | left; reflexivity]]
                 | match goal with
                   | Htag : forall tag rest, _ -> lastSentWrite _ _ _ |- _ =>
                       apply Htag;
                       first [ left; reflexivity
                             | right; left; reflexivity
                             | right; right; left; reflexivity ]
                   end ] |]);
  apply List.Forall_nil.


(** The units that end the host part of a URL: "/", "?", "#", ":". *)
Definition isSeparator (c : N) : bool :=
  ((c =? 47) || (c =? 63) || (c =? 35) || (c =? 58))%N.

Definition isAscii (c : N) : bool := (c <? 128)%N.

(** A host that folds the case of a text of ASCII units unit by unit,
    as [toLowerCase] does. *)
Definition foldsAscii (h : Host) : Prop :=
  forall s : jsstring,
    forallb isAscii s = true -> toLowerCase h s = map lowerUnit s.

(** [token] stands in a text as a word of its own: it holds no white
    space and has white space or an end of the text on either side. *)
Definition standsAlone (front token back : jsstring) : Prop :=
  forallb nonWhite token = true
  /\ (front = [] \/ exists f w, front = f ++ [w] /\ isWhite w = true)
  /\ (back = [] \/ exists w b, back = w :: b /\ isWhite w = true).

(** A URL of bit.ly or of one of its subdomains as the script
    recognises it: the host bit.ly in any case, alone or after a
    lower-case "http://" or "https://" or a "www." and any labels, and
    followed by nothing or by a path, a query, a fragment or a port. *)
Definition namesBitly (token : jsstring) : Prop :=
  exists lead sub host tail : jsstring,
    token = lead ++ sub ++ host ++ tail
    /\ map lowerUnit host = js "bit.ly"
    /\ (lead = [] /\ sub = []
        \/ (lead = js "http://" \/ lead = js "https://"
            \/ map lowerUnit lead = js "www.")
           /\ (sub = [] \/ exists s0, sub = s0 ++ js ".")
           /\ forallb (fun c => negb (isSeparator c)) sub = true)
    /\ (tail = [] \/ exists c rest, tail = c :: rest /\ isSeparator c = true)
    /\ forallb isAscii token = true.

(** The shape of a URL of bit.ly once [extractUrls] has cleaned it. *)
Definition cleanedBitly (url : jsstring) : Prop :=
  exists scheme labels rest : jsstring,
    url = scheme ++ labels ++ js "bit.ly" ++ rest
    /\ (scheme = js "http://" \/ scheme = js "https://")
    /\ (labels = [] \/ exists s0, labels = s0 ++ js ".")
    /\ forallb (fun c => negb (isSeparator c)) labels = true
    /\ forallb isAscii labels = true
    /\ (rest = [] \/ exists c r, rest = c :: r /\ isSeparator c = true).

(* ================================================================== *)
(** * Properties *)
(* ================================================================== *)

Arguments js : simpl never.

(** ** Strings and numbers *)

Lemma streq_eq (a b : jsstring) : streq a b = true <-> a = b.
Proof.
  revert b; induction a as [|c a IH]; intros [|d b]; simpl; split;
    try congruence; try reflexivity.
  - intros [Hc Hs]%andb_true_iff. apply N.eqb_eq in Hc. apply IH in Hs.
    congruence.
  - intros [= -> ->]. rewrite N.eqb_refl. simpl. now apply IH.
Qed.

Lemma startsWith_app (p rest : jsstring) : startsWith (p ++ rest) p = true.
Proof.
  induction p as [|c p IH]; [destruct rest; reflexivity|].
  cbn [app startsWith]. now rewrite N.eqb_refl, IH.
Qed.

Lemma startsWith_prefix (s p : jsstring) :
  startsWith s p = true <-> exists rest, s = p ++ rest.
Proof.
  revert s. induction p as [|c p IH]; intros s.
  - destruct s; cbn; split; eauto.
  - destruct s as [|d s]; cbn [startsWith].
    + split; [discriminate | intros (rest & Hrest); discriminate Hrest].
    + rewrite andb_true_iff, N.eqb_eq, IH. split.
      * intros (-> & rest & ->). exists rest. reflexivity.
      * intros (rest & Heq). cbn in Heq. injection Heq as -> ->. eauto.
Qed.

Lemma endsWith_suffix (s p : jsstring) :
  endsWith s p = true <-> exists front, s = front ++ p.
Proof.
  unfold endsWith. rewrite startsWith_prefix. split.
  - intros (rest & Hrev). exists (rev rest).
    rewrite <- (rev_involutive s), Hrev, rev_app_distr, rev_involutive.
    reflexivity.
  - intros (front & ->). exists (rev front). apply rev_app_distr.
Qed.

Lemma numEq_refl (x : Z) : numEq (Some x) (Some x) = true.
Proof. apply Z.eqb_refl. Qed.



(** The calendar fields down to the minute depend on the minute only. *)
Lemma Day_of_minute (t : Z) : Day t = t / msPerMinute / 1440.
Proof.
  unfold Day, msPerDay, msPerMinute. rewrite Z.div_div by lia. reflexivity.
Qed.

Lemma Hour_of_minute (t : Z) : HourFromTime t = (t / msPerMinute / 60) mod 24.
Proof.
  unfold HourFromTime, msPerHour, msPerMinute. rewrite Z.div_div by lia.
  reflexivity.
Qed.

(** ** The calendar *)

Lemma allFrom_spec (fuel : nat) :
  forall a : Z, allFrom fuel a = true ->
  forall z : Z, a <= z < a + Z.of_nat fuel -> eraDayOk z = true.
Proof.
  induction fuel as [|k IH]; intros a Hall z Hz; [lia|].
  cbn [allFrom] in Hall. apply andb_true_iff in Hall as [Ha Hrest].
  destruct (Z.eq_dec z a) as [->|Hne]; [exact Ha|].
  apply (IH (a + 1) Hrest). lia.
Qed.

Lemma eraDayOk_era : allFrom (Z.to_nat 146097) 0 = true.
Proof. vm_compute. reflexivity. Qed.

Lemma eraDayOk_in (doe : Z) : 0 <= doe < 146097 -> eraDayOk doe = true.
Proof.
  intros Hr. apply (allFrom_spec (Z.to_nat 146097) 0 eraDayOk_era).
  rewrite Z2Nat.id; lia.
Qed.

(** [MakeDay] undoes [civil]: the fields of a day number name that day. *)
Lemma MakeDay_civil (days : Z) :
  MakeDay (fst (fst (civil days))) (snd (fst (civil days))) (snd (civil days))
  = days.
Proof.
  unfold civil.
  set (z := days + 719468).
  set (era := z / 146097).
  set (doe := z - era * 146097).
  assert (Hdoe : 0 <= doe < 146097).
  { subst doe era. pose proof (Z.mod_pos_bound z 146097 ltac:(lia)) as Hb.
    rewrite Z.mod_eq in Hb by lia. lia. }
  pose proof (eraDayOk_in doe Hdoe) as Hok. unfold eraDayOk in Hok.
  set (yoe := (doe - doe / 1460 + doe / 36524 - doe / 146096) / 365) in *.
  set (doy := doe - (365 * yoe + yoe / 4 - yoe / 100)) in *.
  set (mp := (5 * doy + 2) / 153) in *.
  set (d := doy - (153 * mp + 2) / 5 + 1) in *.
  set (m := if mp <? 10 then mp + 2 else mp - 10) in *.
  cbn [fst snd].
  rewrite !andb_true_iff in Hok.
  destruct Hok as [[[[Hy0 Hy1] Hm0] Hm1] Heq].
  apply Z.leb_le in Hy0, Hm0, Hm1. apply Z.ltb_lt in Hy1.
  apply Z.eqb_eq in Heq.
  unfold MakeDay.
  rewrite (Z.div_small m 12) by lia. rewrite (Z.mod_small m 12) by lia.
  rewrite Z.add_0_r.
  assert (Hy : (if m <=? 1
                then yoe + era * 400 + (if m <=? 1 then 1 else 0) - 1
                else yoe + era * 400 + (if m <=? 1 then 1 else 0))
               = yoe + era * 400).
  { destruct (m <=? 1); lia. }
  rewrite Hy.
  rewrite (Z.div_add yoe era 400) by lia.
  rewrite (Z.div_small yoe 400) by lia.
  replace (yoe + era * 400 - (0 + era) * 400) with yoe by lia.
  subst z. clearbody yoe m d. subst doe. lia.
Qed.

(** The hour and minute fields rebuild the time of day up to the
    minute. *)
Lemma time_fields (lt : Z) :
  MakeDate (Day lt) (MakeTime (HourFromTime lt) (MinFromTime lt) 0 0)
  = lt - lt mod msPerMinute.
Proof.
  unfold MakeDate, MakeTime, Day, HourFromTime, MinFromTime, msPerDay,
    msPerHour, msPerMinute.
  Z.to_euclidean_division_equations. lia.
Qed.

(** ** URLs in a text *)

Lemma runLength_all (p : N -> bool) (a b : jsstring) :
  forallb p a = true -> runLength p (a ++ b) = (length a + runLength p b)%nat.
Proof.
  induction a as [|c a IH]; [reflexivity|]. cbn [forallb app runLength].
  intros [Hc Ha]%andb_true_iff. rewrite Hc, IH by assumption. reflexivity.
Qed.

Lemma runLength_stops (p : N -> bool) (a : jsstring) (w : N) (b : jsstring) :
  p w = false -> runLength p ((a ++ [w]) ++ b) = runLength p (a ++ [w]).
Proof.
  intros Hw. induction a as [|c a IH]; cbn [app runLength].
  - now rewrite Hw.
  - destruct (p c); [now rewrite IH | reflexivity].
Qed.

Lemma runLength_whole (p : N -> bool) (a b : jsstring) :
  forallb p a = true ->
  (b = [] \/ exists w b', b = w :: b' /\ p w = false) ->
  runLength p (a ++ b) = length a.
Proof.
  intros Ha Hb. rewrite runLength_all by assumption.
  destruct Hb as [->|(w & b' & -> & Hw)]; cbn [runLength];
    [|rewrite Hw]; lia.
Qed.

Lemma runLength_prefix (p : N -> bool) (s : jsstring) :
  forallb p (firstn (runLength p s) s) = true.
Proof.
  induction s as [|c s IH]; [reflexivity|]. cbn [runLength].
  destruct (p c) eqn:Hc; [|reflexivity].
  cbn [firstn forallb]. now rewrite Hc, IH.
Qed.

Lemma runLength_le (p q : N -> bool) (s : jsstring) :
  (forall c, p c = true -> q c = true) ->
  (runLength p s <= runLength q s)%nat.
Proof.
  intros Hpq. induction s as [|c s IH]; [reflexivity|]. cbn [runLength].
  destruct (p c) eqn:Hc; [rewrite (Hpq c Hc)|]; lia.
Qed.

Lemma runLength_skipn (p : N -> bool) (k : nat) (s : jsstring) :
  (k <= runLength p s)%nat ->
  runLength p s = (k + runLength p (skipn k s))%nat.
Proof.
  revert s. induction k as [|k IH]; intros s Hk; [reflexivity|].
  destruct s as [|c s]; cbn [runLength] in *; [lia|].
  destruct (p c); [|lia]. cbn [skipn]. rewrite (IH s) by lia. reflexivity.
Qed.

Lemma letter_not_white (c : N) : isLetter c = true -> isWhite c = false.
Proof.
  unfold isLetter, isUpperAZ, isLowerAZ, isWhite.
  rewrite orb_true_iff, !andb_true_iff, !N.leb_le.
  intros Hc. rewrite !orb_false_iff, !andb_false_iff, !N.leb_gt, !N.eqb_neq.
  lia.
Qed.

Lemma hostUnit_not_white (c : N) : isHostUnit c = true -> nonWhite c = true.
Proof.
  unfold isHostUnit, nonWhite. rewrite !orb_true_iff.
  intros [[Hc|Hc]|Hc]; apply negb_true_iff.
  - now apply letter_not_white.
  - revert Hc. unfold isDigit, isWhite.
    rewrite andb_true_iff, !N.leb_le. intros Hc.
    rewrite !orb_false_iff, !andb_false_iff, !N.leb_gt, !N.eqb_neq. lia.
  - apply N.eqb_eq in Hc. subst c. reflexivity.
Qed.

(** A unit accepted for a unit of a pattern that is no white space is
    no white space. *)
Lemma startsWithCI_run (p s : jsstring) :
  forallb nonWhite p = true -> startsWithCI s p = true ->
  (length p <= runLength nonWhite s)%nat.
Proof.
  revert s. induction p as [|c p IH]; intros s Hp Hs; [cbn; lia|].
  destruct s as [|d s]; [discriminate Hs|].
  cbn [startsWithCI forallb] in *.
  apply andb_true_iff in Hp as [Hc Hp]. apply andb_true_iff in Hs as [Hd Hs].
  assert (Hwhite : nonWhite d = true).
  { destruct (isLowerAZ c) eqn:Hlow.
    - unfold ciUnit in Hd. apply orb_true_iff in Hd as [Hd|Hd];
        apply N.eqb_eq in Hd.
      + now subst d.
      + unfold nonWhite. apply negb_true_iff. apply letter_not_white.
        unfold isLetter, isUpperAZ. unfold isLowerAZ in Hlow.
        apply andb_true_iff in Hlow as [H1 H2].
        apply N.leb_le in H1, H2. apply orb_true_iff. left.
        apply andb_true_iff. split; apply N.leb_le; lia.
    - apply N.eqb_eq in Hd. now subst d. }
  cbn [runLength length]. rewrite Hwhite. specialize (IH s Hp Hs). lia.
Qed.

Lemma lead_in_word (p s : jsstring) (n : nat) :
  forallb nonWhite p = true -> startsWithCI s p = true ->
  match runLength nonWhite (skipn (length p) s) with
  | O => None
  | m => Some (length p + m)%nat
  end = Some n ->
  (n <= runLength nonWhite s)%nat.
Proof.
  intros Hp Hs Hn.
  pose proof (startsWithCI_run p s Hp Hs) as Hrun.
  rewrite (runLength_skipn nonWhite (length p) s Hrun).
  destruct (runLength nonWhite (skipn (length p) s)); [discriminate Hn|].
  injection Hn as <-. lia.
Qed.

Lemma matchHttp_in_word (s : jsstring) (n : nat) :
  matchHttp s = Some n -> (n <= runLength nonWhite s)%nat.
Proof.
  unfold matchHttp.
  destruct (startsWithCI s (js "https://")) eqn:Hs.
  - now apply (lead_in_word (js "https://")).
  - destruct (startsWithCI s (js "http://")) eqn:Hp; [|discriminate].
    now apply (lead_in_word (js "http://")).
Qed.

Lemma matchWww_in_word (s : jsstring) (n : nat) :
  matchWww s = Some n -> (n <= runLength nonWhite s)%nat.
Proof.
  unfold matchWww.
  destruct (startsWithCI s (js "www.")) eqn:Hs; [|discriminate].
  now apply (lead_in_word (js "www.")).
Qed.

Lemma matchBare_in_word (s : jsstring) (n : nat) :
  matchBare s = Some n -> (n <= runLength nonWhite s)%nat.
Proof.
  unfold matchBare.
  destruct (runLength isHostUnit s) as [|k] eqn:Hk; [discriminate|].
  destruct (skipn (S k) s) as [|dot rest] eqn:Hrest; [discriminate|].
  destruct dot as [|dot]; [discriminate|].
  destruct (Pos.eq_dec dot 46%positive) as [->|Hne].
  2:{ intros Hn. exfalso. revert Hn.
      do 6 (destruct dot as [dot|dot|]; try discriminate);
        try congruence. }
  destruct (2 <=? runLength isLetter rest)%nat; [|discriminate].
  intros [= <-].
  assert (Hhost : (S k <= runLength nonWhite s)%nat).
  { rewrite <- Hk. apply runLength_le, hostUnit_not_white. }
  rewrite (runLength_skipn nonWhite (S k) s Hhost), Hrest.
  cbn [runLength]. change (nonWhite 46) with true. cbv iota. lia.
Qed.

(** A match of the URL pattern lies within the run of units before the
    next white space. *)
Lemma urlPattern_in_word (s : jsstring) (n : nat) :
  urlPattern s = Some n -> (n <= runLength nonWhite s)%nat.
Proof.
  unfold urlPattern.
  destruct (matchHttp s) eqn:Hh; [intros [= <-]; now apply matchHttp_in_word|].
  destruct (matchWww s) eqn:Hw; [intros [= <-]; now apply matchWww_in_word|].
  apply matchBare_in_word.
Qed.

(** The scan for matches gets to a word that follows white space with
    no match pending. *)
Lemma matchAll_reaches (m : Matcher) (rest : jsstring) :
  (forall s n, m s = Some n -> (n <= runLength nonWhite s)%nat) ->
  forall (front : jsstring) (skip : nat),
    (front = [] \/ exists f w, front = f ++ [w] /\ isWhite w = true) ->
    (skip <= runLength nonWhite front)%nat ->
    exists found, matchAll m skip (front ++ rest) = found ++ matchAll m 0 rest.
Proof.
  intros Hm. induction front as [|c front IH]; intros skip Hend Hskip.
  { cbn in Hskip. assert (skip = 0%nat) as -> by lia. exists []. reflexivity. }
  assert (Hend' : front = [] \/ exists f w, front = f ++ [w] /\ isWhite w = true).
  { destruct Hend as [Hnil|(f & w & Heq & Hw)]; [discriminate Hnil|].
    destruct f as [|c' f]; [left|right].
    - injection Heq as _ ->. reflexivity.
    - injection Heq as _ ->. eauto. }
  assert (Hrun : runLength nonWhite ((c :: front) ++ rest)
                 = runLength nonWhite (c :: front)).
  { destruct Hend as [Hnil|(f & w & -> & Hw)]; [discriminate Hnil|].
    apply runLength_stops. unfold nonWhite. now rewrite Hw. }
  assert (Hstep : forall k, (k <= runLength nonWhite (c :: front))%nat ->
                            (Nat.pred k <= runLength nonWhite front)%nat).
  { intros k. cbn [runLength]. destruct (nonWhite c); lia. }
  cbn [app matchAll]. destruct skip as [|k].
  - change (c :: front ++ rest) with ((c :: front) ++ rest).
    destruct (m ((c :: front) ++ rest)) as [n|] eqn:Hmatch.
    + apply Hm in Hmatch. rewrite Hrun in Hmatch.
      destruct (IH (Nat.pred n) Hend' (Hstep n Hmatch)) as [found ->].
      eexists (_ :: found). reflexivity.
    + destruct (IH 0%nat Hend' ltac:(lia)) as [found ->]. eauto.
  - destruct (IH k Hend' (Hstep (S k) Hskip)) as [found ->]. eauto.
Qed.

(** *** Case folding of ASCII units *)

Lemma lowerUnit_ascii (c : N) :
  isAscii c = true ->
  (isUpperAZ c = true /\ lowerUnit c = (c + 32)%N)
  \/ (isUpperAZ c = false /\ lowerUnit c = c).
Proof.
  unfold isAscii, lowerUnit. intros Hc%N.ltb_lt.
  destruct (isUpperAZ c); [left; split; reflexivity|right].
  split; [reflexivity|].
  replace (192 <=? c)%N with false by (symmetry; apply N.leb_gt; lia).
  reflexivity.
Qed.

Lemma lowerUnit_stays_ascii (c : N) :
  isAscii c = true -> isAscii (lowerUnit c) = true.
Proof.
  intros Hc. destruct (lowerUnit_ascii c Hc) as [[Hup ->]|[_ ->]];
    [|exact Hc].
  unfold isUpperAZ in Hup. apply andb_true_iff in Hup as [_ Hup%N.leb_le].
  unfold isAscii. apply N.ltb_lt. lia.
Qed.

(** The units that fold to a lower-case letter are the letter and its
    capital; the units that fold to anything else are that unit. *)
Lemma folds_to_letter (c x : N) :
  isAscii c = true -> lowerUnit c = x -> isLowerAZ x = true ->
  (c = x \/ (c + 32)%N = x) /\ isLetter c = true.
Proof.
  intros Hc Hx Hlow. unfold isLetter.
  destruct (lowerUnit_ascii c Hc) as [[Hup Hfold]|[Hup Hfold]];
    rewrite Hfold in Hx; subst x.
  - split; [now right | now rewrite Hup].
  - split; [now left | rewrite Hlow; apply orb_true_r].
Qed.

Lemma folds_to_other (c x : N) :
  isAscii c = true -> lowerUnit c = x -> isLowerAZ x = false -> c = x.
Proof.
  intros Hc Hx Hlow.
  destruct (lowerUnit_ascii c Hc) as [[Hup Hfold]|[Hup Hfold]];
    rewrite Hfold in Hx; [|exact Hx].
  subst x. exfalso. revert Hup Hlow. unfold isUpperAZ, isLowerAZ.
  rewrite andb_true_iff, andb_false_iff, !N.leb_le, !N.leb_gt. lia.
Qed.

Lemma ciUnit_other_letter (lower c x : N) :
  isAscii c = true -> lowerUnit c = x -> isLowerAZ x = true ->
  isLowerAZ lower = true -> x <> lower -> ciUnit lower c = false.
Proof.
  intros Hc Hx Hlow Hlower Hne.
  destruct (folds_to_letter c x Hc Hx Hlow) as [Hcases _].
  unfold isLowerAZ in Hlow, Hlower.
  apply andb_true_iff in Hlow as [H1%N.leb_le H2%N.leb_le].
  apply andb_true_iff in Hlower as [H3%N.leb_le H4%N.leb_le].
  unfold ciUnit. apply orb_false_iff. split; apply N.eqb_neq; lia.
Qed.

Lemma startsWithCI_folded (x rest : jsstring) :
  forallb isAscii x = true ->
  startsWithCI (x ++ rest) (map lowerUnit x) = true.
Proof.
  induction x as [|c x IH]; [destruct rest; reflexivity|].
  cbn [forallb map app startsWithCI].
  intros [Hc Hx]%andb_true_iff. rewrite (IH Hx), andb_true_r.
  destruct (lowerUnit_ascii c Hc) as [[Hup ->]|[Hup ->]].
  - assert (Hlow : isLowerAZ (c + 32) = true).
    { revert Hup. unfold isUpperAZ, isLowerAZ.
      rewrite !andb_true_iff, !N.leb_le. lia. }
    rewrite Hlow. unfold ciUnit. rewrite N.eqb_refl. apply orb_true_r.
  - destruct (isLowerAZ c); [|apply N.eqb_refl].
    unfold ciUnit. now rewrite N.eqb_refl.
Qed.

(** The six units of a host that folds to "bit.ly". *)
Lemma bitly_units (host : jsstring) :
  map lowerUnit host = js "bit.ly" -> forallb isAscii host = true ->
  exists b i t l y : N,
    host = [b; i; t; 46%N; l; y]
    /\ lowerUnit b = 98%N /\ isAscii b = true /\ isLetter b = true
    /\ isLetter i = true /\ isLetter t = true
    /\ isLetter l = true /\ isLetter y = true
    /\ isTrailingPunct y = false.
Proof.
  intros Hfold Hascii.
  destruct host as [|b [|i [|t [|dot [|l [|y [|extra host]]]]]]];
    try discriminate Hfold.
  injection Hfold as Hb Hi Ht Hdot Hl Hy.
  cbn [forallb] in Hascii. rewrite !andb_true_iff in Hascii.
  destruct Hascii as (Ab & Ai & At & Adot & Al & Ay & _).
  assert (dot = 46%N) as -> by (now apply (folds_to_other dot 46)).
  destruct (folds_to_letter b 98 Ab Hb eq_refl) as [_ Lb].
  destruct (folds_to_letter i 105 Ai Hi eq_refl) as [_ Li].
  destruct (folds_to_letter t 116 At Ht eq_refl) as [_ Lt].
  destruct (folds_to_letter l 108 Al Hl eq_refl) as [_ Ll].
  destruct (folds_to_letter y 121 Ay Hy eq_refl) as [Cy Ly].
  exists b, i, t, l, y. repeat split; try assumption.
  destruct Cy as [->| Cy]; [reflexivity|].
  assert (y = 89%N) as -> by lia. reflexivity.
Qed.

Lemma letter_is_hostUnit (c : N) : isLetter c = true -> isHostUnit c = true.
Proof. unfold isHostUnit. now intros ->. Qed.

Lemma first_unit_rules_out (p rest : jsstring) (lower c x : N) :
  isAscii c = true -> lowerUnit c = x -> isLowerAZ x = true ->
  isLowerAZ lower = true -> x <> lower ->
  startsWithCI (c :: rest) (lower :: p) = false.
Proof.
  intros Hc Hx Hlow Hlower Hne. cbn [startsWithCI]. rewrite Hlower.
  now rewrite (ciUnit_other_letter lower c x Hc Hx Hlow Hlower Hne).
Qed.

(** *** The match at a word that names bit.ly *)

Lemma http_is_not_https (r : jsstring) :
  startsWithCI (js "http://" ++ r) (js "https://") = false.
Proof. reflexivity. Qed.

Lemma rest_of_word (lead body back : jsstring) :
  forallb nonWhite body = true -> body <> [] ->
  (back = [] \/ exists w b, back = w :: b /\ nonWhite w = false) ->
  match runLength nonWhite (skipn (length lead) (lead ++ body ++ back)) with
  | O => None
  | n => Some (length lead + n)%nat
  end = Some (length (lead ++ body)).
Proof.
  intros Hbody Hsome Hback.
  rewrite skipn_app, skipn_all, Nat.sub_diag.
  change (skipn 0 (body ++ back)) with (body ++ back). cbn [app].
  rewrite (runLength_whole nonWhite body back Hbody Hback), length_app.
  destruct body; [congruence | reflexivity].
Qed.

Lemma urlPattern_token (token back : jsstring) :
  namesBitly token -> forallb nonWhite token = true ->
  (back = [] \/ exists w b, back = w :: b /\ isWhite w = true) ->
  urlPattern (token ++ back) = Some (length token).
Proof.
  intros (lead & sub & host & tail & -> & Hhost & Hlead & _ & Hascii)
         Hword Hback.
  assert (Hback' : back = []
                   \/ exists w b, back = w :: b /\ nonWhite w = false).
  { destruct Hback as [->|(w & b & -> & Hw)]; [now left|right].
    exists w, b. split; [reflexivity|]. unfold nonWhite. now rewrite Hw. }
  rewrite !forallb_app, !andb_true_iff in Hascii, Hword.
  destruct Hascii as (Alead & Asub & Ahost & Atail).
  destruct Hword as (Wlead & Wsub & Whost & Wtail).
  destruct (bitly_units host Hhost Ahost)
    as (b & i & t & l & y & -> & Hb & Ab & Lb & Li & Lt & Ll & Ly & _).
  destruct Hlead as [[-> ->]|[[->|[->|Hwww]] _]].
  - (* the bare host *)
    cbn [app length].
    unfold urlPattern, matchHttp, matchWww.
    change (js "https://") with (104%N :: js "ttps://").
    change (js "http://") with (104%N :: js "ttp://").
    change (js "www.") with (119%N :: js "ww.").
    rewrite !(first_unit_rules_out _ _ 104 b 98 Ab Hb eq_refl eq_refl)
      by discriminate.
    rewrite (first_unit_rules_out _ _ 119 b 98 Ab Hb eq_refl eq_refl)
      by discriminate.
    unfold matchBare. cbn [runLength].
    rewrite (letter_is_hostUnit b Lb), (letter_is_hostUnit i Li),
      (letter_is_hostUnit t Lt).
    change (isHostUnit 46) with false. cbv iota. cbn [skipn runLength].
    rewrite Ll, Ly. cbn [Nat.leb].
    cbn [forallb] in Whost. rewrite !andb_true_iff in Whost.
    destruct Whost as (_ & _ & _ & _ & Wl & Wy & _).
    rewrite Wl, Wy, (runLength_whole nonWhite tail back Wtail Hback').
    reflexivity.
  - (* http:// *)
    set (body := sub ++ [b; i; t; 46%N; l; y] ++ tail).
    assert (Wbody : forallb nonWhite body = true)
      by (subst body; rewrite !forallb_app, !andb_true_iff; tauto).
    assert (Hsome : body <> [])
      by (subst body; destruct sub; discriminate).
    unfold urlPattern, matchHttp. rewrite <- app_assoc.
    rewrite http_is_not_https.
    change (js "http://") with (map lowerUnit (js "http://")) at 2.
    rewrite startsWithCI_folded by reflexivity.
    change 7%nat with (length (js "http://")).
    now rewrite (rest_of_word (js "http://") body back Wbody Hsome Hback').
  - (* https:// *)
    set (body := sub ++ [b; i; t; 46%N; l; y] ++ tail).
    assert (Wbody : forallb nonWhite body = true)
      by (subst body; rewrite !forallb_app, !andb_true_iff; tauto).
    assert (Hsome : body <> [])
      by (subst body; destruct sub; discriminate).
    unfold urlPattern, matchHttp. rewrite <- app_assoc.
    change (js "https://") with (map lowerUnit (js "https://")) at 2.
    rewrite startsWithCI_folded by reflexivity.
    change 8%nat with (length (js "https://")).
    now rewrite (rest_of_word (js "https://") body back Wbody Hsome Hback').
  - (* www. *)
    set (body := sub ++ [b; i; t; 46%N; l; y] ++ tail).
    assert (Wbody : forallb nonWhite body = true)
      by (subst body; rewrite !forallb_app, !andb_true_iff; tauto).
    assert (Hsome : body <> [])
      by (subst body; destruct sub; discriminate).
    destruct lead as [|w1 [|w2 [|w3 [|w4 [|w5 lead]]]]];
      try discriminate Hwww.
    injection Hwww as Hw1 Hw2 Hw3 Hw4.
    assert (Aw1 : isAscii w1 = true).
    { cbn [forallb] in Alead. now apply andb_true_iff in Alead as [? _]. }
    unfold urlPattern, matchHttp, matchWww. rewrite <- app_assoc.
    change (js "https://") with (104%N :: js "ttps://").
    change (js "http://") with (104%N :: js "ttp://").
    cbn [app].
    rewrite !(first_unit_rules_out _ _ 104 w1 119 Aw1 Hw1 eq_refl eq_refl)
      by discriminate.
    change (w1 :: w2 :: w3 :: w4 :: body ++ back)
      with ([w1; w2; w3; w4] ++ body ++ back).
    replace (js "www.") with (map lowerUnit [w1; w2; w3; w4])
      by (cbn [map]; now rewrite Hw1, Hw2, Hw3, Hw4).
    rewrite startsWithCI_folded by exact Alead.
    change 4%nat with (length [w1; w2; w3; w4]).
    now rewrite (rest_of_word [w1; w2; w3; w4] body back Wbody Hsome Hback').
Qed.

(** *** From the word to its domain *)

Lemma token_found (front token back : jsstring) :
  standsAlone front token back -> namesBitly token ->
  In token (matchAll urlPattern 0 (front ++ token ++ back)).
Proof.
  intros (Hword & Hfront & Hback) Hnames.
  destruct (matchAll_reaches urlPattern (token ++ back) urlPattern_in_word
              front 0 Hfront ltac:(lia)) as [found ->].
  apply in_or_app. right.
  pose proof (urlPattern_token token back Hnames Hword Hback) as Hmatch.
  destruct token as [|c token].
  { destruct Hnames as (lead & sub & host & tail & Heq & Hhost & _).
    destruct lead, sub, host; discriminate. }
  cbn [app matchAll]. change (c :: token ++ back) with ((c :: token) ++ back).
  rewrite Hmatch. left.
  rewrite firstn_app, firstn_all, Nat.sub_diag. cbn [firstn]. apply app_nil_r.
Qed.

Lemma dropWhile_stops (p : N -> bool) (x : jsstring) (c : N) (y : jsstring) :
  p c = false -> dropWhile p (x ++ c :: y) = dropWhile p x ++ c :: y.
Proof.
  intros Hc. induction x as [|d x IH]; cbn [app dropWhile].
  - now rewrite Hc.
  - destruct (p d); [exact IH | reflexivity].
Qed.

Lemma dropWhile_suffix (p : N -> bool) (x : jsstring) :
  exists junk, x = junk ++ dropWhile p x.
Proof.
  induction x as [|d x [junk IH]]; [exists []; reflexivity|].
  cbn [dropWhile]. destruct (p d).
  - exists (d :: junk). cbn [app]. now rewrite <- IH.
  - exists []. reflexivity.
Qed.

Lemma strip_keeps (a : jsstring) (c : N) (t : jsstring) :
  isTrailingPunct c = false ->
  stripTrailingPunct (a ++ c :: t) = a ++ c :: stripTrailingPunct t.
Proof.
  intros Hc. unfold stripTrailingPunct.
  rewrite rev_app_distr. cbn [rev]. rewrite <- app_assoc. cbn [app].
  rewrite dropWhile_stops by exact Hc.
  rewrite rev_app_distr. cbn [rev]. rewrite rev_involutive, <- app_assoc.
  reflexivity.
Qed.

Lemma strip_is_prefix (t : jsstring) :
  exists junk, t = stripTrailingPunct t ++ junk.
Proof.
  unfold stripTrailingPunct.
  destruct (dropWhile_suffix isTrailingPunct (rev t)) as [junk Hjunk].
  exists (rev junk).
  rewrite <- rev_app_distr, <- Hjunk. symmetry. apply rev_involutive.
Qed.

Lemma isSeparator_lowerUnit (c : N) :
  isAscii c = true -> isSeparator (lowerUnit c) = isSeparator c.
Proof.
  intros Hc. destruct (lowerUnit_ascii c Hc) as [[Hup ->]|[_ ->]];
    [|reflexivity].
  unfold isUpperAZ in Hup. apply andb_true_iff in Hup as [H1 H2].
  apply N.leb_le in H1, H2. unfold isSeparator.
  repeat match goal with
         | |- context [(?a =? ?b)%N] =>
             replace (a =? b)%N with false by (symmetry; apply N.eqb_neq; lia)
         end.
  reflexivity.
Qed.

Lemma forallb_map_lowerUnit (p : N -> bool) (s : jsstring) :
  (forall c, isAscii c = true -> p (lowerUnit c) = p c) ->
  forallb isAscii s = true ->
  forallb p (map lowerUnit s) = forallb p s.
Proof.
  intros Hp. induction s as [|c s IH]; [reflexivity|].
  cbn [forallb map]. intros [Hc Hs]%andb_true_iff.
  now rewrite (Hp c Hc), (IH Hs).
Qed.

Lemma map_lowerUnit_ascii (s : jsstring) :
  forallb isAscii s = true -> forallb isAscii (map lowerUnit s) = true.
Proof.
  induction s as [|c s IH]; [reflexivity|]. cbn [forallb map].
  intros [Hc Hs]%andb_true_iff.
  now rewrite (lowerUnit_stays_ascii c Hc), (IH Hs).
Qed.


Lemma strip_www (labels rest : jsstring) :
  (labels = [] \/ exists s0, labels = s0 ++ js ".") ->
  exists front kept : jsstring,
    (if startsWith (labels ++ js "bit.ly" ++ rest) (js "www.")
     then skipn 4 (labels ++ js "bit.ly" ++ rest)
     else labels ++ js "bit.ly" ++ rest)
    = kept ++ js "bit.ly" ++ rest
    /\ labels = front ++ kept
    /\ (kept = [] \/ exists s0, kept = s0 ++ js ".").
Proof.
  intros Hends.
  destruct (startsWith (labels ++ js "bit.ly" ++ rest) (js "www.")) eqn:Hwww.
  2:{ exists [], labels. repeat split. exact Hends. }
  destruct Hends as [->|(s0 & ->)]; [discriminate Hwww|].
  destruct s0 as [|a [|b [|c s1]]]; try discriminate Hwww.
  - exfalso. revert Hwww. change (js "www.") with [119; 119; 119; 46]%N.
    cbn [app startsWith js]. rewrite !andb_false_r. discriminate.
  - exfalso. revert Hwww. change (js "www.") with [119; 119; 119; 46]%N.
    cbn [app startsWith js]. rewrite !andb_false_r. discriminate.
  - destruct s1 as [|d s2].
    + exists [a; b; c; 46%N], []. repeat split. now left.
    + exists [a; b; c; d], (s2 ++ js "."). repeat split. right. eauto.
Qed.

Lemma splitHead_passes (sep : N) (a t : jsstring) :
  forallb (fun c => negb (N.eqb c sep)) a = true ->
  splitHead sep (a ++ t) = a ++ splitHead sep t.
Proof.
  unfold splitHead. induction a as [|c a IH]; [reflexivity|].
  cbn [forallb app takeWhile]. intros [Hc Ha]%andb_true_iff.
  now rewrite Hc, IH.
Qed.

(** The host is what comes before the first "/", "?", "#" or ":". *)
Lemma host_part (a t : jsstring) :
  forallb (fun c => negb (isSeparator c)) a = true ->
  (t = [] \/ exists c r, t = c :: r /\ isSeparator c = true) ->
  splitHead 58 (splitHead 35 (splitHead 63 (splitHead 47 (a ++ t)))) = a.
Proof.
  intros Ha Ht.
  assert (Hfree : forall sep : N,
             isSeparator sep = true ->
             forallb (fun c => negb (N.eqb c sep)) a = true).
  { intros sep Hsep. apply forallb_forall. intros c Hc.
    rewrite forallb_forall in Ha. specialize (Ha c Hc).
    apply negb_true_iff. apply negb_true_iff in Ha. apply N.eqb_neq.
    intros ->. congruence. }
  assert (Hnone : splitHead 58 (splitHead 35 (splitHead 63 (splitHead 47 t)))
                  = []).
  { destruct Ht as [->|(c & r & -> & Hc)]; [reflexivity|].
    unfold isSeparator in Hc. rewrite !orb_true_iff, !N.eqb_eq in Hc.
    unfold splitHead.
    destruct Hc as [[[-> | ->] | ->] | ->]; cbn [takeWhile N.eqb Pos.eqb negb];
      reflexivity. }
  rewrite (splitHead_passes 47) by (now apply Hfree).
  rewrite (splitHead_passes 63) by (now apply Hfree).
  rewrite (splitHead_passes 35) by (now apply Hfree).
  rewrite (splitHead_passes 58) by (now apply Hfree).
  rewrite Hnone. apply app_nil_r.
Qed.

Section BitlyFacts.

Variable h : Host.
Hypothesis Hfold : foldsAscii h.

Lemma cleaned_token (token : jsstring) :
  namesBitly token ->
  cleanedBitly
    (toLowerCase h
       (if negb (startsWith (stripTrailingPunct token) (js "http://"))
           && negb (startsWith (stripTrailingPunct token) (js "https://"))
        then js "https://" ++ stripTrailingPunct token
        else stripTrailingPunct token)).
Proof.
  intros (lead & sub & host & tail & -> & Hhost & Hlead & Htail & Hascii).
  rewrite !forallb_app, !andb_true_iff in Hascii.
  destruct Hascii as (Alead & Asub & Ahost & Atail).
  destruct (bitly_units host Hhost Ahost)
    as (b & i & t & l & y & Hunits & Hb & Ab & _ & _ & _ & _ & _ & Hy).
  (* the cleaned tail *)
  destruct (strip_is_prefix tail) as [junk Hjunk].
  set (tail' := stripTrailingPunct tail) in *.
  assert (Atail' : forallb isAscii tail' = true).
  { rewrite Hjunk, forallb_app in Atail.
    now apply andb_true_iff in Atail as [? _]. }
  assert (Htail' : map lowerUnit tail' = []
                   \/ exists c r, map lowerUnit tail' = c :: r
                                  /\ isSeparator c = true).
  { destruct tail' as [|c r]; [now left|right].
    exists (lowerUnit c), (map lowerUnit r). split; [reflexivity|].
    cbn [forallb] in Atail'. apply andb_true_iff in Atail' as [Ac _].
    rewrite (isSeparator_lowerUnit c Ac).
    destruct Htail as [Hnil|(c' & r' & Heq & Hsep)].
    - rewrite Hnil in Hjunk. discriminate Hjunk.
    - rewrite Heq in Hjunk. cbn [app] in Hjunk. now injection Hjunk as -> _. }
  assert (Hstrip : stripTrailingPunct (lead ++ sub ++ host ++ tail)
                   = lead ++ sub ++ host ++ tail').
  { subst host.
    replace (lead ++ sub ++ [b; i; t; 46%N; l; y] ++ tail)
      with ((lead ++ sub ++ [b; i; t; 46%N; l]) ++ y :: tail)
      by (rewrite <- !app_assoc; reflexivity).
    rewrite strip_keeps by exact Hy. rewrite <- !app_assoc. reflexivity. }
  rewrite Hstrip.
  assert (Afull : forall pre : jsstring,
             forallb isAscii pre = true ->
             toLowerCase h (pre ++ lead ++ sub ++ host ++ tail')
             = map lowerUnit pre ++ map lowerUnit lead ++ map lowerUnit sub
               ++ js "bit.ly" ++ map lowerUnit tail').
  { intros pre Apre. rewrite Hfold.
    - rewrite !map_app, Hhost. reflexivity.
    - rewrite !forallb_app, !andb_true_iff. tauto. }
  assert (Hsub : forall pre : jsstring,
             (pre = [] \/ exists p0, pre = p0 ++ js ".") ->
             (sub = [] \/ exists s0, sub = s0 ++ js ".") ->
             pre ++ map lowerUnit sub = []
             \/ exists s0, pre ++ map lowerUnit sub = s0 ++ js ".").
  { intros pre Hpre [->|(s0 & ->)].
    - cbn [map]. rewrite app_nil_r. exact Hpre.
    - right. exists (pre ++ map lowerUnit s0).
      rewrite map_app, <- app_assoc. reflexivity. }
  assert (Hfree : forallb (fun c => negb (isSeparator c)) sub = true ->
                  forallb (fun c => negb (isSeparator c)) (map lowerUnit sub)
                  = true).
  { intros Hs. rewrite forallb_map_lowerUnit; [exact Hs| |exact Asub].
    intros c Ac. now rewrite isSeparator_lowerUnit. }
  pose proof (map_lowerUnit_ascii sub Asub) as Alsub.
  assert (Hhead : forall (c : N) (r : jsstring),
             N.eqb 104 c = false ->
             negb (startsWith (c :: r) (js "http://"))
             && negb (startsWith (c :: r) (js "https://")) = true).
  { intros c r Hc.
    change (js "http://") with (104%N :: js "ttp://").
    change (js "https://") with (104%N :: js "ttps://").
    cbn [startsWith]. now rewrite Hc. }
  destruct Hlead as [[-> ->]|[[->|[->|Hwww]] [Hends Hsep]]].
  - (* the bare host *)
    subst host. cbn [app] in *.
    rewrite Hhead by (apply N.eqb_neq; intros <-; discriminate Hb).
    rewrite (Afull (js "https://") eq_refl).
    exists (js "https://"), [], (map lowerUnit tail').
    repeat split; auto.
  - (* http:// *)
    rewrite startsWith_app. cbn [negb andb].
    pose proof (Afull [] eq_refl) as Hlow. cbn [map app] in Hlow.
    rewrite Hlow.
    exists (js "http://"), (map lowerUnit sub), (map lowerUnit tail').
    split; [reflexivity|]. split; [now left|].
    split; [exact (Hsub [] (or_introl eq_refl) Hends)|].
    split; [exact (Hfree Hsep)|]. split; [exact Alsub | exact Htail'].
  - (* https:// *)
    rewrite (startsWith_app (js "https://")).
    rewrite andb_false_r.
    pose proof (Afull [] eq_refl) as Hlow. cbn [map app] in Hlow.
    rewrite Hlow.
    exists (js "https://"), (map lowerUnit sub), (map lowerUnit tail').
    split; [reflexivity|]. split; [now right|].
    split; [exact (Hsub [] (or_introl eq_refl) Hends)|].
    split; [exact (Hfree Hsep)|]. split; [exact Alsub | exact Htail'].
  - (* www. *)
    destruct lead as [|w1 lead]; [discriminate Hwww|].
    cbn [app].
    rewrite Hhead by (apply N.eqb_neq; intros <-; discriminate Hwww).
    change (w1 :: lead ++ sub ++ host ++ tail')
      with ((w1 :: lead) ++ sub ++ host ++ tail').
    rewrite (Afull (js "https://") eq_refl), Hwww.
    exists (js "https://"), (js "www." ++ map lowerUnit sub),
      (map lowerUnit tail').
    split; [now rewrite <- !app_assoc|]. split; [now right|].
    split; [apply Hsub; [right; exists (js "www"); reflexivity | exact Hends]|].
    split; [rewrite forallb_app, (Hfree Hsep); reflexivity|].
    split; [rewrite forallb_app, Alsub; reflexivity | exact Htail'].
Qed.

Lemma domain_of_cleaned (url : jsstring) :
  cleanedBitly url ->
  exists d, extractDomain h url = Some d
            /\ domainMatches d (js "bit.ly") = true.
Proof.
  intros (scheme & labels & rest & -> & Hscheme & Hends & Hfree & Hascii
          & Hrest).
  unfold extractDomain.
  assert (Hdomain :
            (if startsWith (scheme ++ labels ++ js "bit.ly" ++ rest)
                  (js "https://")
             then skipn 8 (scheme ++ labels ++ js "bit.ly" ++ rest)
             else if startsWith (scheme ++ labels ++ js "bit.ly" ++ rest)
                       (js "http://")
                  then skipn 7 (scheme ++ labels ++ js "bit.ly" ++ rest)
                  else scheme ++ labels ++ js "bit.ly" ++ rest)
            = labels ++ js "bit.ly" ++ rest).
  { destruct Hscheme as [-> | ->].
    - replace (startsWith (js "http://" ++ labels ++ js "bit.ly" ++ rest)
                 (js "https://")) with false by reflexivity.
      now rewrite startsWith_app.
    - now rewrite startsWith_app. }
  rewrite Hdomain.
  destruct (strip_www labels rest Hends)
    as (front & kept & -> & -> & Hkept).
  rewrite forallb_app in Hfree, Hascii.
  apply andb_true_iff in Hfree as [_ Hfree].
  apply andb_true_iff in Hascii as [_ Hascii].
  rewrite app_assoc, host_part; [|rewrite forallb_app, Hfree; reflexivity
                                 |exact Hrest].
  rewrite Hfold by (rewrite forallb_app, Hascii; reflexivity).
  rewrite map_app.
  change (map lowerUnit (js "bit.ly")) with (js "bit.ly").
  eexists. split; [reflexivity|].
  unfold domainMatches.
  destruct Hkept as [->|(s0 & ->)].
  - reflexivity.
  - apply orb_true_iff. right. apply endsWith_suffix.
    exists (map lowerUnit s0). rewrite map_app, <- app_assoc. reflexivity.
Qed.

End BitlyFacts.

(** ** The content validator *)

Section ValidatorFacts.

Variable h : Host.

Lemma validateMessage_text (s : jsstring) :
  s <> [] -> validateMessage h (VStr s) = validateText h s.
Proof. destruct s; [congruence | reflexivity]. Qed.

Lemma In_blockedAmong (d : jsstring) (domains : list jsstring) :
  In d (blockedAmong domains) <->
  In d domains /\ existsb (domainMatches d) BLOCKED_DOMAINS = true.
Proof.
  unfold blockedAmong. rewrite in_flat_map. split.
  - intros (x & Hx & Hin). apply in_flat_map in Hin as (b & Hb & Hd).
    destruct (domainMatches x b) eqn:E; simpl in Hd; [|tauto].
    destruct Hd as [->|[]]. split; [assumption|].
    apply existsb_exists. eauto.
  - intros [Hin Hex]. apply existsb_exists in Hex as (b & Hb & Hm).
    exists d. split; [assumption|]. apply in_flat_map. exists b.
    rewrite Hm. simpl. auto.
Qed.

(** C10: an input that is empty, [null], [undefined] or not a string is
    rejected by [validateMessage] itself with the verdict [valid =
    false], reason exactly "Empty or invalid message" and empty URL,
    blocked-domain and detail lists; the scheduler never gets that far,
    since a row whose message is falsy is skipped with no effect. *)
Theorem validateMessage_rejects_empty_input (message : Value) :
  truthy message = false \/ isString message = false ->
  validateMessage h message
  = {| isValid := false; reason := js "Empty or invalid message";
       foundUrls := []; blockedDomains := []; validationDetails := [];
       missingKeywords := false; allowedDomains := None |}
  /\ (truthy message = false ->
      forall sanitize now clk resp data i row cache,
        cell row COL_MESSAGE = message ->
        processRow h sanitize now clk resp data i row cache = skip cache).
Proof.
  intros Hbad. split.
  - destruct message as [| |b|n|[|c s]|t]; try reflexivity.
    destruct Hbad as [Hbad|Hbad]; discriminate Hbad.
  - intros Hfalsy sanitize now clk resp data i row cache Hcell.
    unfold processRow. rewrite Hcell, Hfalsy. simpl.
    now destruct (truthy (cell row COL_DATETIME)).
Qed.

(** The verdict on a message among whose domains, as [extractUrls] and
    [extractDomain] find them, one matches the blacklist entry bit.ly. *)
Lemma blocked_domain_core (s : jsstring) :
  let urls := extractUrls h (VStr s) in
  let domains : list jsstring := omap (extractDomain h) urls in
  let v := validateMessage h (VStr s) in
  (exists d, In d domains /\ domainMatches d (js "bit.ly") = true) ->
  isValid v = false
  /\ ((length s <= MAX_MESSAGE_LENGTH)%nat ->
      fst (hasRequiredKeywords h (VStr s)) = true ->
      (length urls <= MAX_URLS_PER_MESSAGE)%nat ->
      (forall d, In d (blockedDomains v) <->
                 In d domains
                 /\ existsb (domainMatches d) BLOCKED_DOMAINS = true)
      /\ reason v
         = js "Blocked domain(s) detected: " ++ join (js ", ") (blockedDomains v)
      /\ foundUrls v = urls
      /\ (domains = [js "bit.ly"] -> blockedDomains v = [js "bit.ly"]))
  /\ ((MAX_MESSAGE_LENGTH < length s)%nat
      \/ fst (hasRequiredKeywords h (VStr s)) = false
      \/ (MAX_URLS_PER_MESSAGE < length urls)%nat ->
      blockedDomains v = []).
Proof.
  intros urls domains v (d & Hd & Hm).
  assert (Hs : s <> []).
  { intros ->. destruct Hd. }
  assert (Hblocked : In d (blockedAmong domains)).
  { apply In_blockedAmong. split; [assumption|].
    apply existsb_exists. exists (js "bit.ly"). split; [|assumption].
    left. reflexivity. }
  assert (Hurls : (length urls =? 0)%nat = false).
  { apply Nat.eqb_neq. intros H0. apply length_zero_iff_nil in H0.
    subst domains. rewrite H0 in Hd. destruct Hd. }
  assert (Hnonempty : (0 <? length (blockedAmong domains))%nat = true).
  { apply Nat.ltb_lt.
    destruct (blockedAmong domains); [destruct Hblocked|simpl; lia]. }
  subst v. rewrite validateMessage_text by assumption.
  unfold validateText. fold urls.
  destruct (MAX_MESSAGE_LENGTH <? length s)%nat eqn:Hlen.
  { apply Nat.ltb_lt in Hlen. split; [reflexivity|].
    split; [intros; lia | reflexivity]. }
  apply Nat.ltb_ge in Hlen.
  destruct (fst (hasRequiredKeywords h (VStr s))) eqn:Hkw;
    cbn [REQUIRE_KEYWORD_VALIDATION andb negb].
  2:{ split; [reflexivity|]. split; [intros; discriminate | reflexivity]. }
  destruct (MAX_URLS_PER_MESSAGE <? length urls)%nat eqn:Hcount.
  { apply Nat.ltb_lt in Hcount. split; [reflexivity|].
    split; [intros; lia | reflexivity]. }
  apply Nat.ltb_ge in Hcount.
  rewrite Hurls. fold domains. rewrite Hnonempty.
  cbn [verdict isValid blockedDomains reason foundUrls].
  split; [reflexivity|]. split.
  - intros _ _ _.
    split; [intros d'; apply In_blockedAmong|].
    split; [reflexivity|].
    split; [reflexivity|].
    intros Hone. rewrite Hone. reflexivity.
  - intros [Hbad|[Hbad|Hbad]]; [lia | discriminate | lia].
Qed.

(** C3 (amended): a message in which a URL of bit.ly stands as a word
    of its own (white space or an end of the text on either side),
    written in ASCII as the host bit.ly in any case, alone or after a
    lower-case "http://" or "https://" or a "www." and any subdomain
    labels, and followed by nothing or by a path, a query, a fragment
    or a port, has a domain that matches the blacklist entry bit.ly
    (exactly or as a dot-suffix) among the domains the validator finds;
    and every message that has such a domain is invalid, whatever its
    keywords and capitalisation.  The checks run in order, so
    [blockedDomains] is filled only when the message gets past the
    length check, the required-keyword gate and the URL ceiling: it
    then holds exactly the domains of the message that match the
    blacklist, the reason names them, the URLs found are reported, and
    it is ["bit.ly"] when bit.ly is the one domain of the message.
    When one of the three earlier checks fails, [blockedDomains] is
    empty.  Nothing is said of a URL whose scheme is not written in
    lower case. *)
Theorem blocked_domain_verdict (s : jsstring) :
  let urls := extractUrls h (VStr s) in
  let domains : list jsstring := omap (extractDomain h) urls in
  let v := validateMessage h (VStr s) in
  (foldsAscii h ->
   forall front token back : jsstring,
     s = front ++ token ++ back ->
     standsAlone front token back ->
     namesBitly token ->
     exists d, In d domains /\ domainMatches d (js "bit.ly") = true)
  /\ ((exists d, In d domains /\ domainMatches d (js "bit.ly") = true) ->
      isValid v = false
      /\ ((length s <= MAX_MESSAGE_LENGTH)%nat ->
          fst (hasRequiredKeywords h (VStr s)) = true ->
          (length urls <= MAX_URLS_PER_MESSAGE)%nat ->
          (forall d, In d (blockedDomains v) <->
                     In d domains
                     /\ existsb (domainMatches d) BLOCKED_DOMAINS = true)
          /\ reason v
             = js "Blocked domain(s) detected: "
               ++ join (js ", ") (blockedDomains v)
          /\ foundUrls v = urls
          /\ (domains = [js "bit.ly"] -> blockedDomains v = [js "bit.ly"]))
      /\ ((MAX_MESSAGE_LENGTH < length s)%nat
          \/ fst (hasRequiredKeywords h (VStr s)) = false
          \/ (MAX_URLS_PER_MESSAGE < length urls)%nat ->
          blockedDomains v = [])).
Proof.
  intros urls domains v. split; [|apply blocked_domain_core].
  intros Hfold front token back -> Halone Hnames.
  pose proof (token_found front token back Halone Hnames) as Hfound.
  pose proof (cleaned_token h Hfold token Hnames) as Hclean.
  destruct (domain_of_cleaned h Hfold _ Hclean) as (d & Hd & Hmatch).
  exists d. split; [|exact Hmatch].
  subst domains urls. apply list_elem_of_In, list_elem_of_omap.
  eexists. split; [|exact Hd]. apply list_elem_of_In.
  unfold extractUrls.
  destruct (front ++ token ++ back) as [|c rest] eqn:Htext;
    [destruct Hfound|].
  apply in_map_iff. exists token. split; [reflexivity | exact Hfound].
Qed.

(** C4 (amended): for a message that passes the length check and the
    keyword gate, holds between one and ten URLs and has no blacklisted
    domain, the heuristics are recorded without ending the validation:
    the details are the keyword finding, the URL-count remark, the
    capitalisation and punctuation findings and every suspicious
    pattern, in this order.  Only the suspicious patterns (keywords,
    digit runs, repeated characters) decide: with two or more of them
    the verdict is invalid with the combined reason, with fewer it is
    valid; capitalisation and punctuation findings never block here. *)
Theorem url_heuristics_verdict (s : jsstring) :
  let urls := extractUrls h (VStr s) in
  let domains : list jsstring := omap (extractDomain h) urls in
  let patterns := snd (hasSuspiciousPatterns h (VStr s)) in
  let v := validateMessage h (VStr s) in
  (length s <= MAX_MESSAGE_LENGTH)%nat ->
  fst (hasRequiredKeywords h (VStr s)) = true ->
  (1 <= length urls <= MAX_URLS_PER_MESSAGE)%nat ->
  blockedAmong domains = [] ->
  validationDetails v
  = [js "Found required keywords: "
     ++ join (js ", ") (snd (hasRequiredKeywords h (VStr s)))]
    ++ (if (MAX_SUSPICIOUS_URLS <? length urls)%nat
        then [js "Suspicious number of URLs: " ++ natToString (length urls)]
        else [])
    ++ (if hasExcessiveCaps (VStr s)
        then [js "Excessive capitalization detected"] else [])
    ++ (if hasExcessivePunctuation (VStr s)
        then [js "Excessive punctuation detected"] else [])
    ++ patterns
  /\ ((2 <= length patterns)%nat ->
      isValid v = false
      /\ reason v = js "Multiple suspicious patterns detected: "
                    ++ join (js "; ") patterns)
  /\ ((length patterns < 2)%nat ->
      isValid v = true
      /\ reason v = js "URLs validated: " ++ join (js ", ") domains).
Proof.
  intros urls domains patterns v Hlen Hkw [Hsome Hcount] Hclean.
  assert (Hs : s <> []).
  { intros ->. simpl in Hkw. discriminate. }
  assert (Hfst : fst (hasSuspiciousPatterns h (VStr s))
                 = (0 <? length patterns)%nat).
  { subst patterns. destruct s; [congruence | reflexivity]. }
  assert (Hdetails : forall l : list jsstring,
             (if fst (hasSuspiciousPatterns h (VStr s))
              then l ++ patterns else l) = l ++ patterns).
  { intros l. rewrite Hfst. destruct patterns; simpl; [|reflexivity].
    now rewrite app_nil_r. }
  subst v. rewrite validateMessage_text by assumption.
  unfold validateText.
  apply Nat.ltb_ge in Hlen. rewrite Hlen, Hkw.
  apply Nat.ltb_ge in Hcount. fold urls. rewrite Hcount.
  cbn [REQUIRE_KEYWORD_VALIDATION STRICT_MODE andb negb snd].
  replace (length urls =? 0)%nat with false
    by (symmetry; apply Nat.eqb_neq; lia).
  fold domains. rewrite Hclean.
  change (0 <? length (@nil jsstring))%nat with false. cbv iota.
  fold patterns. rewrite Hdetails.
  split; [|split].
  - destruct (fst (hasSuspiciousPatterns h (VStr s)) && _);
      cbn [verdict validationDetails];
      destruct (MAX_SUSPICIOUS_URLS <? length urls)%nat,
        (hasExcessiveCaps (VStr s)), (hasExcessivePunctuation (VStr s));
      cbn [app]; rewrite <- ?app_assoc; reflexivity.
  - intros Hmany. rewrite Hfst.
    replace (0 <? length patterns)%nat with true
      by (symmetry; apply Nat.ltb_lt; lia).
    replace (2 <=? length patterns)%nat with true
      by (symmetry; apply Nat.leb_le; lia).
    split; reflexivity.
  - intros Hfew.
    replace (2 <=? length patterns)%nat with false
      by (symmetry; apply Nat.leb_gt; lia).
    rewrite andb_false_r. split; reflexivity.
Qed.

End ValidatorFacts.

Lemma validateMessage_rejects_empty_input_witness :
  (truthy (VStr []) = false \/ isString (VStr []) = false)
  /\ validateMessage utcHost (VStr [])
     = {| isValid := false; reason := js "Empty or invalid message";
          foundUrls := []; blockedDomains := []; validationDetails := [];
          missingKeywords := false; allowedDomains := None |}.
Proof.
  split; [left; reflexivity|].
  apply (validateMessage_rejects_empty_input utcHost (VStr [])).
  left; reflexivity.
Defined.

(** A message whose only URL has the domain bit.ly and that names no
    required keyword: the keyword gate answers first and the verdict
    lists no blocked domain. *)
Lemma blocked_domain_needs_keyword :
  In (js "bit.ly")
     (omap (extractDomain utcHost)
        (extractUrls utcHost (VStr (js "bit.ly/abc"))))
  /\ ~ (isValid (validateMessage utcHost (VStr (js "bit.ly/abc"))) = false
        /\ blockedDomains (validateMessage utcHost (VStr (js "bit.ly/abc")))
           = [js "bit.ly"]).
Proof.
  split.
  - vm_compute. left. reflexivity.
  - intros [_ Hblocked]. vm_compute in Hblocked. discriminate Hblocked.
Qed.

Lemma blocked_domain_verdict_witness :
  isValid (validateMessage utcHost (VStr (js "test https://Bit.ly/abc")))
  = false
  /\ blockedDomains
       (validateMessage utcHost (VStr (js "test https://Bit.ly/abc")))
     = [js "bit.ly"].
Proof.
  destruct (blocked_domain_verdict utcHost (js "test https://Bit.ly/abc"))
    as (Hfinds & Hverdict).
  assert (Hfold : foldsAscii utcHost) by (intros s _; reflexivity).
  assert (Halone : standsAlone (js "test ") (js "https://Bit.ly/abc") []).
  { split; [reflexivity|]. split; [right | now left].
    exists (js "test"), 32%N. split; reflexivity. }
  assert (Hnames : namesBitly (js "https://Bit.ly/abc")).
  { exists (js "https://"), [], (js "Bit.ly"), (js "/abc").
    split; [reflexivity|]. split; [reflexivity|].
    split; [right; split; [right; left; reflexivity|]; split;
            [now left | reflexivity]|].
    split; [right; exists 47%N, (js "abc"); split; reflexivity|].
    reflexivity. }
  destruct (Hverdict (Hfinds Hfold (js "test ") (js "https://Bit.ly/abc") []
                        eq_refl Halone Hnames))
    as (Hinvalid & Hlisted & _).
  split; [exact Hinvalid|].
  destruct Hlisted as (_ & _ & _ & Hone).
  - apply Nat.leb_le; reflexivity.
  - reflexivity.
  - apply Nat.leb_le; reflexivity.
  - apply Hone. reflexivity.
Defined.

(** A URL of bit.ly whose scheme is written in capitals is matched by
    the URL pattern, which ignores case, but not recognised by the test
    for a scheme that follows, which does not: a second scheme is put
    before it, the domain is read as "http", and the message is
    accepted. *)
Example capital_scheme_is_not_recognised :
  extractUrls utcHost (VStr (js "test HTTP://bit.ly/abc"))
  = [js "https://http://bit.ly/abc"]
  /\ omap (extractDomain utcHost)
       (extractUrls utcHost (VStr (js "test HTTP://bit.ly/abc")))
     = [js "http"]
  /\ isValid (validateMessage utcHost (VStr (js "test HTTP://bit.ly/abc")))
     = true.
Proof. vm_compute. repeat split. Qed.

(** A message with one harmless URL that trips two heuristics,
    capitalisation and punctuation, and is accepted all the same. *)
Lemma two_heuristic_hits_accepted :
  let m := VStr (js "TEST TEST TEST!!! x.io") in
  extractUrls utcHost m = [js "https://x.io"]
  /\ blockedAmong (omap (extractDomain utcHost) (extractUrls utcHost m)) = []
  /\ hasExcessiveCaps m = true
  /\ hasExcessivePunctuation m = true
  /\ validationDetails (validateMessage utcHost m)
     = [js "Found required keywords: test";
        js "Excessive capitalization detected";
        js "Excessive punctuation detected"]
  /\ ~ isValid (validateMessage utcHost m) = false.
Proof.
  vm_compute. repeat split; discriminate.
Qed.

Lemma url_heuristics_verdict_witness :
  (length (js "test urgent guaranteed x.io") <= MAX_MESSAGE_LENGTH)%nat
  /\ isValid (validateMessage utcHost (VStr (js "test urgent guaranteed x.io")))
     = false.
Proof.
  assert (Hlen : (length (js "test urgent guaranteed x.io")
                  <= MAX_MESSAGE_LENGTH)%nat)
    by (apply Nat.leb_le; reflexivity).
  split; [exact Hlen|].
  destruct (url_heuristics_verdict utcHost (js "test urgent guaranteed x.io"))
    as (_ & Hmany & _).
  - exact Hlen.
  - reflexivity.
  - split; apply Nat.leb_le; reflexivity.
  - reflexivity.
  - apply Hmany. apply Nat.leb_le. reflexivity.
Defined.

(** C9: the verdict of a valid message without URLs carries no detail,
    although the keyword check before it found and recorded the
    required keywords; the valid verdict of a message with a URL keeps
    that finding. *)
Theorem valid_text_verdict_drops_details :
  snd (hasRequiredKeywords utcHost (VStr (js "test zeitslot")))
  = [js "test"; js "zeitslot"]
  /\ validateMessage utcHost (VStr (js "test zeitslot"))
     = verdict true (js "No URLs found, content validated") [] [] []
  /\ validationDetails (validateMessage utcHost (VStr (js "test zeitslot x.io")))
     = [js "Found required keywords: test, zeitslot"].
Proof. vm_compute. repeat split. Qed.

(** ** The rate limiter *)

Section RateFacts.

Variable h : Host.

(** A live, non-empty entry is read through [parseInt]. *)
Lemma readCount_live (now : Z) (key v : jsstring) (expiry : Z) (cache : Cache) :
  cache !! key = Some (v, expiry) -> now < expiry -> v <> [] ->
  fst (readCount now key cache) = parseInt v.
Proof.
  intros Hget Hlive Hv. unfold readCount, cbind, cacheGet, ret. cbn [fst].
  rewrite Hget. apply Z.ltb_lt in Hlive. rewrite Hlive.
  destruct v; [congruence | reflexivity].
Qed.

(** A missing or expired entry counts as zero. *)
Lemma readCount_missing (now : Z) (key : jsstring) (cache : Cache) :
  cache !! key = None -> fst (readCount now key cache) = Some 0.
Proof.
  intros Hget. unfold readCount, cbind, cacheGet, ret. cbn [fst].
  rewrite Hget. reflexivity.
Qed.

Lemma checkRateLimit_unfold (now : Z) (cache : Cache) :
  let hc := fst (readCount now (hourKey h now) cache) in
  let dc := fst (readCount now (dayKey h now) cache) in
  checkRateLimit h now cache
  = (if numGe hc (Some MAX_MESSAGES_PER_HOUR) then
       {| isAllowed := false;
          rateReason := js "Rate limit exceeded: " ++ numToString hc
                        ++ js " messages sent this hour (limit: "
                        ++ intToString MAX_MESSAGES_PER_HOUR ++ js ")";
          hourCount := hc; dayCount := dc |}
     else if numGe dc (Some MAX_MESSAGES_PER_DAY) then
       {| isAllowed := false;
          rateReason := js "Rate limit exceeded: " ++ numToString dc
                        ++ js " messages sent today (limit: "
                        ++ intToString MAX_MESSAGES_PER_DAY ++ js ")";
          hourCount := hc; dayCount := dc |}
     else
       {| isAllowed := true;
          rateReason := js "Rate limit OK (" ++ numToString hc ++ js "/"
                        ++ intToString MAX_MESSAGES_PER_HOUR
                        ++ js " per hour, " ++ numToString dc ++ js "/"
                        ++ intToString MAX_MESSAGES_PER_DAY
                        ++ js " per day)";
          hourCount := hc; dayCount := dc |}, cache).
Proof.
  intros hc dc. unfold checkRateLimit, cbind.
  change (readCount now (hourKey h now) cache) with (hc, cache).
  cbv iota beta.
  change (readCount now (dayKey h now) cache) with (dc, cache).
  cbv iota beta. unfold ret.
  destruct (numGe hc _); [reflexivity|]. destruct (numGe dc _); reflexivity.
Qed.

Lemma checkRateLimit_cache (now : Z) (cache : Cache) :
  snd (checkRateLimit h now cache) = cache.
Proof. now rewrite checkRateLimit_unfold. Qed.

(** C8: [checkRateLimit] leaves the cache as it found it and reports
    the count read from the current hour bucket; whenever that count is
    at least the hourly ceiling of 3 it answers [isAllowed = false] with
    the reason naming the count and the hourly limit.  In the
    scheduler, a row leaves the cache unchanged unless its message was
    sent and the API confirmed it, in which case the cache is the one
    [incrementRateLimit] produces. *)
Theorem rate_limit_check_is_read_only (now : Z) (cache : Cache) :
  let r := fst (checkRateLimit h now cache) in
  snd (checkRateLimit h now cache) = cache
  /\ hourCount r = fst (readCount now (hourKey h now) cache)
  /\ (forall n : Z,
        hourCount r = Some n -> MAX_MESSAGES_PER_HOUR <= n ->
        isAllowed r = false
        /\ rateReason r
           = js "Rate limit exceeded: " ++ intToString n
             ++ js " messages sent this hour (limit: 3)")
  /\ (forall sanitize t clk resp data i row,
        let step := processRow h sanitize t clk resp data i row cache in
        cacheAfter step = cache
        \/ (resp = RespOk
            /\ In (SetValue (i + 1) lastSentColumn (VDate (Some t)))
                 (effects step)
            /\ cacheAfter step
               = snd (incrementRateLimit h (atIncrement clk) cache))).
Proof.
  intros r. subst r. rewrite checkRateLimit_unfold. cbn [fst snd].
  split; [reflexivity|]. split.
  { destruct (numGe _ _); [reflexivity|]. destruct (numGe _ _); reflexivity. }
  split.
  { intros n Hn Hge.
    assert (Hhc : fst (readCount now (hourKey h now) cache) = Some n).
    { destruct (numGe _ _); [exact Hn|]. destruct (numGe _ _); exact Hn. }
    rewrite Hhc. cbn [numGe]. apply Z.leb_le in Hge. rewrite Hge.
    split; reflexivity. }
  intros sanitize t clk resp data i row.
  unfold processRow.
  destruct (negb (truthy (cell row COL_DATETIME))); [now left|].
  destruct (negb (truthy (cell row COL_MESSAGE)) || _); [now left|].
  destruct (sentThisMinute _ _ _); [now left|].
  destruct (asString _ _); [|now left].
  destruct (negb (shouldSend _ _ _ _ _)); [now left|].
  destruct (detectDuplicateContent _ _ _ _ _); [|now left].
  destruct (isDuplicate _); [now left|].
  destruct (negb (isValid _)); [now left|].
  rewrite checkRateLimit_unfold. cbv zeta.
  destruct (negb (isAllowed _)); [now left|].
  cbn [cacheAfter effects]. unfold sendRow.
  destruct resp; [right|now left|now left].
  cbn [cacheAfter effects app]. split; [reflexivity|].
  split; [do 2 right; left; reflexivity | reflexivity].
Qed.

End RateFacts.

Lemma rate_limit_check_is_read_only_witness :
  MAX_MESSAGES_PER_HOUR <= 3
  /\ hourCount (fst (checkRateLimit utcHost (tenOClock + 1800000) threeSends))
     = Some 3
  /\ isAllowed (fst (checkRateLimit utcHost (tenOClock + 1800000) threeSends))
     = false
  /\ snd (checkRateLimit utcHost (tenOClock + 1800000) threeSends) = threeSends.
Proof.
  destruct (rate_limit_check_is_read_only utcHost (tenOClock + 1800000)
              threeSends) as (Hsame & _ & Hfull & _).
  assert (Hcount : hourCount (fst (checkRateLimit utcHost (tenOClock + 1800000)
                                     threeSends)) = Some 3)
    by (vm_compute; reflexivity).
  assert (Hceil : MAX_MESSAGES_PER_HOUR <= 3) by (unfold MAX_MESSAGES_PER_HOUR; lia).
  destruct (Hfull 3 Hcount Hceil) as [Hrefused _].
  repeat split; assumption.
Defined.

(** After three sends recorded in one hour the fourth attempt of that
    hour is refused for the hourly ceiling; after two it is not. *)
Example fourth_send_refused :
  let r := fst (checkRateLimit utcHost (tenOClock + 1800000) threeSends) in
  isAllowed r = false
  /\ rateReason r
     = js "Rate limit exceeded: 3 messages sent this hour (limit: 3)"
  /\ isAllowed
       (fst (checkRateLimit utcHost (tenOClock + 1800000)
               (snd (incrementRateLimit utcHost (tenOClock + 600000)
                       (snd (incrementRateLimit utcHost (tenOClock + 60000) ∅))))))
     = true.
Proof. vm_compute. repeat split. Qed.

(** ** The duplicate detector *)

Section DuplicateFacts.

Variable h : Host.

(** The detector never looks at the row whose index is one more than
    its third argument: replacing that row changes nothing. *)
Lemma dupScan_skips_indexed (normalizedMessage : jsstring) (cutoff : Z)
    (k : nat) (row' : Row) (rows : list Row) :
  forall i j : nat,
    (i + j = k + 1)%nat ->
    dupScan h normalizedMessage cutoff (Z.of_nat k) i (<[j := row']> rows)
    = dupScan h normalizedMessage cutoff (Z.of_nat k) i rows.
Proof.
  induction rows as [|row rest IH]; intros i j Hij; [reflexivity|].
  destruct j as [|j].
  - change (<[0%nat := row']> (row :: rest)) with (row' :: rest).
    cbn [dupScan].
    replace (Z.of_nat i =? Z.of_nat k + 1) with true
      by (symmetry; apply Z.eqb_eq; lia).
    reflexivity.
  - change (<[S j := row']> (row :: rest)) with (row :: <[j := row']> rest).
    cbn [dupScan]. rewrite (IH (S i) j) by lia. reflexivity.
Qed.

Lemma detectDuplicateContent_skips_indexed (clock : Z) (message : Value)
    (sheetData : list Row) (k : nat) (row' : Row) :
  detectDuplicateContent h clock message (<[S k := row']> sheetData)
    (Z.of_nat k)
  = detectDuplicateContent h clock message sheetData (Z.of_nat k).
Proof.
  unfold detectDuplicateContent. destruct sheetData as [|header rows];
    [reflexivity|].
  change (<[S k := row']> (header :: rows)) with (header :: <[k := row']> rows).
  cbn [skipn].
  destruct (negb (truthy message) || _); [reflexivity|].
  destruct (asString _ message); [|reflexivity]. cbn [bind].
  apply dupScan_skips_indexed. lia.
Qed.

End DuplicateFacts.

(** C2: a sheet holding a single entry, sent one minute ago and due
    again.  The scheduler hands the detector the index [i] of the row in
    the sheet, the detector leaves out the row [i + 1], and so the
    entry is compared with its own row and blocked as a duplicate of
    itself; called with the index the detector documents (counted
    without the header) the same entry is no duplicate. *)
Theorem sent_row_is_its_own_duplicate :
  let row := minuteRow (VDate (Some (tenOClock - 60000))) in
  let why :=
    js "Duplicate message detected: Same content was sent at 2024-01-01T09:59:00.000Z" in
  detectDuplicateContent utcHost (tenOClock + 2000) (cell row COL_MESSAGE)
    [headerRow; row] 1
  = Ok {| isDuplicate := true; dupReason := why |}
  /\ effects (runAlone row)
     = [SetValue 2 5 (VStr (js "BLOCKED: " ++ why));
        NotifyAdmin 2 (VStr (js "test zeitslot")) (js "BLOCKED: " ++ why)
          None why]
  /\ detectDuplicateContent utcHost (tenOClock + 2000) (cell row COL_MESSAGE)
       [headerRow; row] 0
     = Ok notDuplicate.
Proof. vm_compute. repeat split. Qed.

(** ** The scheduler *)

Section SchedulerFacts.

Variable h : Host.

Lemma minuteOf_same_minute (a b : Z) :
  localTime h a / msPerMinute = localTime h b / msPerMinute ->
  minuteOf h (Some a) = minuteOf h (Some b).
Proof.
  intros Hmin.
  unfold minuteOf, getFullYear, getMonth, getDate, getHours, getMinutes,
    localField.
  unfold YearFromTime, MonthFromTime, DateFromTime, MinFromTime.
  rewrite !Day_of_minute, !Hour_of_minute, Hmin. reflexivity.
Qed.

Lemma sentThisMinute_same_minute (now t : Z) :
  localTime h t / msPerMinute = localTime h now / msPerMinute ->
  sentThisMinute h now (Some (Some t)) = true.
Proof.
  intros Hmin. unfold sentThisMinute, getTime.
  rewrite (minuteOf_same_minute t now Hmin).
  unfold minuteOf, newDateFields, getFullYear, getMonth, getDate, getHours,
    getMinutes, localField.
  apply numEq_refl.
Qed.

(** Clearing the seconds, and rebuilding a date from its fields down to
    the minute, both give the start of the local minute (the two-digit
    years, which the [Date] constructor moves to the twentieth century,
    set apart). *)
Lemma setSeconds00_floor (t : Z) :
  setSeconds00 h (Some t)
  = Some (utcOfLocal h (localTime h t - localTime h t mod msPerMinute)).
Proof. unfold setSeconds00. now rewrite time_fields. Qed.

Lemma minuteOf_floor (t : Z) :
  ~ 0 <= YearFromTime (localTime h t) <= 99 ->
  minuteOf h (Some t)
  = Some (utcOfLocal h (localTime h t - localTime h t mod msPerMinute)).
Proof.
  intros Hyear.
  unfold minuteOf, newDateFields, getFullYear, getMonth, getDate, getHours,
    getMinutes, localField.
  replace ((0 <=? YearFromTime (localTime h t))
           && (YearFromTime (localTime h t) <=? 99)) with false
    by (symmetry; apply andb_false_iff; rewrite Z.leb_gt, Z.leb_gt; lia).
  unfold YearFromTime, MonthFromTime, DateFromTime.
  rewrite MakeDay_civil, time_fields. reflexivity.
Qed.

(** A guard that holds was set off by an instant of the same local
    minute, on a host whose conversion to UTC is one-to-one. *)
Lemma sentThisMinute_only_same_minute (now t : Z) :
  (forall a b : Z, utcOfLocal h a = utcOfLocal h b -> a = b) ->
  ~ 0 <= YearFromTime (localTime h now) <= 99 ->
  ~ 0 <= YearFromTime (localTime h t) <= 99 ->
  sentThisMinute h now (Some (Some t)) = true ->
  localTime h t / msPerMinute = localTime h now / msPerMinute.
Proof.
  intros Hinj Hnow Ht.
  unfold sentThisMinute, getTime.
  rewrite !minuteOf_floor by assumption. cbn [numEq].
  intros Heq%Z.eqb_eq%Hinj. revert Heq. unfold msPerMinute.
  Z.to_euclidean_division_equations. lia.
Qed.

(** X13: on a host whose conversion to UTC is one-to-one the minute
    guard holds exactly for two instants of the same local minute (the
    years 0 to 99, which the [Date] constructor moves to the twentieth
    century, set apart). *)
Lemma sentThisMinute_iff (now t : Z) :
  (forall a b : Z, utcOfLocal h a = utcOfLocal h b -> a = b) ->
  ~ 0 <= YearFromTime (localTime h now) <= 99 ->
  ~ 0 <= YearFromTime (localTime h t) <= 99 ->
  sentThisMinute h now (Some (Some t)) = true
  <-> localTime h t / msPerMinute = localTime h now / msPerMinute.
Proof.
  intros Hinj Hnow Ht. split.
  - now apply sentThisMinute_only_same_minute.
  - apply sentThisMinute_same_minute.
Qed.

(** C6: when the last-fire cell is a send at instant [t] and [t] falls
    in the same minute of local time as the evaluation instant, the row
    is skipped: nothing is written or sent, the cache is untouched and
    no exception can arise, whatever the recurrence cell holds (a
    one-time text, any rule, or a value no rule could be read from);
    the schedule stage answers "not due". *)
Theorem same_minute_guard (sanitize : jsstring -> jsstring) (now t : Z)
    (clk : RowClock) (resp : Response) (data : list Row) (i : nat)
    (row : Row) (cache : Cache) :
  parseLastSent h (cell row COL_LAST_SENT) = Some (Some t) ->
  localTime h t / msPerMinute = localTime h now / msPerMinute ->
  processRow h sanitize now clk resp data i row cache = skip cache
  /\ rowDue h now row = Ok false.
Proof.
  intros Hlast Hmin.
  pose proof (sentThisMinute_same_minute now t Hmin) as Hguard.
  split.
  - unfold processRow. rewrite Hlast, Hguard.
    destruct (negb (truthy (cell row COL_DATETIME))); [reflexivity|].
    destruct (negb (truthy (cell row COL_MESSAGE)) || _); reflexivity.
  - unfold rowDue. now rewrite Hlast, Hguard.
Qed.

Lemma one_time_shouldSend (now : Z) (start : option Z) (repeat : jsstring)
    (lastSent : option (option Z)) :
  repeat = [] \/ repeat = js "don't" \/ repeat = js "don't repeat" ->
  shouldSend h now start repeat lastSent
  = exactDateMatch h now start && timeMatch h now start.
Proof.
  intros Hone. unfold shouldSend, isOneTime.
  destruct Hone as [->|[->| ->]]; decide_streq;
    cbn [andb orb]; rewrite ?orb_false_r; reflexivity.
Qed.


(** C1: the stages of a row run in a fixed order and the first one that
    fails ends the row.  A row without date or message, or not enabled,
    is skipped.  An active row that is not due is skipped.  For a due
    row the duplicate detector answers first: a duplicate is recorded
    as blocked with the detector's reason and nothing else happens.
    Otherwise the validator answers: an invalid message is logged and
    recorded as blocked with the validator's reason.  Otherwise the
    rate limiter answers: a refusal is recorded with the limiter's
    reason.  Otherwise the message is handed to the transport.  The
    message goes to the transport only if the row is active and due,
    the detector found no duplicate, the message is valid and the
    limiter allows the send. *)
Theorem pipeline_order (sanitize : jsstring -> jsstring) (now : Z)
    (clk : RowClock) (resp : Response) (data : list Row) (i : nat)
    (row : Row) (cache : Cache) :
  let step := processRow h sanitize now clk resp data i row cache in
  let msg := cell row COL_MESSAGE in
  let dup :=
    detectDuplicateContent h (atDuplicateCheck clk) msg data (Z.of_nat i) in
  let v := validateMessage h msg in
  let rate := fst (checkRateLimit h (atRateCheck clk) cache) in
  (rowActive h row = false -> step = skip cache)
  /\ (rowActive h row = true -> rowDue h now row = Ok false ->
      step = skip cache)
  /\ (rowActive h row = true -> rowDue h now row = Ok true ->
      forall d, dup = Ok d ->
        (isDuplicate d = true ->
         effects step
         = [SetValue (i + 1) lastSentColumn
              (VStr (js "BLOCKED: " ++ dupReason d));
            NotifyAdmin (i + 1) msg (js "BLOCKED: " ++ dupReason d) None
              (dupReason d)])
        /\ (isDuplicate d = false -> isValid v = false ->
            effects step
            = [rowLogged h now i row;
               SetValue (i + 1) lastSentColumn
                 (VStr (js "BLOCKED: " ++ reason v));
               NotifyAdmin (i + 1) msg (js "BLOCKED: " ++ reason v)
                 (Some v) []])
        /\ (isDuplicate d = false -> isValid v = true ->
            isAllowed rate = false ->
            exists info,
              effects step
              = [rowLogged h now i row;
                 SetValue (i + 1) lastSentColumn
                   (VStr (js "RATE_LIMITED: " ++ rateReason rate));
                 NotifyAdmin (i + 1) msg
                   (js "RATE_LIMITED: " ++ rateReason rate) None info])
        /\ (isDuplicate d = false -> isValid v = true ->
            isAllowed rate = true ->
            exists rest,
              effects step
              = rowLogged h now i row :: FetchSendMessage msg :: rest))
  /\ (forall text, In (FetchSendMessage text) (effects step) ->
        text = msg /\ rowActive h row = true /\ rowDue h now row = Ok true
        /\ (exists d, dup = Ok d /\ isDuplicate d = false)
        /\ isValid v = true /\ isAllowed rate = true).
Proof.
  intros step msg dup v rate.
  subst step. unfold processRow, rowActive, rowDue, rowLogged.
  fold (rowRepeatRaw row). fold msg. fold dup. fold v.
  destruct (truthy (cell row COL_DATETIME)) eqn:Hdt; cbn [negb andb];
    [|early_exit].
  destruct (truthy msg) eqn:Hmsg; cbn [negb andb orb]; [|early_exit].
  destruct (isEnabled h (cell row COL_ENABLED)) eqn:Hen; cbn [negb andb orb];
    [|early_exit].
  destruct (sentThisMinute h now _) eqn:Hguard; [early_exit|].
  destruct (asString _ (rowRepeatRaw row)) as [repeatText|e] eqn:Hrep;
    cbn [bind]; [|early_exit].
  destruct (shouldSend h now _ _ _) eqn:Hdue; cbn [negb]; [|early_exit].
  destruct dup as [d|e] eqn:Hdup; [|early_exit].
  pose proof (checkRateLimit_cache h (atRateCheck clk) cache) as Hcache.
  subst rate.
  destruct (checkRateLimit h (atRateCheck clk) cache) as [rate cache']
    eqn:Hrate.
  cbn [fst snd] in *. subst cache'.
  destruct (isDuplicate d) eqn:Hd.
  { split; [discriminate|]. split; [discriminate|]. split.
    - intros _ _ d' [= <-]. rewrite Hd.
      repeat apply conj; try discriminate; try (intros; reflexivity).
    - intros text [[=]|[[=]|[]]]. }
  destruct (isValid v) eqn:Hv; cbn [negb].
  2:{ split; [discriminate|]. split; [discriminate|]. split.
      - intros _ _ d' [= <-]. rewrite Hd.
        repeat apply conj; try discriminate; try (intros; reflexivity).
      - intros text [[=]|[[=]|[[=]|[]]]]. }
  destruct (isAllowed rate) eqn:Hr; cbn [negb].
  2:{ split; [discriminate|]. split; [discriminate|]. split.
      - intros _ _ d' [= <-]. rewrite Hd.
        repeat apply conj; try discriminate; try (intros; reflexivity).
        intros _ _ _. eexists. reflexivity.
      - intros text [[=]|[[=]|[[=]|[]]]]. }
  split; [discriminate|]. split; [discriminate|]. split.
  - intros _ _ d' [= <-]. rewrite Hd.
    repeat apply conj; try discriminate; try (intros; reflexivity).
    intros _ _ _. cbn [effects]. unfold sendRow.
    destruct resp; cbn [effects app]; eexists; reflexivity.
  - intros text Hin. cbn [effects] in Hin.
    assert (text = msg) as ->.
    { destruct Hin as [[=]|Hin]. unfold sendRow in Hin.
      destruct resp; cbn [effects app] in Hin.
      - destruct Hin as [[=]|[[=]|Hin]]; [congruence|].
        destruct (0 <? length _)%nat; [destruct Hin as [[=]|[]]|destruct Hin].
      - destruct Hin as [[=]|[[=]|[[=]|[]]]]; congruence.
      - destruct Hin as [[=]|[[=]|[[=]|[]]]]; congruence. }
    repeat apply conj; try reflexivity; try assumption.
    exists d. split; [reflexivity | assumption].
Qed.

(** Every message the loop hands to the transport is handed over by
    the step of one of its rows. *)
Lemma processRows_fetch_origin (sanitize : jsstring -> jsstring) (now : Z)
    (clock : nat -> RowClock) (transport : nat -> Response)
    (data : list Row) (text : Value) (rows : list Row) :
  forall (i : nat) (cache : Cache),
    In (FetchSendMessage text)
      (effects (processRows h sanitize now clock transport data i rows cache)) ->
    exists (j : nat) (row : Row) (cache' : Cache),
      rows !! j = Some row
      /\ In (FetchSendMessage text)
           (effects (processRow h sanitize now (clock (i + j)%nat)
                       (transport (i + j)%nat) data (i + j) row cache')).
Proof.
  induction rows as [|row rest IH]; intros i cache Hin; [destruct Hin|].
  cbn [processRows] in Hin.
  destruct (completion (processRow h sanitize now (clock i) (transport i)
                          data i row cache)) eqn:Hc.
  - cbn [effects] in Hin. apply in_app_or in Hin as [Hin|Hin].
    + exists 0%nat, row, cache. rewrite Nat.add_0_r. split; [reflexivity|exact Hin].
    + apply IH in Hin as (j & row' & cache' & Hget & Hin).
      exists (S j), row', cache'. rewrite Nat.add_succ_r. split; assumption.
  - exists 0%nat, row, cache. rewrite Nat.add_0_r. split; [reflexivity|exact Hin].
Qed.

(** The schedule stage of a one-time row: the date and time must match
    and the minute guard must not apply. *)
Lemma one_time_row_due (now : Z) (row : Row) (repeatText : jsstring) :
  rowRepeatRaw row = VStr repeatText ->
  isOneTime (trim (toLowerCase h repeatText)) = true ->
  rowDue h now row
  = Ok (negb (sentThisMinute h now (parseLastSent h (cell row COL_LAST_SENT)))
        && exactDateMatch h now
             (setSeconds00 h (newDate h (cell row COL_DATETIME)))
        && timeMatch h now
             (setSeconds00 h (newDate h (cell row COL_DATETIME)))).
Proof.
  intros Hraw Hone. unfold rowDue. rewrite Hraw. cbn [asString bind].
  destruct (sentThisMinute h now _); [reflexivity|]. cbn [negb andb].
  rewrite one_time_shouldSend; [reflexivity|].
  unfold isOneTime in Hone. rewrite !orb_true_iff, !streq_eq in Hone. tauto.
Qed.


(** A last-fire text that is no date and does not start with "ERROR:"
    becomes an invalid date, not [null], and an every-minute entry
    carrying it is never due. *)
Lemma every_minute_unparseable_not_due (now : Z) (start : option Z)
    (s : jsstring) :
  s <> [] -> startsWith s (js "ERROR:") = false -> dateParse h s = None ->
  parseLastSent h (VStr s) = Some None
  /\ shouldSend h now start (js "every minute") (parseLastSent h (VStr s))
     = false.
Proof.
  intros Hs Herr Hparse.
  assert (Hlast : parseLastSent h (VStr s) = Some None).
  { unfold parseLastSent. destruct s; [congruence|].
    cbn [truthy]. rewrite Herr. cbn [newDate]. now rewrite Hparse. }
  split; [exact Hlast|]. rewrite Hlast.
  unfold shouldSend, isOneTime. decide_streq. reflexivity.
Qed.

End SchedulerFacts.

Lemma same_minute_guard_witness :
  parseLastSent utcHost
    (cell (rowAtTen (VStr []) (VDate (Some (tenOClock + 30000)))) COL_LAST_SENT)
  = Some (Some (tenOClock + 30000))
  /\ runAlone (rowAtTen (VStr []) (VDate (Some (tenOClock + 30000))))
     = skip ∅.
Proof.
  split; [reflexivity|].
  apply (same_minute_guard utcHost (fun e => e) tenOClock (tenOClock + 30000)).
  - reflexivity.
  - reflexivity.
Defined.



Lemma pipeline_order_witness :
  rowActive utcHost (minuteRow (VStr [])) = true
  /\ rowDue utcHost tenOClock (minuteRow (VStr [])) = Ok true
  /\ exists rest,
       effects (runAlone (minuteRow (VStr [])))
       = rowLogged utcHost tenOClock 1 (minuteRow (VStr []))
         :: FetchSendMessage (VStr (js "test zeitslot")) :: rest.
Proof.
  assert (Hactive : rowActive utcHost (minuteRow (VStr [])) = true)
    by reflexivity.
  assert (Hdue : rowDue utcHost tenOClock (minuteRow (VStr [])) = Ok true)
    by reflexivity.
  split; [exact Hactive|]. split; [exact Hdue|].
  destruct (pipeline_order utcHost (fun e => e) tenOClock someClock RespOk
              [headerRow; minuteRow (VStr [])] 1 (minuteRow (VStr [])) ∅)
    as (_ & _ & Hstages & _).
  destruct (Hstages Hactive Hdue notDuplicate) as (_ & _ & _ & Hsend).
  - vm_compute. reflexivity.
  - apply Hsend; vm_compute; reflexivity.
Defined.

(** C5: an every-minute entry whose last-fire cell holds the text the
    scheduler itself wrote when it blocked the message.  The text is no
    date; the scheduler turns it into an invalid date instead of
    [null], the comparison with one minute fails, and the entry is not
    due and nothing is sent, whereas the same entry with an empty
    last-fire cell, or one holding an "ERROR:" text, is due. *)
Theorem blocked_text_is_not_unset :
  dateParse utcHost blockedText = None
  /\ parseLastSent utcHost (VStr blockedText) = Some None
  /\ rowDue utcHost tenOClock (minuteRow (VStr blockedText)) = Ok false
  /\ runAlone (minuteRow (VStr blockedText)) = skip ∅
  /\ rowDue utcHost tenOClock (minuteRow (VStr [])) = Ok true
  /\ rowDue utcHost tenOClock (minuteRow (VStr (js "ERROR: Bad Request")))
     = Ok true.
Proof. vm_compute. repeat split. Qed.

(** ** The worked cases of the specification *)

(** A daily entry scheduled at the evaluation minute, never sent, with
    the message "test zeitslot": the message is logged, sent and the
    send is recorded. *)
Example daily_entry_is_sent :
  effects (runAlone (rowAtTen (VStr (js "Daily")) (VStr [])))
  = [rowLogged utcHost tenOClock 1 (rowAtTen (VStr (js "Daily")) (VStr []));
     FetchSendMessage (VStr (js "test zeitslot"));
     SetValue 2 5 (VDate (Some tenOClock))].
Proof. vm_compute. reflexivity. Qed.

(** Two entries with the same wording up to case and spacing: the
    second is a duplicate when the first was sent two hours ago, and is
    none when it was sent thirty hours ago. *)
Example duplicate_within_a_day :
  let other (sentAt : Z) : Row :=
    [VDate (Some tenOClock); VStr (js "  Test   ZEITSLOT "); VStr [];
     VBool true; VDate (Some sentAt)] in
  let row := rowAtTen (VStr (js "daily")) (VStr []) in
  (let! d := detectDuplicateContent utcHost tenOClock (cell row COL_MESSAGE)
               [headerRow; other (tenOClock - 2 * 3600000); row] 1 in
   Ok (isDuplicate d)) = Ok true
  /\ (let! d := detectDuplicateContent utcHost tenOClock (cell row COL_MESSAGE)
                  [headerRow; other (tenOClock - 30 * 3600000); row] 1 in
      Ok (isDuplicate d)) = Ok false.
Proof. vm_compute. split; reflexivity. Qed.

(** An entry repeating every three days fires on the third day after
    its anchor and not on the fourth. *)
Example every_three_days :
  shouldSend utcHost (tenOClock + 3 * msPerDay) (Some tenOClock)
    (js "every 3 days") None = true
  /\ shouldSend utcHost (tenOClock + 4 * msPerDay) (Some tenOClock)
       (js "every 3 days") None = false.
Proof. vm_compute. split; reflexivity. Qed.

(* ================================================================== *)
(** * Further properties *)
(* ================================================================== *)
Lemma js_cons (a : ascii) (s : string) : js (String a s) = N_of_ascii a :: js s.
Proof. reflexivity. Qed.

Lemma parseDigits_acc (d : Decimal.uint) :
  forall acc : positive,
    parseDigits 10 (Some (Zpos acc)) (js (NilEmpty.string_of_uint d))
    = Some (Zpos (Pos.of_uint_acc d acc)).
Proof.
  induction d; intros acc; cbn [NilEmpty.string_of_uint Pos.of_uint_acc];
    [reflexivity|..];
    rewrite js_cons; cbn [parseDigits]; 
    match goal with
    | |- context [digitValue 10 ?c] =>
        let v := eval vm_compute in (digitValue 10 c) in
        change (digitValue 10 c) with v
    end; cbv iota beta;
    match goal with
    | |- parseDigits 10 (Some ?z) _ = Some (Zpos (Pos.of_uint_acc _ ?p)) =>
        replace z with (Zpos p) by lia
    end; apply IHd.
Qed.

Lemma parseDigits_uint (d : Decimal.uint) :
  parseDigits 10 (Some 0) (js (NilEmpty.string_of_uint d))
  = Some (Z.of_N (Pos.of_uint d))
  /\ (d <> Decimal.Nil ->
      parseDigits 10 None (js (NilEmpty.string_of_uint d))
      = Some (Z.of_N (Pos.of_uint d))).
Proof.
  induction d; (split; [|intros Hne]);
    cbn [NilEmpty.string_of_uint Pos.of_uint];
    try reflexivity; try congruence;
    rewrite js_cons; cbn [parseDigits];
    match goal with
    | |- context [digitValue 10 ?c] =>
        let v := eval vm_compute in (digitValue 10 c) in
        change (digitValue 10 c) with v
    end; cbv iota beta;
    try (apply IHd);
    try (cbn [Z.of_N]; 
         match goal with
         | |- parseDigits 10 (Some ?z) _ = Some (Zpos (Pos.of_uint_acc _ ?p)) =>
             change z with (Zpos p)
         end; apply parseDigits_acc).
Qed.

Lemma parseDigits_pos (p : positive) :
  parseDigits 10 None (js (NilEmpty.string_of_uint (Pos.to_uint p)))
  = Some (Zpos p).
Proof.
  destruct (parseDigits_uint (Pos.to_uint p)) as [_ H].
  rewrite H by apply Unsigned.to_uint_nonnil.
  now rewrite Unsigned.of_to.
Qed.

(** A text made of decimal digits only is read in base ten. *)
Lemma parseInt_digits (s : jsstring) :
  s <> [] -> forallb isDigit s = true ->
  parseInt s = parseDigits 10 None s
  /\ parseInt (45%N :: s)
     = match parseDigits 10 None s with Some v => Some (- v) | None => None end.
Proof.
  intros Hs Hd. destruct s as [|c s]; [congruence|].
  cbn [forallb] in Hd. apply andb_true_iff in Hd as [Hc Hd].
  assert (Hc' : (c = 48 \/ c = 49 \/ c = 50 \/ c = 51 \/ c = 52 \/ c = 53
                 \/ c = 54 \/ c = 55 \/ c = 56 \/ c = 57)%N).
  { unfold isDigit in Hc. apply andb_true_iff in Hc as [H1 H2].
    apply N.leb_le in H1, H2. lia. }
  assert (Hx : match s with
               | d :: _ => d <> 120%N /\ d <> 88%N
               | [] => True
               end).
  { destruct s as [|d s]; [exact I|]. cbn [forallb] in Hd.
    apply andb_true_iff in Hd as [Hd0 _]. unfold isDigit in Hd0.
    apply andb_true_iff in Hd0 as [H1 H2]. apply N.leb_le in H1, H2. lia. }
  unfold parseInt.
  assert (Hw : isWhite c = false).
  { destruct Hc' as [->|[->|[->|[->|[->|[->|[->|[->|[->| ->]]]]]]]]];
      reflexivity. }
  split.
  - cbn [dropWhile]. rewrite Hw.
    destruct Hc' as [->|[->|[->|[->|[->|[->|[->|[->|[->| ->]]]]]]]]];
      try (destruct (parseDigits _ _ _); reflexivity).
    destruct s as [|d s]; [reflexivity|]. destruct Hx as [H120 H88].
    destruct d as [|p]; [reflexivity|].
    do 8 (try reflexivity; try congruence; try destruct p as [p|p|]);
      try reflexivity; try congruence;
      destruct (parseDigits _ _ _); reflexivity.
  - change (dropWhile isWhite (45%N :: c :: s)) with (45%N :: c :: s).
    destruct Hc' as [->|[->|[->|[->|[->|[->|[->|[->|[->| ->]]]]]]]]];
      try (destruct (parseDigits _ _ _); reflexivity).
    destruct s as [|d s]; [reflexivity|]. destruct Hx as [H120 H88].
    destruct d as [|p]; [reflexivity|].
    do 8 (try reflexivity; try congruence; try destruct p as [p|p|]);
      try reflexivity; try congruence;
      destruct (parseDigits _ _ _); reflexivity.
Qed.

Lemma forallb_digits_uint (d : Decimal.uint) :
  forallb isDigit (js (NilEmpty.string_of_uint d)) = true.
Proof. induction d; cbn [NilEmpty.string_of_uint]; try reflexivity;
  rewrite js_cons; cbn [forallb]; rewrite IHd; reflexivity. Qed.

Lemma js_uint_nonnil (d : Decimal.uint) :
  d <> Decimal.Nil -> js (NilEmpty.string_of_uint d) <> [].
Proof. destruct d; intros H; try congruence; cbn [NilEmpty.string_of_uint];
  rewrite js_cons; discriminate. Qed.

(** What [Number.prototype.toString] writes, [parseInt] reads back. *)
Lemma parseInt_intToString (z : Z) : parseInt (intToString z) = Some z.
Proof.
  unfold intToString. destruct z as [|p|p]; [reflexivity|..];
    cbn [Z.to_int NilZero.string_of_int NilZero.string_of_uint].
  - pose proof (Unsigned.to_uint_nonnil p) as Hn.
    replace (NilZero.string_of_uint (Pos.to_uint p))
      with (NilEmpty.string_of_uint (Pos.to_uint p))
      by (destruct (Pos.to_uint p); congruence || reflexivity).
    destruct (parseInt_digits (js (NilEmpty.string_of_uint (Pos.to_uint p))))
      as [H _]; [now apply js_uint_nonnil | apply forallb_digits_uint|].
    rewrite H. apply parseDigits_pos.
  - pose proof (Unsigned.to_uint_nonnil p) as Hn.
    replace (NilZero.string_of_uint (Pos.to_uint p))
      with (NilEmpty.string_of_uint (Pos.to_uint p))
      by (destruct (Pos.to_uint p); congruence || reflexivity).
    rewrite js_cons.
    destruct (parseInt_digits (js (NilEmpty.string_of_uint (Pos.to_uint p))))
      as [_ H]; [now apply js_uint_nonnil | apply forallb_digits_uint|].
    change (N_of_ascii "-") with 45%N. rewrite H, parseDigits_pos. reflexivity.
Qed.

(** ** Counters written and read back *)

Lemma numToString_nonnil (n : option Z) : numToString n <> [].
Proof.
  destruct n as [z|]; [|discriminate]. unfold numToString, intToString.
  destruct z as [|p|p]; cbn [Z.to_int NilZero.string_of_int];
    try discriminate.
  unfold NilZero.string_of_uint.
  pose proof (Unsigned.to_uint_nonnil p) as Hn.
  destruct (Pos.to_uint p); try congruence; discriminate.
Qed.

Lemma parseInt_numToString (n : option Z) : parseInt (numToString n) = n.
Proof. destruct n as [z|]; [apply parseInt_intToString | reflexivity]. Qed.

Lemma rate_prefixes_differ (x y : jsstring) :
  js "rate_hour_" ++ x <> js "rate_day_" ++ y.
Proof. intros H. vm_compute in H. discriminate H. Qed.

Section CounterFacts.

Variable h : Host.

Lemma hourKey_not_dayKey (a b : Z) : hourKey h a <> dayKey h b.
Proof. unfold hourKey, dayKey. apply rate_prefixes_differ. Qed.

Lemma incrementRateLimit_unfold (now : Z) (cache : Cache) :
  snd (incrementRateLimit h now cache)
  = <[dayKey h now :=
        (numToString (numSucc (fst (readCount now (dayKey h now) cache))),
         now + 6 * 60 * 60 * 1000)]>
      (<[hourKey h now :=
           (numToString (numSucc (fst (readCount now (hourKey h now) cache))),
            now + 60 * 60 * 1000)]> cache).
Proof. reflexivity. Qed.

Lemma readCount_expired (t : Z) (key v : jsstring) (expiry : Z)
    (cache : Cache) :
  cache !! key = Some (v, expiry) -> expiry <= t ->
  fst (readCount t key cache) = Some 0.
Proof.
  intros Hget Hdead. unfold readCount, cbind, cacheGet, ret. cbn [fst].
  rewrite Hget. apply Z.ltb_ge in Hdead. rewrite Hdead. reflexivity.
Qed.

Lemma hour_after_increment (now t : Z) (cache : Cache) :
  t < now + 3600000 ->
  fst (readCount t (hourKey h now) (snd (incrementRateLimit h now cache)))
  = numSucc (fst (readCount now (hourKey h now) cache)).
Proof.
  intros Hlive. rewrite incrementRateLimit_unfold.
  erewrite readCount_live.
  - apply parseInt_numToString.
  - rewrite lookup_insert_ne by (intros E; symmetry in E;
                                 exact (hourKey_not_dayKey _ _ E)).
    apply lookup_insert_eq.
  - lia.
  - apply numToString_nonnil.
Qed.

Lemma day_after_increment (now t : Z) (cache : Cache) :
  t < now + 21600000 ->
  fst (readCount t (dayKey h now) (snd (incrementRateLimit h now cache)))
  = numSucc (fst (readCount now (dayKey h now) cache)).
Proof.
  intros Hlive. rewrite incrementRateLimit_unfold.
  erewrite readCount_live.
  - apply parseInt_numToString.
  - apply lookup_insert_eq.
  - lia.
  - apply numToString_nonnil.
Qed.

Lemma checkRateLimit_counts (t : Z) (cache : Cache) :
  hourCount (fst (checkRateLimit h t cache))
  = fst (readCount t (hourKey h t) cache)
  /\ dayCount (fst (checkRateLimit h t cache))
     = fst (readCount t (dayKey h t) cache)
  /\ isAllowed (fst (checkRateLimit h t cache))
     = negb (numGe (fst (readCount t (hourKey h t) cache))
               (Some MAX_MESSAGES_PER_HOUR))
       && negb (numGe (fst (readCount t (dayKey h t) cache))
                  (Some MAX_MESSAGES_PER_DAY)).
Proof.
  rewrite checkRateLimit_unfold. cbn [fst].
  destruct (numGe _ (Some MAX_MESSAGES_PER_HOUR));
    [repeat split|]. destruct (numGe _ (Some MAX_MESSAGES_PER_DAY));
    repeat split.
Qed.

(** X1: a send recorded by [incrementRateLimit] is counted by the next
    check: within the hour that follows, and as long as the hour and
    the day bucket are still the current ones, [checkRateLimit] reports
    both counts one higher than the check made before the increment.
    This is said of counts the script's numbers hold exactly (below
    2^53 in magnitude); beyond, a double no longer grows by one. *)
Theorem increment_then_check (now t : Z) (cache : Cache) :
  exactCount (hourCount (fst (checkRateLimit h now cache))) ->
  exactCount (dayCount (fst (checkRateLimit h now cache))) ->
  t < now + 3600000 ->
  hourKey h t = hourKey h now ->
  dayKey h t = dayKey h now ->
  hourCount (fst (checkRateLimit h t (snd (incrementRateLimit h now cache))))
  = numSucc (hourCount (fst (checkRateLimit h now cache)))
  /\ dayCount (fst (checkRateLimit h t (snd (incrementRateLimit h now cache))))
     = numSucc (dayCount (fst (checkRateLimit h now cache))).
Proof.
  intros _ _ Ht Hhk Hdk.
  destruct (checkRateLimit_counts t (snd (incrementRateLimit h now cache)))
    as (-> & -> & _).
  destruct (checkRateLimit_counts now cache) as (-> & -> & _).
  rewrite Hhk, Hdk. split.
  - apply hour_after_increment. lia.
  - apply day_after_increment. lia.
Qed.

(** X2: the day counter is kept for six hours only: a check made six
    hours or more after the last recorded send reads the day count as
    zero, although the day bucket is still the same. *)
Theorem day_counter_forgotten_after_six_hours (now t : Z) (cache : Cache) :
  now + 21600000 <= t ->
  dayKey h t = dayKey h now ->
  dayCount (fst (checkRateLimit h t (snd (incrementRateLimit h now cache))))
  = Some 0.
Proof.
  intros Ht Hdk.
  destruct (checkRateLimit_counts t (snd (incrementRateLimit h now cache)))
    as (_ & -> & _).
  rewrite Hdk, incrementRateLimit_unfold.
  eapply readCount_expired; [apply lookup_insert_eq | lia].
Qed.

End CounterFacts.

(** ** A whole run *)


Lemma sendRecords_app (a b : list Effect) :
  sendRecords (a ++ b) = (sendRecords a + sendRecords b)%nat.
Proof. unfold sendRecords. now rewrite filter_app, length_app. Qed.

Section RunFacts.

Variable h : Host.
Variable sanitize : jsstring -> jsstring.

(** The two ways a row can end: without a send, the cache untouched, or
    with one confirmed send, allowed by the limiter and counted. *)
Lemma processRow_shape (now : Z) (clk : RowClock) (resp : Response)
    (data : list Row) (i : nat) (row : Row) (cache : Cache) :
  let s := processRow h sanitize now clk resp data i row cache in
  Forall (lastSentWrite now i) (effects s)
  /\ ((cacheAfter s = cache /\ sendRecords (effects s) = 0%nat)
      \/ (isAllowed (fst (checkRateLimit h (atRateCheck clk) cache)) = true
          /\ cacheAfter s
             = snd (incrementRateLimit h (atIncrement clk) cache)
          /\ sendRecords (effects s) = 1%nat)).
Proof.
  assert (Htag : forall tag rest,
             In tag [js "ERROR: "; js "BLOCKED: "; js "RATE_LIMITED: "] ->
             lastSentWrite now i (SetValue (i + 1) lastSentColumn
                                    (VStr (tag ++ rest)))).
  { intros tag rest Hin. repeat split. right. eauto. }
  cbv zeta. unfold processRow.
  destruct (negb (truthy (cell row COL_DATETIME)));
    [split; [constructor | now left]|].
  destruct (negb (truthy (cell row COL_MESSAGE)) || _);
    [split; [constructor | now left]|].
  destruct (sentThisMinute _ _ _); [split; [constructor | now left]|].
  destruct (asString _ _); [|split; [constructor | now left]].
  destruct (negb (shouldSend _ _ _ _ _)); [split; [constructor | now left]|].
  destruct (detectDuplicateContent _ _ _ _ _);
    [|split; [constructor | now left]].
  destruct (isDuplicate _); [split; [writes | now left]|].
  destruct (negb (isValid _)); [split; [writes | now left]|].
  rewrite (checkRateLimit_unfold h (atRateCheck clk) cache). cbv zeta.
  destruct (negb (isAllowed _)) eqn:Hallowed; [split; [writes | now left]|].
  apply negb_false_iff in Hallowed.
  cbn [cacheAfter effects]. unfold sendRow.
  destruct resp; cbn [cacheAfter effects app];
    [|split; [writes | now left]..].
  split.
  - destruct (0 <? length _)%nat; writes.
  - right. split; [exact Hallowed|]. split; [reflexivity|].
    unfold sendRecords. cbn [filter isSendRecord].
    destruct (0 <? length _)%nat; reflexivity.
Qed.
End RunFacts.

Section Budget.

Variable h : Host.
Variable sanitize : jsstring -> jsstring.
Variable clock : nat -> RowClock.
Variable transport : nat -> Response.
Variable data : list Row.



(** Every write of a run goes to the Last Sent column of a data row. *)
Lemma writes_of_rows (now : Z) :
  forall (rows : list Row) (i : nat) (cache : Cache) (r c : nat) (v : Value),
    In (SetValue r c v)
      (effects (processRows h sanitize now clock transport data i rows cache)) ->
    c = 5%nat /\ (i < r <= i + length rows)%nat
    /\ (v = VDate (Some now)
        \/ exists tag rest,
             v = VStr (tag ++ rest)
             /\ In tag [js "ERROR: "; js "BLOCKED: "; js "RATE_LIMITED: "]).
Proof.
  induction rows as [|row rest IH]; intros i cache r c v Hin; [destruct Hin|].
  cbn [processRows] in Hin.
  destruct (processRow_shape h sanitize now (clock i) (transport i) data i row
              cache) as [Hwrites _].
  rewrite List.Forall_forall in Hwrites.
  assert (Hhere : In (SetValue r c v)
                    (effects (processRow h sanitize now (clock i) (transport i)
                                data i row cache)) ->
                  c = 5%nat /\ (i < r <= i + length (row :: rest))%nat
                  /\ (v = VDate (Some now)
                      \/ exists tag rest,
                           v = VStr (tag ++ rest)
                           /\ In tag [js "ERROR: "; js "BLOCKED: ";
                                      js "RATE_LIMITED: "])).
  { intros H. apply Hwrites in H. cbn [lastSentWrite] in H.
    destruct H as (-> & -> & Hv). cbn [length]. repeat split; try lia.
    exact Hv. }
  destruct (completion _); [|now apply Hhere].
  cbn [effects] in Hin. apply in_app_or in Hin as [Hin|Hin];
    [now apply Hhere|].
  apply IH in Hin as (Hc & Hr & Hv). cbn [length]. repeat split; try lia.
  exact Hv.
Qed.

(** X7: the only cells a run writes are Last Sent cells of data rows:
    every write goes to column E of a sheet row between 2 and the
    number of rows read, never to the header, and puts there either the
    evaluation instant or a text starting with "ERROR: ", "BLOCKED: " or
    "RATE_LIMITED: ". *)
Theorem run_writes_last_sent_only (started : Z) (cache : Cache)
    (r c : nat) (v : Value) :
  In (SetValue r c v)
    (effects (sendScheduledMessages h sanitize started clock transport data
                cache)) ->
  c = 5%nat /\ (2 <= r <= length data)%nat
  /\ (v = VDate (setSeconds00 h (Some started))
      \/ exists tag rest,
           v = VStr (tag ++ rest)
           /\ In tag [js "ERROR: "; js "BLOCKED: "; js "RATE_LIMITED: "]).
Proof.
  unfold sendScheduledMessages. cbn [setSeconds00]. intros Hin.
  apply writes_of_rows in Hin as (Hc & Hr & Hv).
  split; [exact Hc|]. split.
  - rewrite length_skipn in Hr. lia.
  - destruct Hv as [->|Hv]; [left; reflexivity | right; exact Hv].
Qed.

End Budget.

(** ** Resetting the counters *)

Lemma deleteLegacy_lookup (key : jsstring) (keys : list jsstring) :
  forall props : Props,
    deleteLegacy props keys !! key
    = if isLegacyRateKey key && bool_decide (key ∈ keys) then None
      else props !! key.
Proof.
  induction keys as [|k keys IH]; intros props.
  - cbn. now rewrite andb_false_r.
  - cbn [deleteLegacy foldl]. fold (deleteLegacy
      (if isLegacyRateKey k then delete k props else props) keys).
    rewrite IH.
    destruct (decide (key = k)) as [->|Hne].
    + rewrite (bool_decide_eq_true_2 (k ∈ k :: keys)) by apply list_elem_of_here.
      destruct (isLegacyRateKey k); cbn [andb]; [|reflexivity].
      destruct (bool_decide (k ∈ keys)); [reflexivity|].
      apply lookup_delete_eq.
    + assert (Hmem : bool_decide (key ∈ k :: keys) = bool_decide (key ∈ keys)).
      { apply bool_decide_ext. rewrite elem_of_cons. tauto. }
      rewrite Hmem.
      destruct (isLegacyRateKey key && bool_decide (key ∈ keys));
        [reflexivity|].
      destruct (isLegacyRateKey k); [|reflexivity].
      now rewrite lookup_delete_ne.
Qed.

Section ResetFacts.

Variable h : Host.

(** X4: after [resetRateLimit] both counters of the current buckets read
    zero and the next check of those buckets allows a send, whatever
    the cache held; the legacy counter keys are gone from the script
    properties and every other property is kept. *)
Theorem reset_clears_counters (now t : Z) (cache : Cache) (props : Props) :
  hourKey h t = hourKey h now ->
  dayKey h t = dayKey h now ->
  let after := resetRateLimit h now props cache in
  let r := fst (checkRateLimit h t (snd after)) in
  hourCount r = Some 0 /\ dayCount r = Some 0 /\ isAllowed r = true
  /\ forall key : jsstring,
       snd (fst after) !! key
       = if isLegacyRateKey key then None else props !! key.
Proof.
  intros Hhk Hdk after r. subst r after.
  unfold resetRateLimit, cbind, cacheRemove, ret. cbn [fst snd].
  destruct (checkRateLimit_counts h t
              (delete (dayKey h now) (delete (hourKey h now) cache)))
    as (Hh & Hd & Ha).
  assert (Hhour : fst (readCount t (hourKey h t)
                         (delete (dayKey h now) (delete (hourKey h now) cache)))
                  = Some 0).
  { apply readCount_missing. rewrite Hhk.
    rewrite lookup_delete_ne by (intros E; symmetry in E;
                                 exact (hourKey_not_dayKey h _ _ E)).
    apply lookup_delete_eq. }
  assert (Hday : fst (readCount t (dayKey h t)
                        (delete (dayKey h now) (delete (hourKey h now) cache)))
                 = Some 0).
  { apply readCount_missing. rewrite Hdk. apply lookup_delete_eq. }
  rewrite Hh, Hd, Ha, Hhour, Hday.
  split; [reflexivity|]. split; [reflexivity|]. split; [reflexivity|].
  intros key. rewrite deleteLegacy_lookup.
  destruct (isLegacyRateKey key); cbn [andb]; [|reflexivity].
  destruct (bool_decide_reflect (key ∈ map fst (map_to_list props)))
    as [Hin|Hout]; [reflexivity|].
  destruct (props !! key) as [v|] eqn:Hv; [|reflexivity].
  exfalso. apply Hout.
  apply list_elem_of_In, in_map_iff. exists (key, v). split; [reflexivity|].
  now apply list_elem_of_In, elem_of_map_to_list.
Qed.

(** X8: what the scheduler writes for a failed send is read by the next
    run as "never sent": the text starts with "ERROR:", and
    [parseLastSent] answers [null] on it. *)
Theorem failed_send_reads_as_unsent (sanitize : jsstring -> jsstring)
    (now : Z) (clk : RowClock) (resp : Response) (i : nat) (msg : Value)
    (v : Verdict) (cache : Cache) (r c : nat) (written : Value) :
  resp <> RespOk ->
  In (SetValue r c written)
    (effects (sendRow h sanitize now clk resp i msg v cache)) ->
  parseLastSent h written = None
  /\ cacheAfter (sendRow h sanitize now clk resp i msg v cache) = cache.
Proof.
  intros Hfail Hin. unfold sendRow in *.
  destruct resp as [|description|message]; [congruence|..];
    cbn [effects cacheAfter] in *;
    (split; [|reflexivity]);
    destruct Hin as [[=]|[[= _ _ <-]|[[=]|[]]]];
    reflexivity.
Qed.

End ResetFacts.


(** ** The recurrence rules *)

Section RuleFacts.

Variable h : Host.

Lemma shouldSend_recognised (now : Z) (start : option Z) (repeat : jsstring)
    (lastSent : option (option Z)) :
  shouldSend h now start repeat lastSent = true -> In repeat recurrenceTexts.
Proof.
  unfold shouldSend, isOneTime, recurrenceTexts. intros H.
  repeat match type of H with
         | context [streq repeat ?x] =>
             let E := fresh "E" in
             destruct (streq repeat x) eqn:E;
             [apply streq_eq in E; rewrite E; cbn [In];
              repeat (first [left; reflexivity | right]) |]
         end.
  cbn [andb orb] in H. discriminate H.
Qed.

(** X11: a recurrence text that is none of the texts the rules know
    (after lower-casing and trimming) disables the row without a trace:
    the row is skipped on every run, nothing is written to the sheet,
    nobody is notified, the cache is untouched and no exception
    arises. *)
Theorem unrecognised_recurrence_is_silent (sanitize : jsstring -> jsstring)
    (now : Z) (clk : RowClock) (resp : Response) (data : list Row) (i : nat)
    (row : Row) (cache : Cache) (s : jsstring) :
  cell row COL_REPEAT = VStr s ->
  ~ In (trim (toLowerCase h s)) recurrenceTexts ->
  processRow h sanitize now clk resp data i row cache = skip cache.
Proof.
  intros Hcell Hunknown. unfold processRow. rewrite Hcell.
  destruct (negb (truthy (cell row COL_DATETIME))); [reflexivity|].
  destruct (negb (truthy (cell row COL_MESSAGE)) || _); [reflexivity|].
  destruct (sentThisMinute _ _ _); [reflexivity|].
  assert (Hraw : (if truthy (VStr s) then VStr s else VStr []) = VStr s)
    by (destruct s; reflexivity).
  rewrite Hraw. cbn [asString].
  destruct (shouldSend h now _ (trim (toLowerCase h s)) _) eqn:Hdue;
    [|reflexivity].
  apply shouldSend_recognised in Hdue. contradiction.
Qed.

(** The conditions under which [processRow] hands a message to the
    transport. *)
Lemma processRow_fetch (sanitize : jsstring -> jsstring) (now : Z)
    (clk : RowClock) (resp : Response) (data : list Row) (i : nat)
    (row : Row) (cache : Cache) (text : Value) :
  In (FetchSendMessage text)
    (effects (processRow h sanitize now clk resp data i row cache)) ->
  truthy (cell row COL_MESSAGE) = true
  /\ (exists repeatText,
        asString (js "repeatRaw.toLowerCase") (rowRepeatRaw row) = Ok repeatText
        /\ shouldSend h now
             (setSeconds00 h (newDate h (cell row COL_DATETIME)))
             (trim (toLowerCase h repeatText))
             (parseLastSent h (cell row COL_LAST_SENT)) = true)
  /\ (exists d,
        detectDuplicateContent h (atDuplicateCheck clk) (cell row COL_MESSAGE)
          data (Z.of_nat i) = Ok d
        /\ isDuplicate d = false)
  /\ isValid (validateMessage h (cell row COL_MESSAGE)) = true.
Proof.
  unfold processRow. fold (rowRepeatRaw row).
  destruct (negb (truthy (cell row COL_DATETIME))); [intros []|].
  destruct (truthy (cell row COL_MESSAGE)); cbn [negb orb]; [|intros []].
  destruct (negb (isEnabled h _)); [intros []|].
  destruct (sentThisMinute _ _ _); [intros []|].
  destruct (asString _ _) as [repeatText|e]; [|intros []].
  destruct (shouldSend _ _ _ _ _) eqn:Hdue; cbn [negb]; [|intros []].
  destruct (detectDuplicateContent _ _ _ _ _) as [d|e]; [|intros []].
  destruct (isDuplicate d) eqn:Hdup; [intros [[=]|[[=]|[]]]|].
  destruct (isValid _) eqn:Hvalid; cbn [negb];
    [|intros [[=]|[[=]|[[=]|[]]]]].
  intros _. split; [reflexivity|]. split; [eauto|]. split; [eauto|].
  reflexivity.
Qed.

(** X14: the debug analysis and the scheduler.  For a row the debug test
    picks, whose scheduled instant has no seconds, a verdict of the
    analysis that the row will not be sent is one the scheduler keeps:
    when the analysis answers that the schedule does not hold, the
    scheduler skips the row, and when it answers anything but "will
    send", the scheduler hands nothing to the transport.  (The analysis
    looks neither at the minute guard nor at duplicates or the rate
    limit, so the converse does not hold.) *)
Theorem debug_verdict_binds_scheduler (sanitize : jsstring -> jsstring)
    (now : Z) (clk : RowClock) (resp : Response) (data : list Row) (i : nat)
    (row : Row) (cache : Cache) (a : DebugAnalysis) :
  rowActive h row = true ->
  setSeconds00 h (newDate h (cell row COL_DATETIME))
  = newDate h (cell row COL_DATETIME) ->
  debugRow h now row = Ok a ->
  (debugShouldSend a = false ->
   processRow h sanitize now clk resp data i row cache = skip cache)
  /\ (willActuallySend a = false ->
      forall text,
        ~ In (FetchSendMessage text)
            (effects (processRow h sanitize now clk resp data i row cache))).
Proof.
  intros Hactive Hseconds Hdebug.
  unfold debugRow in Hdebug. fold (rowRepeatRaw row) in Hdebug.
  destruct (asString _ (rowRepeatRaw row)) as [repeatText|e] eqn:Hrep;
    [|discriminate Hdebug].
  cbn [bind] in Hdebug.
  assert (Hinj : forall x y : DebugAnalysis, Ok x = Ok y -> x = y)
    by (intros x y [=]; assumption).
  apply Hinj in Hdebug. subst a.
  cbn [debugShouldSend willActuallySend]. split.
  - intros Hdue. unfold processRow. fold (rowRepeatRaw row).
    rewrite Hrep, Hseconds, Hdue.
    destruct (negb (truthy (cell row COL_DATETIME))); [reflexivity|].
    destruct (negb (truthy (cell row COL_MESSAGE)) || _); [reflexivity|].
    destruct (sentThisMinute _ _ _); reflexivity.
  - intros Hwill text Hin.
    apply processRow_fetch in Hin
      as (_ & (repeatText' & Hrep' & Hdue) & _ & Hvalid).
    rewrite Hrep in Hrep'. injection Hrep' as <-.
    rewrite Hseconds in Hdue. rewrite Hdue, Hvalid in Hwill.
    discriminate Hwill.
Qed.

End RuleFacts.

(** On a host with a fixed offset, clearing the seconds gives the start
    of the minute, whatever the offset. *)
Lemma setSeconds00_fixed (off t : Z) :
  setSeconds00 (fixedHost off) (Some t)
  = Some (msPerMinute * (t / msPerMinute)).
Proof.
  rewrite setSeconds00_floor. cbn [fixedHost localTime utcOfLocal]. f_equal.
  unfold msPerMinute. Z.to_euclidean_division_equations. lia.
Qed.

Lemma timeMatch_fixed (off a b : Z) :
  timeMatch (fixedHost off) (msPerMinute * a) (Some (msPerMinute * b)) = true
  <-> (a - b) mod 1440 = 0.
Proof.
  unfold timeMatch, getHours, getMinutes, localField.
  cbn [fixedHost localTime numEq].
  rewrite !Hour_of_minute. unfold MinFromTime.
  replace (msPerMinute * a + off * msPerMinute) with ((a + off) * msPerMinute)
    by lia.
  replace (msPerMinute * b + off * msPerMinute) with ((b + off) * msPerMinute)
    by lia.
  rewrite !Z.div_mul by (unfold msPerMinute; lia).
  rewrite andb_true_iff, !Z.eqb_eq.
  Z.to_euclidean_division_equations. lia.
Qed.

(** X12: on a host with a fixed offset from UTC, an "every N days" rule
    (N = 2, 3, 7, 14) holds exactly in the minutes that lie a whole
    number of N-day periods after the minute of the scheduled instant,
    never before it, and whatever the last-fire value. *)
Theorem every_n_days_on_multiples (off started anchor now start n : Z)
    (text : jsstring) (lastSent : option (option Z)) :
  In (text, n) intervalRules ->
  setSeconds00 (fixedHost off) (Some started) = Some now ->
  setSeconds00 (fixedHost off) (Some anchor) = Some start ->
  shouldSend (fixedHost off) now (Some start) text lastSent = true
  <-> exists k : Z,
        0 <= k
        /\ started / msPerMinute = anchor / msPerMinute + k * n * 1440.
Proof.
  intros Hrule Hnow Hstart.
  rewrite setSeconds00_fixed in Hnow, Hstart.
  injection Hnow as <-. injection Hstart as <-.
  set (a := started / msPerMinute). set (b := anchor / msPerMinute).
  assert (Hrules :
            shouldSend (fixedHost off) (msPerMinute * a)
              (Some (msPerMinute * b)) text lastSent
            = timeMatch (fixedHost off) (msPerMinute * a)
                (Some (msPerMinute * b))
              && everyNth n (diffDays (msPerMinute * a) (Some (msPerMinute * b)))
            /\ (n = 2 \/ n = 3 \/ n = 7 \/ n = 14)).
  { unfold intervalRules in Hrule. cbn [In] in Hrule.
    destruct Hrule as [[= <- <-]|[[= <- <-]|[[= <- <-]|[[= <- <-]|[]]]]];
      (split; [|lia]);
      unfold shouldSend, isOneTime; decide_streq;
      cbn [andb orb]; rewrite ?orb_false_r; reflexivity. }
  destruct Hrules as [-> Hn].
  rewrite andb_true_iff, timeMatch_fixed.
  unfold everyNth, diffDays.
  replace ((msPerMinute * a - msPerMinute * b) / msPerDay)
    with ((a - b) / 1440).
  2:{ unfold msPerMinute, msPerDay.
      replace (60000 * a - 60000 * b) with ((a - b) * 60000) by lia.
      change 86400000 with (1440 * 60000).
      rewrite Z.div_mul_cancel_r by lia. reflexivity. }
  rewrite andb_true_iff, Z.leb_le, Z.eqb_eq.
  split.
  - intros (Htime & Hpos & Hrem).
    rewrite Z.rem_mod_nonneg in Hrem by lia.
    exists ((a - b) / 1440 / n). revert Htime Hpos Hrem.
    destruct Hn as [->|[->|[->| ->]]];
      Z.to_euclidean_division_equations; lia.
  - intros (k & Hk & Heq).
    assert (Hdiff : a - b = k * n * 1440) by lia.
    rewrite Hdiff, Z.mod_mul, Z.div_mul by lia.
    split; [reflexivity|]. split; [nia|].
    rewrite Z.rem_mod_nonneg by nia. apply Z.mod_mul. lia.
Qed.

(** ** What stops a run, and what a run leaves behind *)

Section RunEdges.

Variable h : Host.
Variable sanitize : jsstring -> jsstring.

(** X9: a Repeat cell that holds something other than text (a number, a
    date, a ticked box) ends the whole run.  When such a row is reached,
    has a date and a message, is enabled and was not sent this minute,
    the exception of [repeatRaw.toLowerCase] leaves the loop: the row
    and every row after it are left alone, whatever they hold, and
    nothing is written for them. *)
Theorem non_text_repeat_stops_the_run (now : Z) (clock : nat -> RowClock)
    (transport : nat -> Response) (data : list Row) (i : nat) (row : Row)
    (rest : list Row) (cache : Cache) :
  rowActive h row = true ->
  truthy (cell row COL_REPEAT) = true ->
  isString (cell row COL_REPEAT) = false ->
  sentThisMinute h now (parseLastSent h (cell row COL_LAST_SENT)) = false ->
  processRows h sanitize now clock transport data i (row :: rest) cache
  = abort cache (js "TypeError: repeatRaw.toLowerCase is not a function").
Proof.
  intros Hactive Htruthy Htext Hguard.
  unfold rowActive in Hactive.
  apply andb_true_iff in Hactive as [Hactive Henabled].
  apply andb_true_iff in Hactive as [Hdate Hmsg].
  assert (Hrow : processRow h sanitize now (clock i) (transport i) data i row
                   cache
                 = abort cache
                     (js "TypeError: repeatRaw.toLowerCase is not a function")).
  { unfold processRow.
    rewrite Hdate, Hmsg, Henabled, Hguard, Htruthy. cbn [negb orb].
    destruct (cell row COL_REPEAT); try reflexivity. discriminate Htext. }
  cbn [processRows]. rewrite Hrow. reflexivity.
Qed.

(** No answer "not a duplicate" is given while a compared row holds a
    message that is no text. *)
Lemma dupScan_needs_text (nm : jsstring) (cutoff k : Z) (rows : list Row) :
  forall (i : nat) (r : DupResult),
    dupScan h nm cutoff k i rows = Ok r -> isDuplicate r = false ->
    forall (j : nat) (row : Row),
      rows !! j = Some row -> Z.of_nat (i + j) <> k + 1 ->
      truthy (cell row COL_MESSAGE) = true ->
      isString (cell row COL_MESSAGE) = true.
Proof.
  induction rows as [|row0 rest IH]; intros i r Hscan Hdup j row Hj Hne Hmsg;
    [discriminate Hj|].
  cbn [dupScan] in Hscan.
  destruct j as [|j].
  - injection Hj as ->. rewrite Nat.add_0_r in Hne.
    apply Z.eqb_neq in Hne. rewrite Hne, Hmsg in Hscan. cbn [negb] in Hscan.
    destruct (cell row COL_MESSAGE); try discriminate Hscan. reflexivity.
  - assert (Hnext : dupScan h nm cutoff k (S i) rest = Ok r ->
                    isString (cell row COL_MESSAGE) = true).
    { intros Hrest. apply (IH (S i) r Hrest Hdup j row Hj); [|exact Hmsg].
      replace (S i + j)%nat with (i + S j)%nat by lia. exact Hne. }
    destruct (Z.of_nat i =? k + 1); [now apply Hnext|].
    destruct (negb (truthy (cell row0 COL_MESSAGE))); [now apply Hnext|].
    destruct (asString _ (cell row0 COL_MESSAGE)) as [other|e];
      cbn [bind] in Hscan; [|discriminate Hscan].
    destruct (streq nm (normalizeText h other) && _); [|now apply Hnext].
    destruct (newDate h (cell row0 COL_LAST_SENT)); [|now apply Hnext].
    destruct (valueToString h (cell row0 COL_LAST_SENT)); [|now apply Hnext].
    destruct ((cutoff <=? _) && _ && _); [|now apply Hnext].
    injection Hscan as <-. discriminate Hdup.
Qed.

(** X10: the scheduler sends a row only when the rows the duplicate
    detector compares it with hold texts.  If the step of the row at
    index [i] hands a message to the transport, then every data row
    other than the one at index [i + 1], which the detector leaves out,
    holds a text or nothing in its Message cell.  So a Message cell
    holding a number or a date stops the sending of every row but the
    one right before it: for those rows the detector throws when they
    are due. *)
Theorem send_needs_text_messages (now : Z) (clk : RowClock) (resp : Response)
    (data : list Row) (i : nat) (row : Row) (cache : Cache) (text : Value)
    (j : nat) (other : Row) :
  In (FetchSendMessage text)
    (effects (processRow h sanitize now clk resp data i row cache)) ->
  data !! j = Some other -> (1 <= j)%nat -> j <> (i + 1)%nat ->
  truthy (cell other COL_MESSAGE) = true ->
  isString (cell other COL_MESSAGE) = true.
Proof.
  intros Hin Hj Hpos Hne Hmsg.
  apply processRow_fetch in Hin as (Htruthy & _ & (d & Hdet & Hdup) & _).
  unfold detectDuplicateContent in Hdet. rewrite Htruthy in Hdet.
  replace (Z.of_nat i <? 0) with false in Hdet
    by (symmetry; apply Z.ltb_ge; lia).
  cbn [negb orb] in Hdet.
  destruct (asString _ (cell row COL_MESSAGE)) as [s|e];
    cbn [bind] in Hdet; [|discriminate Hdet].
  destruct j as [|j]; [lia|].
  apply (dupScan_needs_text _ _ _ _ _ _ Hdet Hdup j other); try assumption.
  - destruct data; [discriminate Hj | exact Hj].
  - lia.
Qed.

Lemma unspent_rows (now : Z) (clock : nat -> RowClock)
    (transport : nat -> Response) (data : list Row) (rows : list Row) :
  forall (i : nat) (cache : Cache),
    sendRecords
      (effects (processRows h sanitize now clock transport data i rows cache))
    = 0%nat ->
    cacheAfter (processRows h sanitize now clock transport data i rows cache)
    = cache.
Proof.
  induction rows as [|row rest IH]; intros i cache Hnone; [reflexivity|].
  cbn [processRows] in *.
  destruct (processRow_shape h sanitize now (clock i) (transport i) data i row
              cache) as [_ [[Hsame _]|(_ & _ & Hone)]].
  - destruct (completion _); [|exact Hsame].
    cbn [effects cacheAfter] in *. rewrite sendRecords_app in Hnone.
    rewrite Hsame in *. apply IH. lia.
  - destruct (completion _).
    + cbn [effects] in Hnone. rewrite sendRecords_app, Hone in Hnone. lia.
    + rewrite Hone in Hnone. lia.
Qed.

(** X6: only a confirmed send spends the budget of the rate limiter.  A
    run that records no send leaves the cache, and so both counters, as
    it found them, however many rows were blocked, refused by the
    limiter or failed at the transport. *)
Theorem budget_spent_only_by_sends (started : Z) (clock : nat -> RowClock)
    (transport : nat -> Response) (data : list Row) (cache : Cache) :
  sendRecords
    (effects (sendScheduledMessages h sanitize started clock transport data
                cache)) = 0%nat ->
  cacheAfter (sendScheduledMessages h sanitize started clock transport data
                cache) = cache.
Proof. unfold sendScheduledMessages. cbn [setSeconds00]. apply unspent_rows. Qed.

End RunEdges.


(** ** The meaning of a duplicate verdict *)

Section DetectorFacts.

Variable h : Host.

Lemma dupScan_sound (nm : jsstring) (cutoff k : Z) (rows : list Row) :
  forall (i : nat) (r : DupResult),
    dupScan h nm cutoff k i rows = Ok r -> isDuplicate r = true ->
    exists (j : nat) (row : Row) (t : Z),
      rows !! j = Some row /\ Z.of_nat (i + j) <> k + 1
      /\ sameContentSentSince h nm cutoff row t
      /\ dupReason r
         = js "Duplicate message detected: Same content was sent at "
           ++ toISOString t.
Proof.
  induction rows as [|row rest IH]; intros i r Hscan Hdup.
  { injection Hscan as <-. discriminate Hdup. }
  assert (Hnext : dupScan h nm cutoff k (S i) rest = Ok r ->
                  exists (j : nat) (row' : Row) (t : Z),
                    (row :: rest) !! j = Some row'
                    /\ Z.of_nat (i + j) <> k + 1
                    /\ sameContentSentSince h nm cutoff row' t
                    /\ dupReason r
                       = js "Duplicate message detected: Same content was sent at "
                         ++ toISOString t).
  { intros Hrest. destruct (IH (S i) r Hrest Hdup) as (j & row' & t & Hj & Hne & H).
    exists (S j), row', t. split; [exact Hj|]. split; [|exact H].
    replace (i + S j)%nat with (S i + j)%nat by lia. exact Hne. }
  cbn [dupScan] in Hscan.
  destruct (Z.of_nat i =? k + 1) eqn:Hself; [now apply Hnext|].
  apply Z.eqb_neq in Hself.
  destruct (truthy (cell row COL_MESSAGE)) eqn:Hmsg; cbn [negb] in Hscan;
    [|now apply Hnext].
  destruct (cell row COL_MESSAGE) as [| |b|n|other|d] eqn:Hcell;
    cbn [asString bind] in Hscan; try discriminate Hscan.
  destruct (streq nm (normalizeText h other)) eqn:Hsame; cbn [andb] in Hscan;
    [|now apply Hnext].
  destruct (truthy (cell row COL_LAST_SENT)) eqn:Hsent; [|now apply Hnext].
  destruct (newDate h (cell row COL_LAST_SENT)) as [t|] eqn:Hdate;
    [|now apply Hnext].
  destruct (valueToString h (cell row COL_LAST_SENT)) as [text|e] eqn:Htext;
    [|now apply Hnext].
  destruct (cutoff <=? t) eqn:Hrecent; cbn [andb] in Hscan; [|now apply Hnext].
  destruct (startsWith text (js "ERROR:")) eqn:Herr; cbn [negb andb] in Hscan;
    [now apply Hnext|].
  destruct (startsWith text (js "BLOCKED:")) eqn:Hblk; cbn [negb] in Hscan;
    [now apply Hnext|].
  injection Hscan as <-.
  exists 0%nat, row, t. split; [reflexivity|].
  split; [rewrite Nat.add_0_r; exact Hself|]. split; [|reflexivity].
  exists other, text. rewrite Hcell.
  apply streq_eq in Hsame. apply Z.leb_le in Hrecent.
  repeat split; try assumption.
  intros ->. discriminate Hmsg.
Qed.

Lemma dupScan_complete (nm : jsstring) (cutoff k : Z) (rows : list Row) :
  forall (i j : nat) (row : Row) (t : Z) (r : DupResult),
    rows !! j = Some row -> Z.of_nat (i + j) <> k + 1 ->
    sameContentSentSince h nm cutoff row t ->
    dupScan h nm cutoff k i rows = Ok r -> isDuplicate r = true.
Proof.
  induction rows as [|row0 rest IH]; intros i j row t r Hj Hne Hrow Hscan;
    [discriminate Hj|].
  destruct j as [|j].
  - injection Hj as ->. rewrite Nat.add_0_r in Hne.
    destruct Hrow as (other & text & Hcell & Hother & Hsame & Hsent & Hdate
                      & Htext & Hrecent & Herr & Hblk).
    cbn [dupScan] in Hscan.
    apply Z.eqb_neq in Hne. rewrite Hne, Hcell in Hscan.
    assert (Htruthy : truthy (VStr other) = true)
      by (destruct other; [congruence | reflexivity]).
    rewrite Htruthy in Hscan. cbn [negb asString bind] in Hscan.
    apply streq_eq in Hsame. apply Z.leb_le in Hrecent.
    rewrite Hsame, Hsent, Hdate, Htext, Hrecent, Herr, Hblk in Hscan.
    cbn [andb negb] in Hscan. injection Hscan as <-. reflexivity.
  - assert (Hnext : dupScan h nm cutoff k (S i) rest = Ok r ->
                    isDuplicate r = true).
    { apply (IH (S i) j row t r Hj); [|exact Hrow].
      replace (S i + j)%nat with (i + S j)%nat by lia. exact Hne. }
    cbn [dupScan] in Hscan.
    destruct (Z.of_nat i =? k + 1); [now apply Hnext|].
    destruct (negb (truthy (cell row0 COL_MESSAGE))); [now apply Hnext|].
    destruct (asString _ (cell row0 COL_MESSAGE)) as [other|e];
      cbn [bind] in Hscan; [|discriminate Hscan].
    destruct (streq nm (normalizeText h other) && _); [|now apply Hnext].
    destruct (newDate h (cell row0 COL_LAST_SENT)); [|now apply Hnext].
    destruct (valueToString h (cell row0 COL_LAST_SENT)); [|now apply Hnext].
    destruct ((cutoff <=? _) && _ && _); [|now apply Hnext].
    injection Hscan as <-. reflexivity.
Qed.

(** X15: what a duplicate verdict means.  When the detector answers, it
    reports a duplicate exactly when some data row other than the one at
    index [currentRowIndex + 1] holds a non-empty text with the same
    normalised wording and a Last Sent cell that is a valid date not
    older than twenty-four hours before the clock (a later date counts
    too) and does not read as an "ERROR:" or "BLOCKED:" text; the
    reason then names the Last Sent instant of such a row.  The header
    row is never compared.  The clock is a time value, and so is the
    instant a day before it. *)
Theorem duplicate_verdict_meaning (clock : Z) (s : jsstring)
    (sheetData : list Row) (currentRowIndex : Z) (r : DupResult) :
  s <> [] -> 0 <= currentRowIndex ->
  - 8640000000000000 <= clock - 86400000 -> clock <= 8640000000000000 ->
  detectDuplicateContent h clock (VStr s) sheetData currentRowIndex = Ok r ->
  let matching (j : nat) (row : Row) (t : Z) : Prop :=
    sheetData !! j = Some row /\ (1 <= j)%nat
    /\ Z.of_nat j <> currentRowIndex + 1
    /\ sameContentSentSince h (normalizeText h s) (clock - 86400000) row t in
  (isDuplicate r = true ->
   exists j row t,
     matching j row t
     /\ dupReason r
        = js "Duplicate message detected: Same content was sent at "
          ++ toISOString t)
  /\ ((exists j row t, matching j row t) -> isDuplicate r = true).
Proof.
  intros Hs Hk _ _ Hrun matching. subst matching.
  unfold detectDuplicateContent in Hrun.
  replace (truthy (VStr s)) with true in Hrun
    by (destruct s; [congruence | reflexivity]).
  replace (currentRowIndex <? 0) with false in Hrun
    by (symmetry; apply Z.ltb_ge; exact Hk).
  cbn [negb orb asString bind] in Hrun.
  change (24 * 60 * 60 * 1000) with 86400000 in Hrun.
  split.
  - intros Hdup.
    destruct (dupScan_sound _ _ _ _ _ _ Hrun Hdup)
      as (j & row & t & Hj & Hne & Hrow & Hreason).
    exists (S j), row, t. split; [|exact Hreason].
    split; [|split; [lia|split; [exact Hne | exact Hrow]]].
    destruct sheetData; [discriminate Hj | exact Hj].
  - intros (j & row & t & Hj & Hpos & Hne & Hrow).
    destruct j as [|j]; [lia|].
    apply (dupScan_complete (normalizeText h s) (clock - 86400000)
             currentRowIndex (skipn 1 sheetData) 1 j row t r);
      try assumption.
    destruct sheetData; [discriminate Hj | exact Hj].
Qed.

End DetectorFacts.

(** ** The capitals heuristic *)

Lemma replaceAll_removes (m : Matcher) (c : N) (s : jsstring) :
  forall skip : nat, In c (replaceAll m [] skip s) -> In c s.
Proof.
  induction s as [|d s IH]; intros skip Hin; [destruct Hin|].
  cbn [replaceAll] in Hin. destruct skip as [|k].
  - destruct (m (d :: s)) as [[|n]|].
    + destruct Hin as [->|Hin]; [now left | right; eauto].
    + right. eauto.
    + destruct Hin as [->|Hin]; [now left | right; eauto].
  - right. eauto.
Qed.

Lemma countIf_positive (p : N -> bool) (s : jsstring) :
  (0 < countIf p s)%nat -> exists c, In c s /\ p c = true.
Proof.
  unfold countIf. induction s as [|c s IH]; [cbn; lia|].
  rewrite (filter_cons (fun x => Is_true (p x)) c s).
  destruct (decide (p c)) as [Hp|Hp].
  - intros _. exists c. split; [now left|]. now apply Is_true_true.
  - intros Hpos. destruct (IH Hpos) as (x & Hx & Hpx).
    exists x. split; [now right | exact Hpx].
Qed.

(** X19: [hasExcessiveCaps] flags only a text that holds a capital letter
    A-Z; a text without one is never flagged, however short. *)
Theorem excessive_caps_needs_a_capital (s : jsstring) :
  hasExcessiveCaps (VStr s) = true ->
  exists c, In c s /\ isUpperAZ c = true.
Proof.
  destruct s as [|c0 s]; [discriminate|].
  unfold hasExcessiveCaps.
  set (clean := replaceAll (runAtLeast 1 isWhite) [] 0
                  (replaceAll matchHttp [] 0 (c0 :: s))).
  intros Hflag.
  assert (Hsome : (0 < countIf isUpperAZ clean)%nat).
  { destruct clean as [|c clean']; [discriminate Hflag|].
    apply Nat.leb_le in Hflag. cbn [length] in Hflag. lia. }
  apply countIf_positive in Hsome as (c & Hin & Hupper).
  exists c. split; [|exact Hupper].
  subst clean. apply replaceAll_removes in Hin.
  apply replaceAll_removes in Hin. exact Hin.
Qed.
(** ** Notifying the administrator *)

(** X21: [notifyAdmin] answers [true] exactly when the debug chat and the
    token are configured, the message is neither [null] nor [undefined]
    and the transport accepted the post; it hands a text to the
    transport exactly when the first three hold.  It raises only out of
    its own [catch]: when both are configured, the message is [null] or
    [undefined] or the transport threw, and [sanitizeErrorMessage]
    raises on the message of that exception; where
    [sanitizeErrorMessage] raises on no text, [notifyAdmin] answers
    [true] or [false]. *)
Theorem notifyAdmin_outcome (h : Host)
    (sanitizeErrorMessage : jsstring -> Result jsstring)
    (debugChatId token : Value)
    (timestamp : Z) (resp : Response) (rowNumber : nat) (message : Value)
    (blockReason : jsstring) (validationResult : option Verdict)
    (additionalInfo : jsstring) :
  let out := notifyAdmin h sanitizeErrorMessage debugChatId token timestamp
               resp rowNumber message blockReason validationResult
               additionalInfo in
  let ready :=
    truthy debugChatId = true /\ truthy token = true
    /\ message <> VNull /\ message <> VUndefined in
  (snd out = Ok true <-> ready /\ resp = RespOk)
  /\ (fst out <> None <-> ready)
  /\ (forall e : jsstring,
        snd out = Throw e ->
        truthy debugChatId = true /\ truthy token = true
        /\ exists caught : jsstring,
             sanitizeErrorMessage caught = Throw e
             /\ (resp = RespThrows caught \/ message = VNull
                 \/ message = VUndefined))
  /\ ((forall text e, sanitizeErrorMessage text <> Throw e) ->
      snd out = Ok true \/ snd out = Ok false).
Proof.
  cbv zeta. unfold notifyAdmin.
  assert (Htext :
            match message with
            | VNull | VUndefined =>
                exists e, adminNotification h timestamp rowNumber message
                            blockReason validationResult additionalInfo
                          = Throw e
            | _ =>
                exists n, adminNotification h timestamp rowNumber message
                            blockReason validationResult additionalInfo
                          = Ok n
            end).
  { unfold adminNotification.
    destruct message; cbn [template lengthText valueToString bind];
      eexists; reflexivity. }
  assert (Hcaught : forall x : jsstring,
             (let! _ := sanitizeErrorMessage x in Ok false) <> Ok true
             /\ (forall e, (let! _ := sanitizeErrorMessage x in Ok false)
                           = Throw e ->
                           sanitizeErrorMessage x = Throw e)
             /\ ((forall text e, sanitizeErrorMessage text <> Throw e) ->
                 (let! _ := sanitizeErrorMessage x in Ok false) = Ok false)).
  { intros x. destruct (sanitizeErrorMessage x) as [y|e] eqn:Hx; cbn [bind].
    - split; [discriminate|]. split; [discriminate | reflexivity].
    - split; [discriminate|]. split; [intros e0 [= ->]; reflexivity|].
      intros Hnever. destruct (Hnever x e Hx). }
  destruct (truthy debugChatId), (truthy token); cbn [negb orb fst snd].
  2-4: clear Htext Hcaught;
    (split; [split; [discriminate | intros [(? & ? & _) _]; congruence]|]);
    (split; [split; [congruence | intros (? & ? & _); congruence]|]);
    (split; [discriminate | intros _; now right]).
  destruct message as [| |b|n|s|d]; destruct Htext as [x ->];
    cbn [fst snd].
  1-2: destruct (Hcaught x) as (Hno & Hraise & Hnever);
    (split; [split; [intros H; now destruct (Hno H)
                    | intros [(_ & _ & ? & ?) _]; congruence]|]);
    (split; [split; [congruence | intros (_ & _ & ? & ?); congruence]|]);
    (split; [intros e He; split; [reflexivity|]; split; [reflexivity|];
             exists x; split; [now apply Hraise|];
             right; first [left; reflexivity | right; reflexivity]
            | intros Hfine; right; now apply Hnever]).
  all: destruct resp as [|description|thrown]; cbn [fst snd].
  all: try destruct (Hcaught thrown) as (Hno & Hraise & Hnever).
  all: split;
    [split; [intros H; try discriminate H; try (now destruct (Hno H));
             repeat split; discriminate
            | intros [_ H]; try discriminate H; reflexivity]|].
  all: split;
    [split; [intros _; repeat split; discriminate | discriminate]|].
  all: split;
    [intros e He;
     first [discriminate He
           | split; [reflexivity|]; split; [reflexivity|];
             exists thrown; split; [now apply Hraise | now left]]
    | intros Hfine; first [now left | now right
                          | right; now apply Hnever]].
Qed.

(** ** The results above at concrete rows *)

Lemma increment_then_check_witness :
  hourCount
    (fst (checkRateLimit utcHost (tenOClock + 60000)
            (snd (incrementRateLimit utcHost tenOClock threeSends))))
  = Some 4
  /\ dayCount
       (fst (checkRateLimit utcHost (tenOClock + 60000)
               (snd (incrementRateLimit utcHost tenOClock threeSends))))
     = Some 4.
Proof.
  apply (increment_then_check utcHost tenOClock (tenOClock + 60000) threeSends).
  - vm_compute. split; reflexivity.
  - vm_compute. split; reflexivity.
  - reflexivity.
  - vm_compute. reflexivity.
  - vm_compute. reflexivity.
Defined.

Lemma day_counter_forgotten_after_six_hours_witness :
  dayCount
    (fst (checkRateLimit utcHost (tenOClock + 21600000)
            (snd (incrementRateLimit utcHost tenOClock threeSends))))
  = Some 0.
Proof.
  apply (day_counter_forgotten_after_six_hours utcHost tenOClock
           (tenOClock + 21600000) threeSends).
  - vm_compute. discriminate.
  - vm_compute. reflexivity.
Defined.

Lemma reset_clears_counters_witness :
  isAllowed
    (fst (checkRateLimit utcHost (tenOClock + 1800000)
            (snd (resetRateLimit utcHost (tenOClock + 1500000)
                    (<[js "msg_count_hour_2024_0_1_10" := js "3"]>
                       (<[js "TOKEN" := js "123456:abcdef"]> ∅))
                    threeSends))))
  = true
  /\ snd (fst (resetRateLimit utcHost (tenOClock + 1500000)
                 (<[js "msg_count_hour_2024_0_1_10" := js "3"]>
                    (<[js "TOKEN" := js "123456:abcdef"]> ∅))
                 threeSends))
     !! js "msg_count_hour_2024_0_1_10" = None.
Proof.
  destruct (reset_clears_counters utcHost (tenOClock + 1500000)
              (tenOClock + 1800000) threeSends
              (<[js "msg_count_hour_2024_0_1_10" := js "3"]>
                 (<[js "TOKEN" := js "123456:abcdef"]> ∅)))
    as (_ & _ & Hallowed & Hprops).
  - vm_compute. reflexivity.
  - vm_compute. reflexivity.
  - split; [exact Hallowed|]. apply (Hprops (js "msg_count_hour_2024_0_1_10")).
Defined.


Lemma budget_spent_only_by_sends_witness :
  cacheAfter
    (sendScheduledMessages utcHost (fun e => e) (tenOClock + 1500)
       (fun _ => someClock) (fun _ => RespThrows (js "Timeout"))
       [headerRow; minuteRow (VStr [])] threeSends)
  = threeSends.
Proof.
  apply (budget_spent_only_by_sends utcHost (fun e => e) (tenOClock + 1500)
           (fun _ => someClock) (fun _ => RespThrows (js "Timeout"))
           [headerRow; minuteRow (VStr [])] threeSends).
  vm_compute. reflexivity.
Defined.

Lemma run_writes_last_sent_only_witness :
  5%nat = 5%nat /\ (2 <= 2 <= length [headerRow; minuteRow (VStr [])])%nat
  /\ (VDate (Some tenOClock)
      = VDate (setSeconds00 utcHost (Some (tenOClock + 1500)))
      \/ exists tag rest,
           VDate (Some tenOClock) = VStr (tag ++ rest)
           /\ In tag [js "ERROR: "; js "BLOCKED: "; js "RATE_LIMITED: "]).
Proof.
  apply (run_writes_last_sent_only utcHost (fun e => e) (fun _ => someClock)
           (fun _ => RespOk) [headerRow; minuteRow (VStr [])]
           (tenOClock + 1500) ∅ 2 5 (VDate (Some tenOClock))).
  vm_compute. right. right. left. reflexivity.
Defined.

Lemma failed_send_reads_as_unsent_witness :
  parseLastSent utcHost (VStr (js "ERROR: Bad Request")) = None
  /\ cacheAfter
       (sendRow utcHost (fun e => e) tenOClock someClock
          (RespNotOk (js "Bad Request")) 1 (VStr (js "test zeitslot"))
          (validateMessage utcHost (VStr (js "test zeitslot"))) threeSends)
     = threeSends.
Proof.
  apply (failed_send_reads_as_unsent utcHost (fun e => e) tenOClock someClock
           (RespNotOk (js "Bad Request")) 1 (VStr (js "test zeitslot"))
           (validateMessage utcHost (VStr (js "test zeitslot"))) threeSends
           2 5 (VStr (js "ERROR: Bad Request"))).
  - discriminate.
  - right. left. reflexivity.
Defined.

Lemma non_text_repeat_stops_the_run_witness :
  processRows utcHost (fun e => e) tenOClock (fun _ => someClock)
    (fun _ => RespOk)
    [headerRow; rowAtTen (VNum 7) (VStr []); minuteRow (VStr [])] 1
    [rowAtTen (VNum 7) (VStr []); minuteRow (VStr [])] ∅
  = abort ∅ (js "TypeError: repeatRaw.toLowerCase is not a function").
Proof.
  apply (non_text_repeat_stops_the_run utcHost (fun e => e) tenOClock
           (fun _ => someClock) (fun _ => RespOk)
           [headerRow; rowAtTen (VNum 7) (VStr []); minuteRow (VStr [])] 1
           (rowAtTen (VNum 7) (VStr [])) [minuteRow (VStr [])] ∅);
    reflexivity.
Defined.

Lemma send_needs_text_messages_witness :
  isString (cell (rowAtTen (VStr (js "weekly")) (VStr [])) COL_MESSAGE) = true.
Proof.
  apply (send_needs_text_messages utcHost (fun e => e) tenOClock someClock
           RespOk
           [headerRow; rowAtTen (VStr (js "weekly")) (VStr []);
            minuteRow (VStr [])]
           2 (minuteRow (VStr [])) ∅ (VStr (js "test zeitslot")) 1
           (rowAtTen (VStr (js "weekly")) (VStr []))).
  - vm_compute. right. left. reflexivity.
  - reflexivity.
  - lia.
  - lia.
  - reflexivity.
Defined.

Lemma unrecognised_recurrence_is_silent_witness :
  runAlone (rowAtTen (VStr (js " Dayly ")) (VStr [])) = skip ∅.
Proof.
  apply (unrecognised_recurrence_is_silent utcHost (fun e => e) tenOClock
           someClock RespOk
           [headerRow; rowAtTen (VStr (js " Dayly ")) (VStr [])] 1
           (rowAtTen (VStr (js " Dayly ")) (VStr [])) ∅ (js " Dayly ")).
  - reflexivity.
  - vm_compute. intros H.
    repeat (destruct H as [H|H]; [discriminate H|]). exact H.
Defined.

Lemma every_n_days_on_multiples_witness :
  shouldSend (fixedHost 120) (tenOClock + 6 * msPerDay) (Some tenOClock)
    (js "every 3 days") None = true.
Proof.
  apply (every_n_days_on_multiples 120 (tenOClock + 6 * msPerDay + 4000)
           (tenOClock + 30000) (tenOClock + 6 * msPerDay) tenOClock 3
           (js "every 3 days") None).
  - right. left. reflexivity.
  - vm_compute. reflexivity.
  - vm_compute. reflexivity.
  - exists 2. split; [lia | vm_compute; reflexivity].
Defined.

Lemma sentThisMinute_iff_witness :
  sentThisMinute utcHost tenOClock (Some (Some (tenOClock + 59999))) = true
  /\ sentThisMinute utcHost tenOClock (Some (Some (tenOClock + 60000))) = false.
Proof.
  assert (Hinj : forall a b : Z,
             utcOfLocal utcHost a = utcOfLocal utcHost b -> a = b)
    by (cbn; intros a b; lia).
  assert (Hyear : forall t : Z,
             YearFromTime (localTime utcHost t) = 2024 ->
             ~ 0 <= YearFromTime (localTime utcHost t) <= 99)
    by (intros t ->; lia).
  split.
  - apply (sentThisMinute_iff utcHost tenOClock (tenOClock + 59999) Hinj).
    + apply Hyear. vm_compute. reflexivity.
    + apply Hyear. vm_compute. reflexivity.
    + vm_compute. reflexivity.
  - vm_compute. reflexivity.
Defined.

Lemma debug_verdict_binds_scheduler_witness :
  processRow utcHost (fun e => e) (tenOClock + 60000) someClock RespOk
    [headerRow; rowAtTen (VStr (js "weekly")) (VStr [])] 1
    (rowAtTen (VStr (js "weekly")) (VStr [])) ∅
  = skip ∅.
Proof.
  assert (Hdebug : exists a,
             debugRow utcHost (tenOClock + 60000)
               (rowAtTen (VStr (js "weekly")) (VStr [])) = Ok a
             /\ debugShouldSend a = false).
  { eexists. split; [reflexivity|]. vm_compute. reflexivity. }
  destruct Hdebug as (a & Ha & Hno).
  apply (debug_verdict_binds_scheduler utcHost (fun e => e)
           (tenOClock + 60000) someClock RespOk
           [headerRow; rowAtTen (VStr (js "weekly")) (VStr [])] 1
           (rowAtTen (VStr (js "weekly")) (VStr [])) ∅ a).
  - reflexivity.
  - vm_compute. reflexivity.
  - exact Ha.
  - exact Hno.
Defined.

Lemma duplicate_verdict_meaning_witness :
  exists r,
    detectDuplicateContent utcHost tenOClock (VStr (js "test zeitslot"))
      [headerRow;
       [VDate (Some tenOClock); VStr (js "  Test   ZEITSLOT "); VStr [];
        VBool true; VDate (Some (tenOClock - 7200000))];
       rowAtTen (VStr (js "daily")) (VStr [])] 1 = Ok r
    /\ isDuplicate r = true.
Proof.
  assert (Hrun : exists r,
             detectDuplicateContent utcHost tenOClock
               (VStr (js "test zeitslot"))
               [headerRow;
                [VDate (Some tenOClock); VStr (js "  Test   ZEITSLOT ");
                 VStr []; VBool true; VDate (Some (tenOClock - 7200000))];
                rowAtTen (VStr (js "daily")) (VStr [])] 1 = Ok r).
  { eexists. vm_compute. reflexivity. }
  destruct Hrun as [r Hr]. exists r. split; [exact Hr|].
  apply (duplicate_verdict_meaning utcHost tenOClock (js "test zeitslot")
           [headerRow;
            [VDate (Some tenOClock); VStr (js "  Test   ZEITSLOT "); VStr [];
             VBool true; VDate (Some (tenOClock - 7200000))];
            rowAtTen (VStr (js "daily")) (VStr [])] 1 r).
  - discriminate.
  - lia.
  - vm_compute. discriminate.
  - vm_compute. discriminate.
  - exact Hr.
  - exists 1%nat,
      [VDate (Some tenOClock); VStr (js "  Test   ZEITSLOT "); VStr [];
       VBool true; VDate (Some (tenOClock - 7200000))],
      (tenOClock - 7200000).
    split; [reflexivity|]. split; [lia|]. split; [lia|].
    exists (js "  Test   ZEITSLOT "),
      (dateToString utcHost (Some (tenOClock - 7200000))).
    split; [reflexivity|]. split; [discriminate|].
    split; [vm_compute; reflexivity|]. split; [reflexivity|].
    split; [reflexivity|]. split; [reflexivity|].
    split; [vm_compute; discriminate|].
    split; vm_compute; reflexivity.
Defined.

Lemma excessive_caps_needs_a_capital_witness :
  exists c, In c (js "TEST ZEITslot") /\ isUpperAZ c = true.
Proof.
  apply (excessive_caps_needs_a_capital (js "TEST ZEITslot")).
  vm_compute. reflexivity.
Defined.


(** The scheduled instant of a row is compared with its seconds in the
    debug analysis and without them in the scheduler: an "every 2 days"
    row scheduled at 10:00:30 is sent two days later at 10:00, while the
    analysis of the same row at the same instant answers that the
    schedule does not hold. *)
Example debug_analysis_keeps_the_seconds :
  let row : Row :=
    [VDate (Some (tenOClock + 30000)); VStr (js "test zeitslot");
     VStr (js "every 2 days"); VBool true; VStr []] in
  rowDue utcHost (tenOClock + 2 * msPerDay) row = Ok true
  /\ (let! a := debugRow utcHost (tenOClock + 2 * msPerDay) row in
      Ok (debugShouldSend a)) = Ok false.
Proof. vm_compute. split; reflexivity. Qed.
